(** * Sierra DB Query: session and request-dispatch layer

    A shallow embedding of the request-routing core of the server
    ([src/index.ts], the HTTP variant, together with [src/types/tool.ts],
    [src/utils/connection.ts] and the entry of the tool handlers) and the
    properties of it that the specification talks about.

    JavaScript objects used as dictionaries are finite maps; promises are
    represented by the way they settle; everything the code gets from the
    outside (the file system, the MCP SDK, the database) is an explicit
    input of the functions below.  A JavaScript string is held as the
    bytes of its UTF-8 encoding. *)

From Stdlib Require Import ZArith Ascii String DecimalString.
From stdpp Require Import gmap strings list.

Local Open Scope string_scope.
Set Warnings "-register-all,-clear-no-such-hyp".

(** ** JavaScript values *)

Module JS.

(** The values that travel through the dispatcher: what [JSON.parse]
    produces, plus [undefined].  Numbers are kept as integers; no property
    below depends on fractional numbers.  [VNum n] is the number that an
    integer literal [n] denotes: where it is printed, [n] is first rounded
    to a double ([Doubles.ofInteger]). *)
Inductive Value :=
| VUndefined
| VNull
| VBool (b : bool)
| VNum (n : Z)
| VStr (s : string)
| VArr (items : list Value)
| VObj (fields : list (string * Value)).

(** [ToBoolean]: what [if (v)], [!v] and [a && b] look at. *)
Definition truthy (v : Value) : bool :=
  match v with
  | VUndefined | VNull => false
  | VBool b => b
  | VNum n => negb (n =? 0)%Z
  | VStr s => negb (String.eqb s "")
  | VArr _ | VObj _ => true
  end.

(** A [string | undefined] such as a CLI option, an environment variable
    or a request header. *)
Definition ofOptional (o : option string) : Value :=
  match o with
  | Some s => VStr s
  | None => VUndefined
  end.

Fixpoint assoc (fields : list (string * Value)) (k : string) : Value :=
  match fields with
  | [] => VUndefined
  | (k', v) :: rest => if String.eqb k' k then v else assoc rest k
  end.

(** [v.k] for a key [k] that no prototype defines (the code only reads
    [enabledTools] and [connectionString] this way), on a [v] that is
    neither [null] nor [undefined]. *)
Definition property (v : Value) (k : string) : Value :=
  match v with
  | VObj fields => assoc fields k
  | _ => VUndefined
  end.

Definition isArray (v : Value) : bool :=
  match v with
  | VArr _ => true
  | _ => false
  end.

(** [typeof v === 'string'] *)
Definition isString (v : Value) : bool :=
  match v with
  | VStr _ => true
  | _ => false
  end.

Definition arrayItems (v : Value) : list Value :=
  match v with
  | VArr items => items
  | _ => []
  end.

Definition stringsOf (items : list Value) : list string :=
  omap (fun v => match v with VStr s => Some s | _ => None end) items.

(** The members every object literal [{}] inherits from
    [Object.prototype]; each of them is a function or an object, hence
    truthy. *)
Definition objectPrototypeMembers : list string :=
  [ "constructor"; "__defineGetter__"; "__defineSetter__"; "hasOwnProperty";
    "__lookupGetter__"; "__lookupSetter__"; "isPrototypeOf";
    "propertyIsEnumerable"; "toString"; "valueOf"; "__proto__";
    "toLocaleString" ].

Definition inherited (k : string) : bool :=
  bool_decide (k ∈ objectPrototypeMembers).

(** The result of [obj[k]] on a dictionary that started as [{}]:
    an entry of the dictionary, a member of [Object.prototype], or
    [undefined]. *)
Inductive Lookup (A : Type) :=
| Own (a : A)
| Inherited
| Missing.
Arguments Own {A} a.
Arguments Inherited {A}.
Arguments Missing {A}.

Definition get {A} (obj : gmap string A) (k : string) : Lookup A :=
  match obj !! k with
  | Some a => Own a
  | None => if inherited k then Inherited else Missing
  end.

(** Truthiness of [obj[k]] when the entries are objects. *)
Definition has {A} (obj : gmap string A) (k : string) : bool :=
  match get obj k with
  | Missing => false
  | _ => true
  end.

(** The double-quote character (a template literal of the source contains it). *)
Definition dq : string := String "034"%char EmptyString.

End JS.

(** ** White space in strings *)

Module Unicode.

Definition byteIs (c : ascii) (code : N) : bool := N.eqb (N_of_ascii c) code.

Definition within (c : ascii) (first last : N) : bool :=
  (first <=? N_of_ascii c)%N && (N_of_ascii c <=? last)%N.

(** [s.trimStart()].  It removes the code points of [WhiteSpace] and
    [LineTerminator]: U+0009 to U+000D and U+0020, one byte each;
    U+00A0, two bytes; U+1680, U+2000 to U+200A, U+2028, U+2029, U+202F,
    U+205F, U+3000 and U+FEFF, three bytes each. *)
Fixpoint trimStart (s : string) : string :=
  match s with
  | String a rest =>
      if within a 9 13 || byteIs a 32 then trimStart rest
      else
        match rest with
        | String b rest1 =>
            if byteIs a 194 && byteIs b 160 then trimStart rest1
            else
              match rest1 with
              | String c rest2 =>
                  if (byteIs a 225 && byteIs b 154 && byteIs c 128)
                     || (byteIs a 226 && byteIs b 128
                         && (within c 128 138 || byteIs c 168 || byteIs c 169
                             || byteIs c 175))
                     || (byteIs a 226 && byteIs b 129 && byteIs c 159)
                     || (byteIs a 227 && byteIs b 128 && byteIs c 128)
                     || (byteIs a 239 && byteIs b 187 && byteIs c 191)
                  then trimStart rest2
                  else s
              | EmptyString => s
              end
        | EmptyString => s
        end
  | EmptyString => s
  end.

(** [s.trimEnd()]: the string is cut where all that follows is white
    space. *)
Fixpoint trimEnd (s : string) : string :=
  match s with
  | String c rest => if String.eqb (trimStart s) "" then "" else String c (trimEnd rest)
  | EmptyString => s
  end.

(** [s.trim()] *)
Definition trim (s : string) : string := trimEnd (trimStart s).

End Unicode.

(** ** Numbers *)

Module Doubles.

(** A JavaScript number whose value is an integer, [NaN], or an
    infinity.  [-0] is not told apart from [0]: nothing below prints or
    divides by the result of [parseInt]. *)
Inductive Double :=
| NaN
| Finite (z : Z)
| Infinity (negative : bool).

(** The double nearest to the integer [n > 0], ties to the even
    significand of 53 bits. *)
Definition roundPositive (n : Z) : Z :=
  let bits := (Z.log2 n + 1)%Z in
  if (bits <=? 53)%Z then n
  else
    let shift := (bits - 53)%Z in
    let q := Z.shiftr n shift in
    let r := Z.land n (Z.ones shift) in
    let half := Z.shiftl 1 (shift - 1) in
    let q' := if (half <? r)%Z || ((r =? half)%Z && Z.odd q) then (q + 1)%Z else q in
    Z.shiftl q' shift.

(** The number value of a mathematical integer. *)
Definition ofInteger (n : Z) : Double :=
  let m := roundPositive (Z.abs n) in
  if (2 ^ 1024 <=? m)%Z then Infinity (n <? 0)%Z else Finite (Z.sgn n * m).

Definition digitsOf (n : Z) : string := NilZero.string_of_int (Z.to_int n).

(** [Number::toString] looks for the fewest significant digits whose
    value is the double [x].  With [k] digits the candidates are the two
    multiples of [10^(D-k)] around [x], [D] being the number of digits
    of [x]; of two that both round to [x] the nearer one is taken. *)
Definition shortestWith (x : Z) (k : nat) : option Z :=
  let D := Z.of_nat (String.length (digitsOf x)) in
  let scale := (10 ^ (D - Z.of_nat k))%Z in
  let lo := (x / scale * scale)%Z in
  let hi := (lo + scale)%Z in
  let okLo := (roundPositive lo =? x)%Z in
  let okHi := (roundPositive hi =? x)%Z in
  if okLo && okHi then
    if (x - lo <? hi - x)%Z then Some lo
    else if (hi - x <? x - lo)%Z then Some hi
    else if Z.even (lo / scale) then Some lo else Some hi
  else if okLo then Some lo
  else if okHi then Some hi
  else None.

Fixpoint shortestFrom (x : Z) (k : nat) (fuel : nat) : Z :=
  match fuel with
  | O => x
  | S fuel =>
      match shortestWith x k with
      | Some v => v
      | None => shortestFrom x (S k) fuel
      end
  end.

(** Seventeen significant digits always identify a double. *)
Definition shortest (x : Z) : Z := shortestFrom x 1 17.

Fixpoint dropZeros (reversed : string) : string :=
  match reversed with
  | String "0" rest => dropZeros rest
  | _ => reversed
  end.

(** Up to 21 digits are written out; from there on the form is
    [d.ddde+n]. *)
Definition positiveToString (x : Z) : string :=
  let digits := digitsOf (shortest x) in
  let n := String.length digits in
  if (n <=? 21)%nat then digits
  else
    let significant := String.rev (dropZeros (String.rev digits)) in
    match significant with
    | String first EmptyString => String first ("e+" +:+ digitsOf (Z.of_nat n - 1))
    | String first more =>
        String first ("." +:+ more +:+ "e+" +:+ digitsOf (Z.of_nat n - 1))
    | EmptyString => digits
    end.

(** [String(d)] *)
Definition toString (d : Double) : string :=
  match d with
  | NaN => "NaN"
  | Infinity negative => if negative then "-Infinity" else "Infinity"
  | Finite z =>
      if (z =? 0)%Z then "0"
      else if (z <? 0)%Z then "-" +:+ positiveToString (roundPositive (- z))
      else positiveToString (roundPositive z)
  end.

End Doubles.

(** ** Zod schemas *)

Module Zod.
Import JS.

(** The schema combinators the tools use. [.describe(...)] only attaches
    documentation and is dropped. *)
Inductive Schema :=
| ZString
| ZNumber
| ZBoolean
| ZEnum (options : list string)
| ZArray (item : Schema)
| ZOptional (inner : Schema)
| ZDefault (inner : Schema) (dflt : Value)
| ZObject (shape : list (string * Schema)).

(** [schema.safeParse(v).success].  [z.object] ignores keys that are not
    in its shape. *)
Fixpoint accepts (schema : Schema) (v : Value) : bool :=
  match schema with
  | ZString => isString v
  | ZNumber => match v with VNum _ => true | _ => false end
  | ZBoolean => match v with VBool _ => true | _ => false end
  | ZEnum options =>
      match v with
      | VStr s => bool_decide (s ∈ options)
      | _ => false
      end
  | ZArray item =>
      match v with
      | VArr items => forallb (accepts item) items
      | _ => false
      end
  | ZOptional inner =>
      match v with
      | VUndefined => true
      | _ => accepts inner v
      end
  | ZDefault inner _ =>
      match v with
      | VUndefined => true
      | _ => accepts inner v
      end
  | ZObject shape =>
      match v with
      | VObj fields =>
          (fix all (shape : list (string * Schema)) : bool :=
             match shape with
             | [] => true
             | (k, s) :: rest => accepts s (assoc fields k) && all rest
             end) shape
      | _ => false
      end
  end.

End Zod.

(** ** MCP types: errors, outputs, tools *)

Module Mcp.
Import JS.

(** [ErrorCode] of the SDK; the two members the source uses. *)
Inductive ErrorCode :=
| MethodNotFound
| InvalidParams.

(** A value that was thrown (or a promise rejection).  [message] is the
    [.message] of the error object. *)
Inductive Thrown :=
| ThrownError (message : string)
| ThrownMcpError (code : ErrorCode) (message : string)
| ThrownValue (stringified : string).

(** How an [async] function settles: it returns or it throws. *)
Inductive Completion (A : Type) :=
| Returns (a : A)
| Throws (e : Thrown).
Arguments Returns {A} a.
Arguments Throws {A} e.

(** What the source takes from the SDK as given: the [.message] that the
    constructor [new McpError(code, message)] gives the error, and the
    type guard [isInitializeRequest] on a request body. *)
Class Sdk (Body : Type) := {
  mcpErrorMessage : ErrorCode -> string -> string;
  isInitializeRequest : Body -> bool
}.

Definition newMcpError `{Sdk Body} (code : ErrorCode) (message : string) : Thrown :=
  ThrownMcpError code (mcpErrorMessage code message).

(** [src/types/tool.ts] *)
Inductive ContentPart :=
| TextPart (text : string).

Record ToolOutput := {
  content : list ContentPart;
  isError : option bool
}.

Definition GetConnectionStringFn := Value -> Completion Value.

Record SierraTool := {
  name : string;
  description : string;
  inputSchema : Zod.Schema;
  execute : Value -> GetConnectionStringFn -> Completion ToolOutput
}.

(** [request.params] of a [tools/call] request.  The SDK has checked the
    request against [CallToolRequestSchema] before the handler runs: the
    name is a string and the arguments are an object or absent. *)
Record CallToolRequest := {
  params_name : string;
  params_arguments : Value
}.

(** The two slots of a JSON-RPC response.  A request handler registered
    with [setRequestHandler] fills [result] with what it returns; only a
    handler that throws gets the [error] slot. *)
Inductive Envelope :=
| ResultSlot (result : ToolOutput)
| ErrorSlot (error : Thrown).

Definition respond (c : Completion ToolOutput) : Envelope :=
  match c with
  | Returns out => ResultSlot out
  | Throws e => ErrorSlot e
  end.

End Mcp.

(** ** The entry of the tool handlers *)

Module Tools.
Import JS Mcp Zod.

(** [src/tools/analyze.ts] *)
Definition AnalyzeDatabaseInputSchema : Schema :=
  ZObject
    [ ("connectionString", ZOptional ZString);
      ("analysisType", ZEnum ["configuration"; "performance"; "security"]) ].

(** [src/tools/users.ts] *)
Definition ManageUsersInputSchema : Schema :=
  ZObject
    [ ("connectionString", ZOptional ZString);
      ("operation",
        ZEnum ["create"; "drop"; "alter"; "grant"; "revoke"; "get_permissions"; "list"]);
      ("username", ZOptional ZString);
      ("password", ZOptional ZString);
      ("superuser", ZOptional ZBoolean);
      ("createdb", ZOptional ZBoolean);
      ("createrole", ZOptional ZBoolean);
      ("login", ZOptional ZBoolean);
      ("replication", ZOptional ZBoolean);
      ("inherit", ZOptional ZBoolean);
      ("connectionLimit", ZOptional ZNumber);
      ("validUntil", ZOptional ZString);
      ("permissions",
        ZOptional (ZArray (ZEnum ["SELECT"; "INSERT"; "UPDATE"; "DELETE"; "TRUNCATE";
                                  "REFERENCES"; "TRIGGER"; "ALL"])));
      ("targetType",
        ZOptional (ZEnum ["table"; "schema"; "database"; "sequence"; "function"]));
      ("target", ZOptional ZString);
      ("schema", ZOptional ZString);
      ("withGrantOption", ZOptional ZBoolean);
      ("cascade", ZOptional ZBoolean);
      ("ifExists", ZOptional ZBoolean);
      ("includeSystemRoles", ZOptional ZBoolean) ].

(** [const { connectionString: connStringArg, ... } = args as Input] throws
    a [TypeError] when [args] is [undefined] or [null] (V8 wording). *)
Definition cannotDestructure (what : string) : Thrown :=
  ThrownError
    ("Cannot destructure property 'connectionString' of 'args' as it is " +:+ what +:+ ".").

(** The shape of [execute] in [analyze.ts], [users.ts], [indexes.ts] and
    their siblings: the arguments are cast, not parsed, and destructured;
    the connection string is resolved; then comes a
    [try { connect; switch ... } catch { return error output }
    finally { disconnect }] block, which produces a [ToolOutput] on every
    path.  That block talks to the database and is the parameter
    [guarded], a function of the raw arguments and of the resolved
    connection string.  (The schema tool resolves the connection string
    inside its [try] block instead.) *)
Definition handler (guarded : Value -> Value -> ToolOutput)
    (args : Value) (getConnectionStringVal : GetConnectionStringFn)
    : Completion ToolOutput :=
  match args with
  | VUndefined => Throws (cannotDestructure "undefined")
  | VNull => Throws (cannotDestructure "null")
  | _ =>
      let connStringArg := property args "connectionString" in
      match getConnectionStringVal connStringArg with
      | Throws e => Throws e
      | Returns resolvedConnString => Returns (guarded args resolvedConnString)
      end
  end.

Definition analyzeDatabaseTool (guarded : Value -> Value -> ToolOutput) : SierraTool :=
  {| name := "sierra_analyze_database";
     description := "Analyze PostgreSQL database configuration and performance. analysisType can be " +:+ dq +:+ "configuration" +:+ dq +:+ ", " +:+ dq +:+ "performance" +:+ dq +:+ ", or " +:+ dq +:+ "security" +:+ dq +:+ ".";
     inputSchema := AnalyzeDatabaseInputSchema;
     execute := handler guarded |}.

Definition manageUsersTool (guarded : Value -> Value -> ToolOutput) : SierraTool :=
  {| name := "sierra_manage_users";
     description := "Manage PostgreSQL users and permissions - create, drop, alter users, grant/revoke permissions. Examples: operation=" +:+ dq +:+ "create" +:+ dq +:+ " with username=" +:+ dq +:+ "testuser" +:+ dq +:+ ", operation=" +:+ dq +:+ "grant" +:+ dq +:+ " with username, permissions, target, targetType";
     inputSchema := ManageUsersInputSchema;
     execute := handler guarded |}.

End Tools.

(** ** The server: registry, allow-list, connection resolver, dispatcher *)

Module Server.
Import JS Mcp.

(** What [fs.readFileSync(path, 'utf-8')] followed by [JSON.parse] gives:
    the first throws, the second throws, or there is a value. *)
Inductive ConfigFile :=
| Unreadable
| NotJson
| Parsed (config : Value).

(** What is fixed when the process starts: [program.opts()],
    [process.env] and the files. *)
Record Process := {
  options_connectionString : option string;
  options_toolsConfig : option string;
  env_POSTGRES_CONNECTION_STRING : option string;
  readAndParse : string -> ConfigFile
}.

Definition noConnectionString : string :=
  "No connection string provided. Provide one in the tool arguments, via the --connection-string CLI option, or set the POSTGRES_CONNECTION_STRING environment variable.".

Definition getConnectionString `{Sdk Body} (P : Process) (connectionStringArg : Value)
    : Completion Value :=
  if truthy connectionStringArg then Returns connectionStringArg
  else
    let cliConnectionString := ofOptional (options_connectionString P) in
    if truthy cliConnectionString then Returns cliConnectionString
    else
      let envConnectionString := ofOptional (env_POSTGRES_CONNECTION_STRING P) in
      if truthy envConnectionString then Returns envConnectionString
      else Throws (newMcpError InvalidParams noConnectionString).

(** [config && Array.isArray(config.enabledTools) &&
     config.enabledTools.every(t => typeof t === 'string')] *)
Definition wellFormed (config : Value) : bool :=
  truthy config
  && isArray (property config "enabledTools")
  && forallb isString (arrayItems (property config "enabledTools")).

(** The list that [loadAndFilterTools] stores in [this.enabledTools].
    The messages it prints are not modelled. *)
Definition loadAndFilterTools (P : Process) (availableToolsList : list SierraTool)
    : list SierraTool :=
  let toolsToEnable := availableToolsList in
  match options_toolsConfig P with
  | Some toolsConfigPath =>
      if truthy (VStr toolsConfigPath) then
        match readAndParse P toolsConfigPath with
        | Parsed config =>
            if wellFormed config then
              let enabledToolNames := stringsOf (arrayItems (property config "enabledTools")) in
              filter (fun tool => name tool ∈ enabledToolNames) availableToolsList
            else toolsToEnable
        | Unreadable | NotJson => toolsToEnable
        end
      else toolsToEnable
  | None => toolsToEnable
  end.

(** [toolsToEnable.reduce((acc, tool) => { acc[tool.name] = tool; return acc }, {})].
    Tool names are taken not to be [__proto__], the one key for which an
    assignment does not create an entry. *)
Definition byName (tools : list SierraTool) : gmap string SierraTool :=
  foldl (fun acc tool => <[name tool := tool]> acc) ∅ tools.

Record SierraDBServer := {
  availableToolsList : list SierraTool;
  enabledTools : list SierraTool;
  enabledToolsMap : gmap string SierraTool
}.

(** The constructor; [runStdio] and [runHttp] call [loadAndFilterTools]
    once more, with the same result. *)
Definition newSierraDBServer (P : Process) (initialTools : list SierraTool) : SierraDBServer :=
  let enabled := loadAndFilterTools P initialTools in
  {| availableToolsList := initialTools;
     enabledTools := enabled;
     enabledToolsMap := byName enabled |}.

(** The [ListToolsRequestSchema] handler (the JSON schema is left as the
    Zod schema it is computed from). *)
Definition listTools (srv : SierraDBServer) : list (string * string * Zod.Schema) :=
  map (fun tool => (name tool, description tool, inputSchema tool)) (enabledTools srv).

Definition availableButDisabled (toolName : string) : string :=
  "Tool " +:+ dq +:+ toolName +:+ dq +:+ " is available but not enabled by current configuration.".

Definition notEnabledOrMissing (toolName : string) : string :=
  "Tool '" +:+ toolName +:+ "' is not enabled or does not exist.".

(** V8's message for calling [tool.execute] when [tool] is a member of
    [Object.prototype] and has no [execute]. *)
Definition executeIsNotAFunction : Thrown :=
  ThrownError "tool.execute is not a function".

(** The body of the [try] block of the [CallToolRequestSchema] handler. *)
Definition tryCallTool `{Sdk Body} (P : Process) (srv : SierraDBServer)
    (request : CallToolRequest) : Completion ToolOutput :=
  let toolName := params_name request in
  match get (enabledToolsMap srv) toolName with
  | Missing =>
      let wasAvailable :=
        existsb (fun t => String.eqb (name t) toolName) (availableToolsList srv) in
      let message :=
        if wasAvailable then availableButDisabled toolName
        else notEnabledOrMissing toolName in
      Throws (newMcpError MethodNotFound message)
  | Inherited => Throws executeIsNotAFunction
  | Own tool => execute tool (params_arguments request) (getConnectionString P)
  end.

(** [error instanceof Error ? error.message : String(error)]; the second
    assignment, for an [McpError], picks the same field. *)
Definition errorMessageOf (error : Thrown) : string :=
  match error with
  | ThrownError message => message
  | ThrownMcpError _ message => message
  | ThrownValue stringified => stringified
  end.

Definition errorOutput (errorMessage : string) : ToolOutput :=
  {| content := [TextPart ("Error: " +:+ errorMessage)];
     isError := Some true |}.

(** The [CallToolRequestSchema] handler: [try { ... } catch (error) { ... }].
    What the [catch] block prints with [console.error] is not modelled. *)
Definition callTool `{Sdk Body} (P : Process) (srv : SierraDBServer)
    (request : CallToolRequest) : Completion ToolOutput :=
  match tryCallTool P srv request with
  | Returns result => Returns result
  | Throws error => Returns (errorOutput (errorMessageOf error))
  end.

End Server.

(** ** The HTTP adapter: [runHttp] *)

Module Http.
Import JS Mcp.

(** A reference to a [StreamableHTTPServerTransport] object. *)
Definition TransportRef := nat.

(** The state the routes share: the dictionary [transports], the
    [sessionId] property of each transport object (the SDK sets it when
    the transport initialises its session), and the number of transports
    constructed so far, which is also the next reference. *)
Record State := {
  transports : gmap string TransportRef;
  sessionIdOf : gmap TransportRef string;
  constructed : nat
}.

(** What the transport wrote to [res]. *)
Record Written := {
  status : nat;
  payload : string
}.

Inductive Settled :=
| Resolved (w : Written)
| Rejected (headersSent : bool).

(** What one call of [transport.handleRequest] does, as far as the
    adapter can see it: whether the transport initialises its session
    (then [sessionIdGenerator], that is [randomUUID()], gave the id, the
    transport stored it in its [sessionId] and called
    [onsessioninitialized] with it), whether it closes (then it calls
    [onclose]), and how the call settles. *)
Record SdkEffect := {
  initializes : option string;
  closes : bool;
  settles : Settled
}.

Inductive Reply :=
| JsonRpcError (httpStatus : nat) (code : Z) (message : string)
| PlainText (httpStatus : nat) (text : string)
| ByTransport (w : Written)
| Aborted.

Definition withTransports (f : gmap string TransportRef -> gmap string TransportRef)
    (S : State) : State :=
  {| transports := f (transports S);
     sessionIdOf := sessionIdOf S;
     constructed := constructed S |}.

(** [onsessioninitialized: (newSessionId) => { transports[newSessionId] = transport }] *)
Definition onsessioninitialized (transport : TransportRef) (newSessionId : string)
    (S : State) : State :=
  withTransports (fun transports => <[newSessionId := transport]> transports) S.

(** [transport.onclose = () => { const sid = transport.sessionId;
     if (sid && transports[sid]) { delete transports[sid] } }] *)
Definition onclose (transport : TransportRef) (S : State) : State :=
  let sid := sessionIdOf S !! transport in
  if truthy (ofOptional sid) && has (transports S) (default "" sid)
  then withTransports (fun transports => delete (default "" sid) transports) S
  else S.

(** The callbacks a call of [handleRequest] on [transport] triggers. *)
Definition callbacks (transport : TransportRef) (eff : SdkEffect) (S : State) : State :=
  let S1 :=
    match initializes eff with
    | Some newSessionId =>
        onsessioninitialized transport newSessionId
          {| transports := transports S;
             sessionIdOf := <[transport := newSessionId]> (sessionIdOf S);
             constructed := constructed S |}
    | None => S
    end in
  if closes eff then onclose transport S1 else S1.

Definition badRequest : Reply :=
  JsonRpcError 400 (-32000) "Bad Request: No valid session ID provided".

Definition internalServerError : Reply :=
  JsonRpcError 500 (-32603) "Internal server error".

Definition invalidOrMissing : Reply :=
  PlainText 400 "Invalid or missing session ID".

Definition terminationError : Reply :=
  PlainText 500 "Error processing session termination".

(** [await transport.handleRequest(...)] inside a [try] whose [catch]
    answers with [onError] unless the headers are already sent. *)
Definition handleRequest (onError : Reply) (transport : TransportRef) (eff : SdkEffect)
    (S : State) : Reply * State :=
  (match settles eff with
   | Resolved w => ByTransport w
   | Rejected headersSent => if headersSent then Aborted else onError
   end,
   callbacks transport eff S).

(** [app.post('/mcp', ...)].  [sessionId] is the [mcp-session-id] header;
    [connectRejects] tells whether [this.server.connect(transport)]
    throws. *)
Definition post_mcp `{Sdk Body} (sessionId : option string) (body : Body)
    (connectRejects : bool) (eff : SdkEffect) (S : State) : Reply * State :=
  let key := default "" sessionId in
  if truthy (ofOptional sessionId) && has (transports S) key then
    match get (transports S) key with
    | Own transport => handleRequest internalServerError transport eff S
    | _ => (internalServerError, S)
    end
  else if negb (truthy (ofOptional sessionId)) && isInitializeRequest body then
    let transport := constructed S in
    let S' :=
      {| transports := transports S;
         sessionIdOf := sessionIdOf S;
         constructed := Datatypes.S (constructed S) |} in
    if connectRejects then (internalServerError, S')
    else handleRequest internalServerError transport eff S'
  else (badRequest, S).

(** [app.delete('/mcp', ...)] *)
Definition delete_mcp (sessionId : option string) (eff : SdkEffect) (S : State)
    : Reply * State :=
  let key := default "" sessionId in
  if negb (truthy (ofOptional sessionId)) || negb (has (transports S) key) then
    (invalidOrMissing, S)
  else
    match get (transports S) key with
    | Own transport => handleRequest terminationError transport eff S
    | _ => (terminationError, S)
    end.

End Http.

(** ** The shared database connection: [src/utils/connection.ts] *)

Module Db.

(** A pool is identified by the connection string it was created for, a
    client by the pool it was checked out from and a serial number. *)
Record Client := {
  ofPool : string;
  serial : nat
}.

(** What reaches the database driver. *)
Inductive Event :=
| PoolCreated (connString : string)
| CheckedOut (k : Client)
| Ran (k : Client) (sql : string)
| Released (k : Client)
| PoolEnded (connString : string).

(** The fields of the one [DatabaseConnection] instance that
    [getInstance()] hands to every handler, the module-level
    [poolCache], and the driver's side: the number of clients handed out
    and the events so far, newest first.  The handlers call [connect]
    without options, so [connectionOptions] stays empty and is left out. *)
Record World := {
  pool : option string;
  client : option Client;
  connectionString : string;
  lastError : option string;
  poolCache : gset string;
  issued : nat;
  trace : list Event
}.

Definition initial : World :=
  {| pool := None; client := None; connectionString := ""; lastError := None;
     poolCache := ∅; issued := 0; trace := [] |}.

(** One call of a handler's [execute], after the connection string is
    resolved: the string it connects with and the statements that the
    selected arm of its [switch] sends through [db.query], in order. *)
Record Invocation := {
  conn : string;
  statements : list string
}.

(** How the handler's [try] block ends: it returns its result, or its
    [catch] returns the error output built from [message]. *)
Inductive Outcome :=
| Ok
| Failed (message : string).

(** Where an invocation is suspended: every [await] of an operation of
    the driver.  ([await this.disconnect()] and the return of an [async]
    method only defer to the microtask queue and are not suspension
    points for other requests.) *)
Inductive Pc :=
| Start
| AwaitCheckout (p : string)
| AwaitSelect1 (k : Client)
| AwaitPoolEnd (p : string)
| AwaitQuery (k : Client) (rest : list string)
| Finished (out : Outcome).

(** The result of the awaited operation.  The results are inputs: which
    of them the driver can give in a given state (a pool that was ended
    rejects every checkout, for one) is not part of the model, so that
    what is proved below holds whatever the driver answers, or for the
    answers the statement names. *)
Inductive Io :=
| Done
| Fails (message : string).

Definition release (w : World) : World :=
  match client w with
  | Some k =>
      {| pool := pool w; client := None; connectionString := connectionString w;
         lastError := lastError w; poolCache := poolCache w; issued := issued w;
         trace := Released k :: trace w |}
  | None => w
  end.

(** [disconnect()]: it keeps [this.pool]. *)
Definition disconnect (w : World) : World :=
  let w := release w in
  {| pool := pool w; client := client w; connectionString := "";
     lastError := lastError w; poolCache := poolCache w; issued := issued w;
     trace := trace w |}.

(** The handler's [finally { await db.disconnect() }]. *)
Definition handlerFinally (out : Outcome) (w : World) : Pc * World :=
  (Finished out, disconnect w).

(** The [catch] block of [connect], up to [await this.pool.end()]. *)
Definition connectCatch (message : string) (w : World) : Pc * World :=
  let w := release w in
  match pool w with
  | Some p =>
      (AwaitPoolEnd p,
       {| pool := pool w; client := client w; connectionString := connectionString w;
          lastError := Some message;
          poolCache := poolCache w ∖ {[connectionString w]};
          issued := issued w;
          trace := PoolEnded p :: trace w |})
  | None =>
      handlerFinally (Failed ("Failed to connect to database: " +:+ message))
        {| pool := pool w; client := client w; connectionString := connectionString w;
           lastError := Some message; poolCache := poolCache w; issued := issued w;
           trace := trace w |}
  end.

(** The handler after [await db.connect(...)]: [db.query] for the next
    statement, up to [await this.client.query(queryConfig)]. *)
Definition runQueries (todo : list string) (w : World) : Pc * World :=
  match todo with
  | [] => handlerFinally Ok w
  | sql :: rest =>
      match client w, pool w with
      | Some k, Some _ =>
          (AwaitQuery k rest,
           {| pool := pool w; client := client w; connectionString := connectionString w;
              lastError := lastError w; poolCache := poolCache w; issued := issued w;
              trace := Ran k sql :: trace w |})
      | _, _ => handlerFinally (Failed "Not connected to database") w
      end
  end.

(** [connect] from its first line to [await this.pool.connect()];
    [connString] is [connectionString || process.env.POSTGRES_CONNECTION_STRING],
    and [todo] is what the handler does once [connect] has returned. *)
Definition connect (connString : string) (todo : list string) (w : World) : Pc * World :=
  if String.eqb connString "" then
    connectCatch
      "No connection string provided and POSTGRES_CONNECTION_STRING environment variable is not set" w
  else if bool_decide (is_Some (pool w)) && String.eqb (connectionString w) connString then
    runQueries todo w
  else
    let w := if bool_decide (is_Some (pool w)) then disconnect w else w in
    let created := bool_decide (connString ∉ poolCache w) in
    (AwaitCheckout connString,
     {| pool := Some connString; client := client w; connectionString := connString;
        lastError := lastError w;
        poolCache := {[connString]} ∪ poolCache w;
        issued := issued w;
        trace := if created then PoolCreated connString :: trace w else trace w |}).

(** One step of an invocation: from the point where it is resumed with
    the result [io] of the operation it awaited to its next suspension.
    At [Start] nothing was awaited and [io] is not looked at. *)
Definition step (call : Invocation) (io : Io) (pc : Pc) (w : World) : Pc * World :=
  match pc with
  | Start => connect (conn call) (statements call) w
  | AwaitCheckout p =>
      match io with
      | Done =>
          let k := {| ofPool := p; serial := issued w |} in
          (AwaitSelect1 k,
           {| pool := pool w; client := Some k; connectionString := connectionString w;
              lastError := lastError w; poolCache := poolCache w;
              issued := S (issued w);
              trace := Ran k "SELECT 1" :: CheckedOut k :: trace w |})
      | Fails message => connectCatch message w
      end
  | AwaitSelect1 _ =>
      match io with
      | Done => runQueries (statements call) w
      | Fails message => connectCatch message w
      end
  | AwaitPoolEnd _ =>
      match io with
      | Done =>
          handlerFinally (Failed ("Failed to connect to database: " +:+ default "" (lastError w)))
            {| pool := None; client := client w; connectionString := connectionString w;
               lastError := lastError w; poolCache := poolCache w; issued := issued w;
               trace := trace w |}
      | Fails message => handlerFinally (Failed message) w
      end
  | AwaitQuery _ rest =>
      match io with
      | Done => runQueries rest w
      | Fails message =>
          handlerFinally (Failed ("Query failed: " +:+ message))
            {| pool := pool w; client := client w; connectionString := connectionString w;
               lastError := Some message; poolCache := poolCache w; issued := issued w;
               trace := trace w |}
      end
  | Finished out => (Finished out, w)
  end.

(** The world after the statements [todo] were sent on [k]. *)
Definition ran (k : Client) (todo : list string) (w : World) : World :=
  {| pool := pool w; client := client w; connectionString := connectionString w;
     lastError := lastError w; poolCache := poolCache w; issued := issued w;
     trace := (Ran k <$> reverse todo) ++ trace w |}.

(** Several invocations in flight over the one shared [World]. *)
Record System := {
  world : World;
  calls : list (Invocation * Pc)
}.

(** Resume invocation number [i] with [io]. *)
Definition resume (i : nat) (io : Io) (sys : System) : System :=
  match calls sys !! i with
  | Some (call, pc) =>
      let '(pc', w') := step call io pc (world sys) in
      {| world := w'; calls := <[i := (call, pc')]> (calls sys) |}
  | None => sys
  end.

Definition run (schedule : list (nat * Io)) (sys : System) : System :=
  foldl (fun sys '(i, io) => resume i io sys) sys schedule.

(** An invocation that runs with nothing else in flight. *)
Definition alone (call : Invocation) (ios : list Io) (w : World) : Pc * World :=
  foldl (fun '(pc, w) io => step call io pc w) (Start, w) ios.

End Db.

(** ** Concrete processes, registries and requests *)

Module Examples.
Import JS Mcp Server.

Definition codeNumber (code : ErrorCode) : string :=
  match code with
  | MethodNotFound => "-32601"
  | InvalidParams => "-32602"
  end.

Definition isObject (v : Value) : bool :=
  match v with
  | VObj _ => true
  | _ => false
  end.

(** [z.optional(schema)] *)
Definition optional (accepts : Value -> bool) (v : Value) : bool :=
  match v with
  | VUndefined => true
  | _ => accepts v
  end.

(** [InitializeRequestSchema.safeParse(body).success] with the schema of
    the SDK's [types.ts]: the method is ['initialize'], and [params] has
    a string [protocolVersion], the client's [capabilities] and a
    [clientInfo] with [name] and [version]; the objects admit further
    members. *)
Definition initializeRequestSchemaAccepts (body : Value) : bool :=
  let params := property body "params" in
  let meta := property params "_meta" in
  let capabilities := property params "capabilities" in
  let clientInfo := property params "clientInfo" in
  isObject body
  && match property body "method" with
     | VStr method => String.eqb method "initialize"
     | _ => false
     end
  && isObject params
  && optional
       (fun meta =>
          isObject meta
          && optional
               (fun token => match token with VStr _ | VNum _ => true | _ => false end)
               (property meta "progressToken"))
       meta
  && isString (property params "protocolVersion")
  && isObject capabilities
  && optional isObject (property capabilities "experimental")
  && optional isObject (property capabilities "sampling")
  && optional
       (fun roots =>
          isObject roots
          && optional (fun flag => match flag with VBool _ => true | _ => false end)
               (property roots "listChanged"))
       (property capabilities "roots")
  && isObject clientInfo
  && isString (property clientInfo "name")
  && isString (property clientInfo "version").

(** An SDK to run the examples with: error messages in the layout
    [MCP error <code>: <message>] of the [McpError] constructor, and the
    guard [isInitializeRequest]. *)
Definition sdk : Sdk Value :=
  {| mcpErrorMessage code message := "MCP error " +:+ codeNumber code +:+ ": " +:+ message;
     isInitializeRequest := initializeRequestSchemaAccepts |}.

(** The guarded block of a handler, for the examples: it reports the
    operation it was asked for and the connection string it got. *)
Definition echo (args resolvedConnString : Value) : ToolOutput :=
  {| content :=
       [TextPart (match property args "operation" with VStr s => s | _ => "?" end);
        TextPart (match resolvedConnString with VStr s => s | _ => "?" end)];
     isError := None |}.

Definition allTools : list SierraTool :=
  [Tools.analyzeDatabaseTool echo; Tools.manageUsersTool echo].

(** [tools-config.json] with [{ "enabledTools": ["sierra_manage_users"] }] *)
Definition onlyUsers : Value :=
  VObj [("enabledTools", VArr [VStr "sierra_manage_users"])].

Definition files (path : string) : ConfigFile :=
  if String.eqb path "tools-config.json" then Parsed onlyUsers
  else if String.eqb path "broken.json" then NotJson
  else Unreadable.

(** No flag, no environment variable. *)
Definition bare : Process :=
  {| options_connectionString := None;
     options_toolsConfig := None;
     env_POSTGRES_CONNECTION_STRING := None;
     readAndParse := files |}.

(** [--connection-string postgresql://localhost/app] *)
Definition withDefault : Process :=
  {| options_connectionString := Some "postgresql://localhost/app";
     options_toolsConfig := None;
     env_POSTGRES_CONNECTION_STRING := Some "postgresql://localhost/env";
     readAndParse := files |}.

(** [--tools-config tools-config.json] *)
Definition restricted : Process :=
  {| options_connectionString := Some "postgresql://localhost/app";
     options_toolsConfig := Some "tools-config.json";
     env_POSTGRES_CONNECTION_STRING := None;
     readAndParse := files |}.

Definition call (toolName : string) (arguments : Value) : CallToolRequest :=
  {| params_name := toolName; params_arguments := arguments |}.

(** The texts the example SDK makes the dispatcher answer with. *)
Definition noConnectionStringText : string :=
  "Error: MCP error -32602: No connection string provided. Provide one in the tool arguments, via the --connection-string CLI option, or set the POSTGRES_CONNECTION_STRING environment variable.".

Definition disabledText : string :=
  "Error: MCP error -32601: Tool " +:+ dq +:+ "sierra_analyze_database" +:+ dq
  +:+ " is available but not enabled by current configuration.".

Definition unknownText (toolName : string) : string :=
  "Error: MCP error -32601: Tool '" +:+ toolName +:+ "' is not enabled or does not exist.".

Definition failure (text : string) : ToolOutput :=
  {| content := [TextPart text]; isError := Some true |}.

Definition cannotDestructureText : string :=
  "Error: Cannot destructure property 'connectionString' of 'args' as it is undefined.".


(** A state of the HTTP adapter with one live session. *)
Definition liveSession : string := "7d1f4c1e-0b5a-4c58-9d57-2f0c0f1f6a11".

Definition oneSession : Http.State :=
  {| Http.transports := {[liveSession := 0]};
     Http.sessionIdOf := {[0 := liveSession]};
     Http.constructed := 1 |}.

(** [handleRequest] answers 200 and closes the transport. *)
Definition closing : Http.SdkEffect :=
  {| Http.initializes := None;
     Http.closes := true;
     Http.settles := Http.Resolved {| Http.status := 200; Http.payload := "" |} |}.

(** [handleRequest] answers 200 and nothing else happens. *)
Definition answering : Http.SdkEffect :=
  {| Http.initializes := None;
     Http.closes := false;
     Http.settles := Http.Resolved {| Http.status := 200; Http.payload := "" |} |}.

(** [handleRequest] initialises the session of a new transport. *)
Definition initializing (newSessionId : string) : Http.SdkEffect :=
  {| Http.initializes := Some newSessionId;
     Http.closes := false;
     Http.settles := Http.Resolved {| Http.status := 200; Http.payload := "" |} |}.

(** The [initialize] request of [docs/07-API-ENDPOINTS.md]. *)
Definition initializeBody : Value :=
  VObj [("jsonrpc", VStr "2.0"); ("id", VNum 1); ("method", VStr "initialize");
        ("params",
          VObj [("protocolVersion", VStr "2024-11-05");
                ("capabilities", VObj []);
                ("clientInfo",
                  VObj [("name", VStr "my-client"); ("version", VStr "1.0.0")])])].

(** An [initialize] request without [params], which the guard refuses. *)
Definition bareInitializeBody : Value :=
  VObj [("jsonrpc", VStr "2.0"); ("id", VNum 1); ("method", VStr "initialize")].

Definition callBody : Value :=
  VObj [("jsonrpc", VStr "2.0"); ("id", VNum 2); ("method", VStr "tools/call")].

(** Two invocations for two tenants, and the order in which the event
    loop resumes them: A starts, B starts, A gets its client, B gets its
    client, A's [SELECT 1] returns and A sends its statement. *)
Definition tenantA : Db.Invocation :=
  {| Db.conn := "postgresql://tenant-a/db"; Db.statements := ["DROP INDEX a_idx"] |}.

Definition tenantB : Db.Invocation :=
  {| Db.conn := "postgresql://tenant-b/db"; Db.statements := ["DROP INDEX b_idx"] |}.

Definition bothStarted : Db.System :=
  {| Db.world := Db.initial; Db.calls := [(tenantA, Db.Start); (tenantB, Db.Start)] |}.

Definition overlapping : list (nat * Db.Io) :=
  [(0, Db.Done); (1, Db.Done); (0, Db.Done); (1, Db.Done); (0, Db.Done)].

Definition clientOfA : Db.Client := {| Db.ofPool := "postgresql://tenant-a/db"; Db.serial := 0 |}.

Definition clientOfB : Db.Client := {| Db.ofPool := "postgresql://tenant-b/db"; Db.serial := 1 |}.

End Examples.

(** ** The wording of the specification, for comparison *)

Module Spec.
Import JS Server.

(** "The file parses to a valid [enabledTools] string array": the
    document is an object whose [enabledTools] member is an array of
    strings; the result is that array. *)
Definition allowList (file : ConfigFile) : option (list string) :=
  match file with
  | Parsed (VObj fields) =>
      match assoc fields "enabledTools" with
      | VArr items => if forallb isString items then Some (stringsOf items) else None
      | _ => None
      end
  | _ => None
  end.

End Spec.

(** ** The rest of [src/index.ts]: warnings, transport selection, port *)

Module Boot.
Import JS Mcp Server.

(** The elements of [new Set(items)] in iteration order: the first
    occurrence of each string. *)
Fixpoint setOf (items : list string) : list string :=
  match items with
  | [] => []
  | x :: rest => x :: filter (fun y => y ≠ x) (setOf rest)
  end.

(** The names for which [loadAndFilterTools] prints
    [Tool "<name>" specified in config but not found.], in the order of
    the warnings. *)
Definition notFoundWarnings (P : Process) (availableToolsList : list SierraTool)
    : list string :=
  match options_toolsConfig P with
  | Some toolsConfigPath =>
      if truthy (VStr toolsConfigPath) then
        match readAndParse P toolsConfigPath with
        | Parsed config =>
            if wellFormed config then
              let enabledToolNames :=
                setOf (stringsOf (arrayItems (property config "enabledTools"))) in
              filter
                (fun requestedName =>
                   existsb (fun tool => String.eqb (name tool) requestedName)
                     availableToolsList = false)
                enabledToolNames
            else []
        | Unreadable | NotJson => []
        end
      else []
  | None => []
  end.

(** A tool with another schema, everything else unchanged. *)
Definition withSchema (schemaOf : SierraTool -> Zod.Schema) (tool : SierraTool) : SierraTool :=
  {| name := name tool;
     description := description tool;
     inputSchema := schemaOf tool;
     execute := execute tool |}.

(** The command line as [commander] reads it for the two transport
    options: [--http] and [--port <number>]; [--port] is declared with
    the default value ['7409']. *)
Record Flags := {
  http : bool;
  portFlag : option string
}.

Definition options_http (flags : Flags) : Value :=
  if http flags then VBool true else VUndefined.

Definition options_port (flags : Flags) : Value :=
  VStr (default "7409" (portFlag flags)).

(** [options.http || process.env.MCP_TRANSPORT === 'http'] *)
Definition useHttp (flags : Flags) (MCP_TRANSPORT : option string) : bool :=
  truthy (options_http flags)
  || match MCP_TRANSPORT with
     | Some v => String.eqb v "http"
     | None => false
     end.

(** The leading white space that [parseInt] skips is that of
    [trimStart]. *)
Definition skipWhiteSpace (s : string) : string := Unicode.trimStart s.

Definition digitOf (c : ascii) : option Z :=
  let n := nat_of_ascii c in
  if (48 <=? n)%nat && (n <=? 57)%nat then Some (Z.of_nat (n - 48)) else None.

(** The value of the longest prefix of decimal digits, after [acc]. *)
Fixpoint digits (s : string) (acc : Z) : Z :=
  match s with
  | String c rest =>
      match digitOf c with
      | Some d => digits rest (10 * acc + d)
      | None => acc
      end
  | EmptyString => acc
  end.

Definition unsigned (s : string) : option Z :=
  match s with
  | String c _ =>
      match digitOf c with
      | Some _ => Some (digits s 0)
      | None => None
      end
  | EmptyString => None
  end.

(** [parseInt(s, 10)]: leading white space is skipped, a sign is read,
    and the longest prefix of decimal digits gives the integer, which is
    rounded to a number value; without a digit the result is [NaN]. *)
Definition parseInt10 (s : string) : Doubles.Double :=
  let number (sign : Z) (digits : string) : Doubles.Double :=
    match unsigned digits with
    | Some n => Doubles.ofInteger (sign * n)
    | None => Doubles.NaN
    end in
  match skipWhiteSpace s with
  | String "-" rest => number (-1)%Z rest
  | String "+" rest => number 1%Z rest
  | s => number 1%Z s
  end.

(** [a || b] *)
Definition orElse (a b : Value) : Value := if truthy a then a else b.

(** [parseInt(options.port || process.env.PORT || '7409', 10)] *)
Definition port (flags : Flags) (PORT : option string) : Doubles.Double :=
  match orElse (orElse (options_port flags) (ofOptional PORT)) (VStr "7409") with
  | VStr s => parseInt10 s
  | _ => Doubles.NaN
  end.

End Boot.

(** ** The other routes of [runHttp] *)

Module Routes.
Import JS Mcp Http.

(** A route either answers or lets an exception escape. *)
Inductive Routed :=
| Answered (r : Reply)
| Unhandled.

(** [app.get('/mcp', ...)]: like [app.delete], without the [try]. *)
Definition get_mcp (sessionId : option string) (eff : SdkEffect) (S : State)
    : Routed * State :=
  let key := default "" sessionId in
  if negb (truthy (ofOptional sessionId)) || negb (has (transports S) key) then
    (Answered invalidOrMissing, S)
  else
    match get (transports S) key with
    | Own transport =>
        (match settles eff with
         | Resolved w => Answered (ByTransport w)
         | Rejected _ => Unhandled
         end,
         callbacks transport eff S)
    | _ => (Unhandled, S)
    end.

(** What [transport.close()] does at shutdown: whether it calls
    [onclose], and whether it throws. *)
Record CloseEffect := {
  notifies : bool;
  closeThrows : bool
}.

(** One round of the loop of the [SIGINT] handler of [runHttp]:
    [try { await transports[sessionId].close(); delete transports[sessionId] }
     catch { ... }].  A key that was deleted before the loop reaches it is
    not visited. *)
Definition closeSession (closeOf : TransportRef -> CloseEffect) (S : State)
    (sessionId : string) : State :=
  match transports S !! sessionId with
  | Some transport =>
      let S1 := if notifies (closeOf transport) then onclose transport S else S in
      if closeThrows (closeOf transport) then S1
      else withTransports (fun transports => base.delete sessionId transports) S1
  | None => S
  end.

(** [for (const sessionId in transports) ...], [keys] being the keys of
    [transports] in enumeration order when the loop starts. *)
Definition shutdown (closeOf : TransportRef -> CloseEffect) (keys : list string)
    (S : State) : State :=
  foldl (closeSession closeOf) S keys.

End Routes.

(** ** Counting on the driver's side, and [transaction] *)

Module Driver.
Import Db.

Fixpoint checkouts (events : list Event) : nat :=
  match events with
  | [] => 0
  | CheckedOut _ :: rest => S (checkouts rest)
  | _ :: rest => checkouts rest
  end.

Fixpoint releases (events : list Event) : nat :=
  match events with
  | [] => 0
  | Released _ :: rest => S (releases rest)
  | _ :: rest => releases rest
  end.

(** The statements among the events, with the client they were sent on. *)
Fixpoint sent (events : list Event) : list (Client * string) :=
  match events with
  | [] => []
  | Ran k sql :: rest => (k, sql) :: sent rest
  | _ :: rest => sent rest
  end.

(** Whether an invocation suspended at [pc] has a client checked out
    when it runs alone. *)
Definition holds (pc : Pc) : bool :=
  match pc with
  | AwaitSelect1 _ | AwaitQuery _ _ => true
  | _ => false
  end.

(** The bookkeeping of an invocation that runs alone: the clients
    checked out and released since the trace had [c0] and [r0] of them
    differ by the one the invocation holds. *)
Definition balanced (c0 r0 : nat) (pc : Pc) (w : World) : Prop :=
  checkouts (trace w) + r0 = releases (trace w) + c0 + (if holds pc then 1 else 0)
  ∧ (if holds pc then is_Some (client w) else client w = None).

(** What the callback passed to [db.transaction] does, in order: it
    sends a statement on the client and awaits it, or it throws. *)
Inductive TxStep :=
| Send (sql : string)
| Raise (message : string).

Inductive TxResult :=
| Committed
| TxFailed (message : string)
| TxPending.

(** The statements a callback sends when nothing throws. *)
Definition sends (steps : list TxStep) : list string :=
  omap (fun s => match s with Send sql => Some sql | Raise _ => None end) steps.

(** The [catch] block of [transaction]: [ROLLBACK] is sent and awaited;
    if that fails its error escapes as it is, else the error is
    [Transaction failed: <message>]. *)
Definition rollback (k : Client) (message : string) (ios : list Io) (events : list Event)
    : list Event * TxResult :=
  let events := Ran k "ROLLBACK" :: events in
  match ios with
  | [] => (events, TxPending)
  | Done :: _ => (events, TxFailed ("Transaction failed: " +:+ message))
  | Fails message' :: _ => (events, TxFailed message')
  end.

(** The callback, then [COMMIT]. *)
Fixpoint callbackThenCommit (k : Client) (steps : list TxStep) (ios : list Io)
    (events : list Event) : list Event * TxResult :=
  match steps with
  | Raise message :: _ => rollback k message ios events
  | Send sql :: steps =>
      let events := Ran k sql :: events in
      match ios with
      | [] => (events, TxPending)
      | Done :: ios => callbackThenCommit k steps ios events
      | Fails message :: ios => rollback k message ios events
      end
  | [] =>
      let events := Ran k "COMMIT" :: events in
      match ios with
      | [] => (events, TxPending)
      | Done :: _ => (events, Committed)
      | Fails message :: ios => rollback k message ios events
      end
  end.

(** [transaction(callback)] on a connected instance whose client is [k]:
    the events it adds (newest first) and how it ends, given the results
    [ios] of the statements it awaits, in order. *)
Definition transaction (k : Client) (steps : list TxStep) (ios : list Io)
    : list Event * TxResult :=
  let events := [Ran k "BEGIN"] in
  match ios with
  | [] => (events, TxPending)
  | Done :: ios => callbackThenCommit k steps ios events
  | Fails message :: ios => rollback k message ios events
  end.

End Driver.

(** ** Strings the way JavaScript builds them *)

Module Text.
Import JS.

(** The line feed. *)
Definition nl : string := String "010"%char EmptyString.

(** [String(n)] for the number that the integer [n] denotes. *)
Definition decimal (n : Z) : string := Doubles.toString (Doubles.ofInteger n).

(** [String(v)], which is also what [`${v}`] inserts.  An array is its
    elements joined by commas, [null] and [undefined] elements counting
    as empty. *)
Fixpoint toString (v : Value) : string :=
  match v with
  | VUndefined => "undefined"
  | VNull => "null"
  | VBool b => if b then "true" else "false"
  | VNum n => decimal n
  | VStr s => s
  | VArr items =>
      (fix joined (items : list Value) : string :=
         match items with
         | [] => ""
         | [x] => match x with VUndefined | VNull => "" | _ => toString x end
         | x :: rest =>
             match x with VUndefined | VNull => "" | _ => toString x end
             +:+ "," +:+ joined rest
         end) items
  | VObj _ => "[object Object]"
  end.

(** [strings.join(separator)] *)
Fixpoint joinStrings (separator : string) (strings : list string) : string :=
  match strings with
  | [] => ""
  | [s] => s
  | s :: rest => s +:+ separator +:+ joinStrings separator rest
  end.

(** [items.join(separator)] on an array of any values. *)
Definition join (separator : string) (items : list Value) : string :=
  joinStrings separator
    ((fun x => match x with VUndefined | VNull => "" | _ => toString x end) <$> items).

(** [v !== undefined] *)
Definition defined (v : Value) : bool :=
  match v with
  | VUndefined => false
  | _ => true
  end.

(** [v === s] for a string [s] *)
Definition same (v : Value) (s : string) : bool :=
  match v with
  | VStr s' => String.eqb s' s
  | _ => false
  end.

(** [`"${v}"`] *)
Definition quoted (v : Value) : string := dq +:+ toString v +:+ dq.

End Text.

(** ** The [switch] of [manageUsersTool.execute] *)

Module Users.
Import JS Mcp Text.

(** The rows a statement returned, as far as the handler uses them:
    [rows.length] and [JSON.stringify(rows, null, 2)]. *)
Record Rows := {
  count : nat;
  json : string
}.

(** What the [try] block does once [db.connect] has returned, decided
    from the arguments alone: it returns an error output without sending
    anything, it throws before sending anything, or it sends statements
    (each with its parameters) through [db.query] and builds its output
    from the rows of the last one. *)
Inductive Plan :=
| Reject (out : ToolOutput)
| Crash (message : string)
| Run (queries : list (string * list Value)) (success : Rows -> ToolOutput).

Definition say (text : string) : ToolOutput :=
  {| content := [TextPart text]; isError := None |}.

Definition refuse (text : string) : ToolOutput :=
  {| content := [TextPart text]; isError := Some true |}.

(** The destructured arguments. *)
Record Args := {
  operation : Value;
  username : Value;
  password : Value;
  superuser : Value;
  createdb : Value;
  createrole : Value;
  login : Value;
  replication : Value;
  inherit : Value;
  connectionLimit : Value;
  validUntil : Value;
  permissions : Value;
  targetType : Value;
  target : Value;
  schema : Value;
  withGrantOption : Value;
  cascade : Value;
  ifExists : Value;
  includeSystemRoles : Value
}.

Definition destructure (args : Value) : Args :=
  {| operation := property args "operation";
     username := property args "username";
     password := property args "password";
     superuser := property args "superuser";
     createdb := property args "createdb";
     createrole := property args "createrole";
     login := property args "login";
     replication := property args "replication";
     inherit := property args "inherit";
     connectionLimit := property args "connectionLimit";
     validUntil := property args "validUntil";
     permissions := property args "permissions";
     targetType := property args "targetType";
     target := property args "target";
     schema := property args "schema";
     withGrantOption := property args "withGrantOption";
     cascade := property args "cascade";
     ifExists := property args "ifExists";
     includeSystemRoles := property args "includeSystemRoles" |}.

Definition listRoles : string :=
  "
            SELECT
              r.rolname as username,
              r.rolsuper as is_superuser,
              r.rolinherit as inherit_privileges,
              r.rolcreaterole as can_create_roles,
              r.rolcreatedb as can_create_db,
              r.rolcanlogin as can_login,
              r.rolreplication as is_replication,
              r.rolconnlimit as connection_limit,
              r.rolvaliduntil as valid_until
            FROM pg_roles r
          ".

Definition tablePrivileges : string :=
  "
            SELECT
              n.nspname as schema_name,
              c.relname as object_name,
              CASE c.relkind
                WHEN 'r' THEN 'table'
                WHEN 'v' THEN 'view'
                WHEN 'S' THEN 'sequence'
                WHEN 'f' THEN 'function'
                ELSE c.relkind::text
              END as object_type,
              array_agg(privilege_type) as privileges
            FROM information_schema.table_privileges tp
            JOIN pg_class c ON c.relname = tp.table_name
            JOIN pg_namespace n ON n.oid = c.relnamespace AND n.nspname = tp.table_schema
            WHERE tp.grantee = $1
          ".

(** [if (flag !== undefined) options.push(flag ? yes : no)] *)
Definition flagOption (flag : Value) (yes no : string) : list string :=
  if defined flag then [if truthy flag then yes else no] else [].

(** The [options] array of [create] and of [alter]. *)
Definition roleOptions (a : Args) : list string :=
  ((if truthy (password a) then ["PASSWORD '" +:+ toString (password a) +:+ "'"] else [])
   ++ flagOption (superuser a) "SUPERUSER" "NOSUPERUSER"
   ++ flagOption (createdb a) "CREATEDB" "NOCREATEDB"
   ++ flagOption (createrole a) "CREATEROLE" "NOCREATEROLE"
   ++ flagOption (login a) "LOGIN" "NOLOGIN"
   ++ flagOption (replication a) "REPLICATION" "NOREPLICATION"
   ++ flagOption (inherit a) "INHERIT" "NOINHERIT"
   ++ (if defined (connectionLimit a)
       then ["CONNECTION LIMIT " +:+ toString (connectionLimit a)] else [])
   ++ (if truthy (validUntil a)
       then ["VALID UNTIL '" +:+ toString (validUntil a) +:+ "'"] else []))%list.

(** [permissions.join(', ')] on a truthy [permissions]: only an array
    has [join]. *)
Definition permsList (permissions : Value) : option string :=
  match permissions with
  | VArr items => Some (join ", " items)
  | _ => None
  end.

Definition joinIsNotAFunction : string := "permissions.join is not a function".

(** The inner [switch (targetType)] of [grant]. *)
Definition grantSql (a : Args) (perms : string) : string :=
  let grantOption := if truthy (withGrantOption a) then " WITH GRANT OPTION" else "" in
  if same (targetType a) "table" then
    "GRANT " +:+ perms +:+ " ON TABLE " +:+ quoted (target a) +:+ " TO "
    +:+ quoted (username a) +:+ grantOption
  else if same (targetType a) "schema" then
    "GRANT " +:+ perms +:+ " ON ALL TABLES IN SCHEMA " +:+ quoted (target a) +:+ " TO "
    +:+ quoted (username a) +:+ grantOption
  else if same (targetType a) "database" then
    "GRANT " +:+ (if String.eqb perms "ALL" then "ALL PRIVILEGES" else perms)
    +:+ " ON DATABASE " +:+ quoted (target a) +:+ " TO " +:+ quoted (username a)
    +:+ grantOption
  else if same (targetType a) "sequence" then
    "GRANT " +:+ perms +:+ " ON SEQUENCE " +:+ quoted (target a) +:+ " TO "
    +:+ quoted (username a) +:+ grantOption
  else if same (targetType a) "function" then
    "GRANT EXECUTE ON FUNCTION " +:+ quoted (target a) +:+ " TO " +:+ quoted (username a)
    +:+ grantOption
  else "".

(** The inner [switch (targetType)] of [revoke]. *)
Definition revokeSql (a : Args) (perms : string) : string :=
  let cascadeClause := if truthy (cascade a) then " CASCADE" else "" in
  if same (targetType a) "table" then
    "REVOKE " +:+ perms +:+ " ON TABLE " +:+ quoted (target a) +:+ " FROM "
    +:+ quoted (username a) +:+ cascadeClause
  else if same (targetType a) "schema" then
    "REVOKE " +:+ perms +:+ " ON ALL TABLES IN SCHEMA " +:+ quoted (target a) +:+ " FROM "
    +:+ quoted (username a) +:+ cascadeClause
  else if same (targetType a) "database" then
    "REVOKE " +:+ (if String.eqb perms "ALL" then "ALL PRIVILEGES" else perms)
    +:+ " ON DATABASE " +:+ quoted (target a) +:+ " FROM " +:+ quoted (username a)
    +:+ cascadeClause
  else if same (targetType a) "sequence" then
    "REVOKE " +:+ perms +:+ " ON SEQUENCE " +:+ quoted (target a) +:+ " FROM "
    +:+ quoted (username a) +:+ cascadeClause
  else if same (targetType a) "function" then
    "REVOKE EXECUTE ON FUNCTION " +:+ quoted (target a) +:+ " FROM "
    +:+ quoted (username a) +:+ cascadeClause
  else "".

Definition usernameRequired (op : string) : ToolOutput :=
  refuse ("Error: username is required for " +:+ op +:+ " operation").

(** [switch (operation) { ... }] *)
Definition plan (a : Args) : Plan :=
  if same (operation a) "list" then
    let query :=
      listRoles
      +:+ (if truthy (includeSystemRoles a) then "" else " WHERE r.rolname NOT LIKE 'pg_%'")
      +:+ (if truthy (username a)
           then (if truthy (includeSystemRoles a) then " WHERE" else " AND")
                +:+ " r.rolname ILIKE $1"
           else "")
      +:+ " ORDER BY r.rolname" in
    let params :=
      if truthy (username a) then [VStr ("%" +:+ toString (username a) +:+ "%")] else [] in
    Run [(query, params)]
      (fun users =>
         say ("Found " +:+ decimal (Z.of_nat (count users)) +:+ " users/roles." +:+ nl +:+ nl
              +:+ json users))
  else if same (operation a) "create" then
    if negb (truthy (username a)) then Reject (usernameRequired "create")
    else
      Run [("CREATE ROLE " +:+ quoted (username a) +:+ " "
            +:+ joinStrings " " (roleOptions a), [])]
        (fun _ => say ("User/role " +:+ quoted (username a) +:+ " created successfully."))
  else if same (operation a) "drop" then
    if negb (truthy (username a)) then Reject (usernameRequired "drop")
    else
      let ifExistsClause := if truthy (ifExists a) then "IF EXISTS " else "" in
      Run
        ((if truthy (cascade a)
          then [("REASSIGN OWNED BY " +:+ quoted (username a) +:+ " TO postgres", []);
                ("DROP OWNED BY " +:+ ifExistsClause +:+ quoted (username a), [])]
          else [])
         ++ [("DROP ROLE " +:+ ifExistsClause +:+ quoted (username a), [])])%list
        (fun _ => say ("User/role " +:+ quoted (username a) +:+ " dropped successfully."))
  else if same (operation a) "alter" then
    if negb (truthy (username a)) then Reject (usernameRequired "alter")
    else
      match roleOptions a with
      | [] => Reject (refuse "Error: At least one attribute must be specified for alter operation")
      | options =>
          Run [("ALTER ROLE " +:+ quoted (username a) +:+ " " +:+ joinStrings " " options, [])]
            (fun _ => say ("User/role " +:+ quoted (username a) +:+ " altered successfully."))
      end
  else if same (operation a) "grant" then
    if negb (truthy (username a)) || negb (truthy (permissions a))
       || negb (truthy (target a)) || negb (truthy (targetType a)) then
      Reject (refuse "Error: username, permissions, target, and targetType are required for grant operation")
    else
      match permsList (permissions a) with
      | None => Crash joinIsNotAFunction
      | Some perms =>
          Run [(grantSql a perms, [])]
            (fun _ => say ("Permissions granted to " +:+ quoted (username a)
                           +:+ " successfully."))
      end
  else if same (operation a) "revoke" then
    if negb (truthy (username a)) || negb (truthy (permissions a))
       || negb (truthy (target a)) || negb (truthy (targetType a)) then
      Reject (refuse "Error: username, permissions, target, and targetType are required for revoke operation")
    else
      match permsList (permissions a) with
      | None => Crash joinIsNotAFunction
      | Some perms =>
          Run [(revokeSql a perms, [])]
            (fun _ => say ("Permissions revoked from " +:+ quoted (username a)
                           +:+ " successfully."))
      end
  else if same (operation a) "get_permissions" then
    if negb (truthy (username a)) then Reject (usernameRequired "get_permissions")
    else
      let query :=
        tablePrivileges
        +:+ (if truthy (schema a) then " AND tp.table_schema = $2" else "")
        +:+ " GROUP BY n.nspname, c.relname, c.relkind ORDER BY n.nspname, c.relname" in
      let params := (username a :: if truthy (schema a) then [schema a] else [])%list in
      Run [(query, params)]
        (fun permissions =>
           say ("Permissions for user " +:+ quoted (username a) +:+ ":" +:+ nl +:+ nl
                +:+ json permissions))
  else Reject (refuse ("Error: Unknown operation " +:+ quoted (operation a))).

(** What the plan gives [db.query], in order. *)
Definition statementsOf (p : Plan) : list string :=
  match p with
  | Run queries _ => fst <$> queries
  | Reject _ | Crash _ => []
  end.

(** The invocation of the shared connection that a call makes, for a
    resolved connection string that is a string. *)
Definition invocation (args : Value) (resolvedConnString : string) : Db.Invocation :=
  {| Db.conn := resolvedConnString;
     Db.statements := statementsOf (plan (destructure args)) |}.

(** The output of the handler: that of its [catch] when [connect] or a
    statement failed or the plan threw, else that of the plan. *)
Definition answer (p : Plan) (outcome : Db.Outcome) (rows : Rows) : ToolOutput :=
  match outcome with
  | Db.Failed message => refuse ("Error managing users: " +:+ message)
  | Db.Ok =>
      match p with
      | Reject out => out
      | Crash message => refuse ("Error managing users: " +:+ message)
      | Run _ success => success rows
      end
  end.

End Users.

(** ** The entry of [manageSchemaTools.execute] *)

Module SchemaTool.
Import JS Mcp Text.

(** [v.length === 0] for a truthy [v]: an array has its length, a
    truthy string is not empty, an object has the member it was given,
    and the other values have none. *)
Definition lengthIsZero (v : Value) : bool :=
  match v with
  | VArr [] => true
  | VObj fields => match assoc fields "length" with VNum 0 => true | _ => false end
  | _ => false
  end.

(** [!first || !second || second.length === 0] *)
Definition missing (first second : Value) : bool :=
  negb (truthy first) || negb (truthy second) || lengthIsZero second.

Definition unknownOperation (operation : Value) : string :=
  "Error: Unknown operation " +:+ quoted operation
  +:+ ". Supported operations: get_info, create_table, alter_table, get_enums, create_enum".

(** The returns of [switch (operation)] that come before a helper
    ([executeGetSchemaInfo], [executeCreateTable], ...) is called. *)
Definition earlyReturn (args : Value) : option ToolOutput :=
  let operation := property args "operation" in
  if same operation "get_info" then None
  else if same operation "create_table" then
    if missing (property args "tableName") (property args "columns")
    then Some (Users.refuse "Error: tableName and columns are required for create_table operation")
    else None
  else if same operation "alter_table" then
    if missing (property args "tableName") (property args "operations")
    then Some (Users.refuse "Error: tableName and operations are required for alter_table operation")
    else None
  else if same operation "get_enums" then None
  else if same operation "create_enum" then
    if missing (property args "enumName") (property args "values")
    then Some (Users.refuse "Error: enumName and values are required for create_enum operation")
    else None
  else Some (Users.refuse (unknownOperation operation)).

(** What the helper of the operation gives the resolver, as the first
    thing it does: [connStringArg], and [connStringArg || ''] for the
    two operations on enums. *)
Definition resolverArgument (args : Value) : Value :=
  let operation := property args "operation" in
  let connStringArg := property args "connectionString" in
  if same operation "get_enums" || same operation "create_enum"
  then Boot.orElse connStringArg (VStr "")
  else connStringArg.

(** [execute] of the schema tool.  The arguments are destructured as in
    the other tools; everything else sits in one [try] whose [catch]
    returns [Error executing <operation> operation: <message>], so the
    resolver's error does not leave the handler.  [guarded] is what the
    handler returns once the connection string is resolved. *)
Definition handler (guarded : Value -> Value -> ToolOutput)
    (args : Value) (getConnectionStringVal : GetConnectionStringFn)
    : Completion ToolOutput :=
  match args with
  | VUndefined => Throws (Tools.cannotDestructure "undefined")
  | VNull => Throws (Tools.cannotDestructure "null")
  | _ =>
      match earlyReturn args with
      | Some out => Returns out
      | None =>
          match getConnectionStringVal (resolverArgument args) with
          | Throws e =>
              Returns
                (Users.refuse
                   ("Error executing " +:+ toString (property args "operation")
                    +:+ " operation: " +:+ Server.errorMessageOf e))
          | Returns resolvedConnectionString => Returns (guarded args resolvedConnectionString)
          end
      end
  end.

Definition ManageSchemaInputSchema : Zod.Schema :=
  Zod.ZObject
    [ ("connectionString", Zod.ZOptional Zod.ZString);
      ("operation",
        Zod.ZEnum ["get_info"; "create_table"; "alter_table"; "get_enums"; "create_enum"]);
      ("tableName", Zod.ZOptional Zod.ZString);
      ("schema", Zod.ZOptional Zod.ZString);
      ("columns",
        Zod.ZOptional
          (Zod.ZArray
             (Zod.ZObject
                [ ("name", Zod.ZString);
                  ("type", Zod.ZString);
                  ("nullable", Zod.ZOptional Zod.ZBoolean);
                  ("default", Zod.ZOptional Zod.ZString) ])));
      ("operations",
        Zod.ZOptional
          (Zod.ZArray
             (Zod.ZObject
                [ ("type", Zod.ZEnum ["add"; "alter"; "drop"]);
                  ("columnName", Zod.ZString);
                  ("dataType", Zod.ZOptional Zod.ZString);
                  ("nullable", Zod.ZOptional Zod.ZBoolean);
                  ("default", Zod.ZOptional Zod.ZString) ])));
      ("enumName", Zod.ZOptional Zod.ZString);
      ("values", Zod.ZOptional (Zod.ZArray Zod.ZString));
      ("ifNotExists", Zod.ZOptional Zod.ZBoolean) ].

Definition manageSchemaTools (guarded : Value -> Value -> ToolOutput) : SierraTool :=
  {| name := "sierra_manage_schema";
     description := "Manage PostgreSQL schema - get schema info, create/alter tables, manage enums. Examples: operation=" +:+ dq +:+ "get_info" +:+ dq +:+ " for table lists, operation=" +:+ dq +:+ "create_table" +:+ dq +:+ " with tableName and columns, operation=" +:+ dq +:+ "get_enums" +:+ dq +:+ " to list enums, operation=" +:+ dq +:+ "create_enum" +:+ dq +:+ " with enumName and values";
     inputSchema := ManageSchemaInputSchema;
     execute := handler guarded |}.

End SchemaTool.

(** ** The callback of [executeAlterTable] *)

Module AlterTable.
Import JS Text Driver.

(** One round of [for (const op of operations)]: the callback throws,
    or sends the statement of the operation, or ([None]) sends nothing
    because [sql] stayed empty. *)
Definition alterStep (tableName op : Value) : option TxStep :=
  match op with
  | VUndefined =>
      Some (Raise "Cannot read properties of undefined (reading 'columnName')")
  | VNull => Some (Raise "Cannot read properties of null (reading 'columnName')")
  | _ =>
      let colNameQuoted := quoted (property op "columnName") in
      let dataType := property op "dataType" in
      let nullable := property op "nullable" in
      let dflt := property op "default" in
      if same (property op "type") "add" then
        if negb (truthy dataType) then Some (Raise "Data type is required for ADD operation")
        else
          Some (Send ("ALTER TABLE " +:+ quoted tableName +:+ " ADD COLUMN " +:+ colNameQuoted
                      +:+ " " +:+ toString dataType
                      +:+ (match nullable with VBool false => " NOT NULL" | _ => "" end)
                      +:+ (if defined dflt then " DEFAULT " +:+ toString dflt else "")))
      else if same (property op "type") "alter" then
        let alterActions :=
          ((if truthy dataType then ["TYPE " +:+ toString dataType] else [])
           ++ (if defined nullable
               then [if truthy nullable then "DROP NOT NULL" else "SET NOT NULL"] else [])
           ++ (if defined dflt
               then [match dflt with
                     | VNull | VStr "" => "DROP DEFAULT"
                     | _ => "SET DEFAULT " +:+ toString dflt
                     end]
               else []))%list in
        match alterActions with
        | [] => Some (Raise "No alter operation specified for column.")
        | _ =>
            Some (Send ("ALTER TABLE " +:+ quoted tableName +:+ " ALTER COLUMN "
                        +:+ colNameQuoted +:+ " " +:+ joinStrings " " alterActions))
        end
      else if same (property op "type") "drop" then
        Some (Send ("ALTER TABLE " +:+ quoted tableName +:+ " DROP COLUMN " +:+ colNameQuoted))
      else None
  end.

(** The callback for an array of operations. *)
Definition alterSteps (tableName : Value) (operations : list Value) : list TxStep :=
  omap (alterStep tableName) operations.

End AlterTable.

(** ** [parseSSE] of the browser client *)

Module Sse.

(** An element of the array [parseSSE] returns; a field that was never
    assigned is [None]. *)
Record Event := {
  event : option string;
  data : option string
}.

Definition empty : Event := {| event := None; data := None |}.

(** [currentEvent.event || currentEvent.data], as a condition. *)
Definition started (e : Event) : bool :=
  JS.truthy (JS.ofOptional (event e)) || JS.truthy (JS.ofOptional (data e)).

(** [text.split('\n')]: [cut] carries the line read so far, reversed. *)
Fixpoint cut (text : string) (line : string) : list string :=
  match text with
  | EmptyString => [line]
  | String c rest =>
      if Ascii.eqb c "010" then line :: cut rest ""
      else cut rest (line +:+ String c EmptyString)
  end.

Definition lines (text : string) : list string := cut text "".

(** A string without line feed. *)
Fixpoint oneLine (s : string) : bool :=
  match s with
  | String c rest => negb (Ascii.eqb c "010") && oneLine rest
  | EmptyString => true
  end.

(** [s.slice(n)] for [n] within the string. *)
Fixpoint slice (n : nat) (s : string) : string :=
  match n, s with
  | S n, String _ rest => slice n rest
  | _, _ => s
  end.

(** [s.trim()] *)
Definition trim (s : string) : string := Unicode.trim s.

(** One round of [for (const line of lines)] on the finished events
    (newest first) and [currentEvent]. *)
Definition feed (state : list Event * Event) (line : string) : list Event * Event :=
  let '(events, currentEvent) := state in
  if String.prefix "event:" line then
    (events, {| event := Some (trim (slice 6 line)); data := data currentEvent |})
  else if String.prefix "data:" line then
    (events, {| event := event currentEvent; data := Some (trim (slice 5 line)) |})
  else if String.eqb line "" && started currentEvent then
    (currentEvent :: events, empty)
  else state.

Definition parseSSE (text : string) : list Event :=
  let '(events, currentEvent) := foldl feed ([], empty) (lines text) in
  reverse (if started currentEvent then currentEvent :: events else events).

End Sse.

(** ** More concrete inputs *)

Module MoreExamples.
Import JS Mcp Server Examples.

(** A second tool that is registered under the name of the analysis
    tool. *)
Definition shadow (args resolvedConnString : Value) : ToolOutput :=
  {| content := [TextPart "shadow"]; isError := None |}.

(** [warn.json] with
    [{ "enabledTools": ["sierra_manage_users", "nope", "nope"] }] *)
Definition withUnknownName : Value :=
  VObj [("enabledTools", VArr [VStr "sierra_manage_users"; VStr "nope"; VStr "nope"])].

Definition warned : Process :=
  {| options_connectionString := None;
     options_toolsConfig := Some "warn.json";
     env_POSTGRES_CONNECTION_STRING := None;
     readAndParse := fun _ => Parsed withUnknownName |}.

(** The registry with the schema tool in front. *)
Definition withSchemaTool : list SierraTool :=
  SchemaTool.manageSchemaTools echo :: allTools.

Definition schemaNoConnectionStringText : string :=
  "Error executing get_info operation: MCP error -32602: No connection string provided. Provide one in the tool arguments, via the --connection-string CLI option, or set the POSTGRES_CONNECTION_STRING environment variable.".

Definition closesQuietly (transport : Http.TransportRef) : Routes.CloseEffect :=
  {| Routes.notifies := true; Routes.closeThrows := false |}.

Definition nextSession : string := "0b9d3a52-6c1e-4d0a-8a43-9f1d2c3b4a5e".

(** A state of the HTTP adapter with two live sessions. *)
Definition twoSessions : Http.State :=
  {| Http.transports := {[liveSession := 0; nextSession := 1]};
     Http.sessionIdOf := {[0 := liveSession; 1 := nextSession]};
     Http.constructed := 2 |}.

(** Tenant A's invocation after its client is checked out and [SELECT 1]
    has returned: it awaits its one statement. *)
Definition tenantAQuerying : Db.Pc * Db.World :=
  Db.alone tenantA [Db.Done; Db.Done; Db.Done] Db.initial.

Definition usersArgs (fields : list (string * Value)) : Users.Args :=
  Users.destructure (VObj fields).

Definition dropBob : Users.Args :=
  usersArgs [("operation", VStr "drop"); ("username", VStr "bob"); ("cascade", VBool true)].


Definition grantAll : Users.Args :=
  usersArgs [("operation", VStr "grant"); ("username", VStr "bob");
             ("permissions", VStr "ALL"); ("target", VStr "t");
             ("targetType", VStr "table")].

Definition dropColumn : Value :=
  VObj [("type", VStr "drop"); ("columnName", VStr "a")].

Definition addWithoutType : Value :=
  VObj [("type", VStr "add"); ("columnName", VStr "b")].

End MoreExamples.

(** * Properties *)

(** ** The registry *)

Section Registry.
Import JS Mcp Server.

Lemma eqb_empty_false (s : string) : s ≠ "" -> String.eqb s "" = false.
Proof. intros Hs. by apply String.eqb_neq. Qed.

Lemma truthy_string (s : string) : truthy (VStr s) = true <-> s ≠ "".
Proof.
  simpl. destruct (String.eqb_spec s ""); simpl; split; congruence.
Qed.

Lemma insert_all_lookup_None (tools : list SierraTool) (acc : gmap string SierraTool) (n : string) :
  foldl (fun acc tool => <[name tool := tool]> acc) acc tools !! n = None
  <-> acc !! n = None ∧ n ∉ name <$> tools.
Proof.
  revert acc. induction tools as [|tool tools IH]; intros acc; simpl.
  - split; [intros Hn; split; [done | apply not_elem_of_nil] | by intros [Hn _]].
  - rewrite IH, not_elem_of_cons, lookup_insert_None. naive_solver.
Qed.

Lemma insert_all_lookup_Some (tools : list SierraTool) (acc : gmap string SierraTool)
    (n : string) (t : SierraTool) :
  foldl (fun acc tool => <[name tool := tool]> acc) acc tools !! n = Some t ->
  acc !! n = Some t ∨ (t ∈ tools ∧ name t = n).
Proof.
  revert acc. induction tools as [|tool tools IH]; intros acc; simpl; [by left|].
  intros Hn. destruct (IH _ Hn) as [Hacc | [Hin Hname]].
  - apply lookup_insert_Some in Hacc as [[<- <-] | [_ Hacc]].
    + right. split; [apply list_elem_of_here | done].
    + by left.
  - right. split; [by apply list_elem_of_further | done].
Qed.

Lemma byName_None (tools : list SierraTool) (n : string) :
  byName tools !! n = None <-> n ∉ name <$> tools.
Proof.
  unfold byName. rewrite insert_all_lookup_None, lookup_empty. naive_solver.
Qed.

Lemma byName_Some (tools : list SierraTool) (n : string) (t : SierraTool) :
  byName tools !! n = Some t -> t ∈ tools ∧ name t = n.
Proof.
  unfold byName. intros Hn.
  apply insert_all_lookup_Some in Hn as [Hn | Hn]; [by rewrite lookup_empty in Hn | done].
Qed.

Lemma wasAvailable_spec (tools : list SierraTool) (n : string) :
  existsb (fun t => String.eqb (name t) n) tools = bool_decide (n ∈ name <$> tools).
Proof.
  induction tools as [|t tools IH]; simpl; [done|].
  rewrite IH. destruct (String.eqb_spec (name t) n) as [Heq | Hne]; simpl.
  - symmetry. apply bool_decide_eq_true. rewrite Heq. apply list_elem_of_here.
  - apply bool_decide_ext. rewrite elem_of_cons. naive_solver.
Qed.

Lemma wellFormed_allowList (config : Value) :
  Spec.allowList (Parsed config) =
  if wellFormed config then Some (stringsOf (arrayItems (property config "enabledTools")))
  else None.
Proof.
  unfold wellFormed, Spec.allowList.
  destruct config as [| |b|n|s|items|fields]; simpl; try done.
  - by destruct b.
  - by destruct (negb (n =? 0)%Z).
  - by destruct (negb (String.eqb s "")).
  - by destruct (assoc fields "enabledTools").
Qed.

Lemma filter_names (names : list string) (tools : list SierraTool) :
  name <$> filter (fun tool => name tool ∈ names) tools
  = filter (fun n => n ∈ names) (name <$> tools).
Proof.
  induction tools as [|t tools IH]; [done|].
  rewrite fmap_cons, !filter_cons.
  destruct (decide (name t ∈ names)); [rewrite fmap_cons|]; by rewrite IH.
Qed.

End Registry.

(** ** The allow-list *)

Section AllowList.
Import JS Mcp Server.

(** C10. With a [--tools-config] path, a file that cannot be read, is
    not JSON, or has no [enabledTools] array of strings leaves every
    registered tool enabled; a file with such an array enables exactly
    the registered tools whose name is in the array, in registration
    order (so the enabled names are the registered names filtered by
    membership in the array). *)
Theorem allow_list_fails_open (P : Process) (tools : list SierraTool) (path : string) :
  options_toolsConfig P = Some path ->
  path ≠ "" ->
  match Spec.allowList (readAndParse P path) with
  | None => loadAndFilterTools P tools = tools
  | Some names =>
      loadAndFilterTools P tools = filter (fun tool => name tool ∈ names) tools
      ∧ name <$> loadAndFilterTools P tools = filter (fun n => n ∈ names) (name <$> tools)
      ∧ (forall tool, tool ∈ loadAndFilterTools P tools <-> tool ∈ tools ∧ name tool ∈ names)
  end.
Proof.
  intros Hpath Hne. unfold loadAndFilterTools. rewrite Hpath.
  apply truthy_string in Hne. rewrite Hne.
  destruct (readAndParse P path) as [| |config]; try done.
  rewrite wellFormed_allowList. destruct (wellFormed config); [|done].
  split; [done|]. split; [apply filter_names|].
  intros tool. rewrite list_elem_of_filter. naive_solver.
Qed.

Lemma allow_list_fails_open_witness :
  options_toolsConfig Examples.restricted = Some "tools-config.json"
  ∧ "tools-config.json" ≠ ""
  ∧ name <$> loadAndFilterTools Examples.restricted Examples.allTools = ["sierra_manage_users"].
Proof.
  split; [reflexivity|]. split; [discriminate|].
  pose proof (allow_list_fails_open Examples.restricted Examples.allTools "tools-config.json"
                eq_refl ltac:(discriminate)) as Hallow.
  simpl in Hallow. destruct Hallow as (_ & Hnames & _).
  rewrite Hnames. reflexivity.
Defined.

(** Without a path (or with an empty one) nothing is filtered. *)
Lemma no_tools_config (P : Process) (tools : list SierraTool) :
  truthy (ofOptional (options_toolsConfig P)) = false ->
  loadAndFilterTools P tools = tools.
Proof.
  unfold loadAndFilterTools. destruct (options_toolsConfig P) as [path|]; [|done].
  simpl. by intros ->.
Qed.

End AllowList.

(** ** The dispatcher *)

Section Dispatcher.
Import JS Mcp Server.
Context `{Sdk Body}.

Lemma get_Some {A} (obj : gmap string A) (k : string) (a : A) :
  obj !! k = Some a -> get obj k = Own a.
Proof. unfold get. by intros ->. Qed.

Lemma get_None {A} (obj : gmap string A) (k : string) :
  obj !! k = None -> get obj k = if inherited k then Inherited else Missing.
Proof. unfold get. by intros ->. Qed.

(** The handler of [tools/call] hands the arguments of the request to
    [execute] as they came; the schema of the tool plays no part. *)
Lemma callTool_enabled (P : Process) (srv : SierraDBServer) (request : CallToolRequest)
    (tool : SierraTool) :
  enabledToolsMap srv !! params_name request = Some tool ->
  callTool P srv request =
  match execute tool (params_arguments request) (getConnectionString P) with
  | Returns result => Returns result
  | Throws error => Returns (errorOutput (errorMessageOf error))
  end.
Proof.
  intros Htool. unfold callTool, tryCallTool. by rewrite (get_Some _ _ _ Htool).
Qed.

Lemma callTool_returns (P : Process) (srv : SierraDBServer) (request : CallToolRequest) :
  exists out, callTool P srv request = Returns out.
Proof.
  unfold callTool. destruct (tryCallTool P srv request); eauto.
Qed.

(** C4. When the handler of an enabled tool throws, the dispatcher
    answers with an output whose [isError] is [true] and whose content
    is one text part, ["Error: "] followed by the message of what was
    thrown: the [.message] of an [Error] or an [McpError], the string
    conversion of any other value.  The answer is in the result slot,
    and the dispatcher returns an output for every request: it never
    throws itself. *)
Theorem handler_fault_becomes_error_output (P : Process) (srv : SierraDBServer)
    (request : CallToolRequest) (tool : SierraTool) (error : Thrown) :
  enabledToolsMap srv !! params_name request = Some tool ->
  execute tool (params_arguments request) (getConnectionString P) = Throws error ->
  let thrownMessage :=
    match error with
    | ThrownError message => message
    | ThrownMcpError _ message => message
    | ThrownValue stringified => stringified
    end in
  callTool P srv request =
    Returns {| content := [TextPart ("Error: " +:+ thrownMessage)]; isError := Some true |}
  ∧ respond (callTool P srv request) =
      ResultSlot {| content := [TextPart ("Error: " +:+ thrownMessage)]; isError := Some true |}
  ∧ (forall request', exists out, respond (callTool P srv request') = ResultSlot out).
Proof.
  intros Htool Hthrows thrownMessage.
  assert (callTool P srv request
          = Returns {| content := [TextPart ("Error: " +:+ thrownMessage)];
                       isError := Some true |}) as Hcall.
  { rewrite (callTool_enabled _ _ _ _ Htool), Hthrows. subst thrownMessage.
    by destruct error. }
  split; [exact Hcall|]. split; [by rewrite Hcall|].
  intros request'. destruct (callTool_returns P srv request') as [out Hout].
  exists out. by rewrite Hout.
Qed.


Lemma messages_differ (toolName : string) :
  availableButDisabled toolName ≠ notEnabledOrMissing toolName.
Proof.
  unfold availableButDisabled, notEnabledOrMissing, dq.
  intros Heq. injection Heq. discriminate.
Qed.

Lemma not_enabled_answer (P : Process) (tools : list SierraTool) (request : CallToolRequest) :
  params_name request ∉ (name <$> enabledTools (newSierraDBServer P tools)) ->
  inherited (params_name request) = false ->
  callTool P (newSierraDBServer P tools) request =
    Returns
      {| content :=
           [TextPart
              ("Error: " +:+
               mcpErrorMessage MethodNotFound
                 (if bool_decide (params_name request ∈ name <$> tools)
                  then availableButDisabled (params_name request)
                  else notEnabledOrMissing (params_name request)))];
         isError := Some true |}.
Proof.
  intros Hname Hproto. apply byName_None in Hname.
  unfold callTool, tryCallTool.
  change (enabledToolsMap (newSierraDBServer P tools))
    with (byName (enabledTools (newSierraDBServer P tools))).
  simpl availableToolsList.
  rewrite (get_None _ _ Hname), Hproto, wasAvailable_spec. simpl.
  by destruct (bool_decide _).
Qed.

(** C3, as the code has it.  Two registries under the same
    configuration, one in which the name is registered but not enabled
    and one in which it is not registered, answer a call of that name
    (no member of [Object.prototype]) with ["Error: "] followed by the
    message of an [McpError] built from two different sentences.  The
    [McpError] of the SDK keeps the sentence it is given in its message,
    so that different sentences give different messages; the two
    answers then differ: the client can tell the two cases apart. *)
Theorem not_found_message_depends_on_registration (P : Process)
    (registered absent : list SierraTool) (request : CallToolRequest) :
  (forall sentence sentence',
     mcpErrorMessage MethodNotFound sentence = mcpErrorMessage MethodNotFound sentence' ->
     sentence = sentence') ->
  inherited (params_name request) = false ->
  params_name request ∈ name <$> registered ->
  params_name request ∉ (name <$> enabledTools (newSierraDBServer P registered)) ->
  params_name request ∉ (name <$> absent) ->
  callTool P (newSierraDBServer P registered) request =
    Returns
      {| content :=
           [TextPart ("Error: " +:+
                      mcpErrorMessage MethodNotFound
                        (availableButDisabled (params_name request)))];
         isError := Some true |}
  ∧ callTool P (newSierraDBServer P absent) request =
      Returns
        {| content :=
             [TextPart ("Error: " +:+
                        mcpErrorMessage MethodNotFound
                          (notEnabledOrMissing (params_name request)))];
           isError := Some true |}
  ∧ callTool P (newSierraDBServer P registered) request
    ≠ callTool P (newSierraDBServer P absent) request.
Proof.
  intros Hsdk Hproto Hregistered Hdisabled Habsent.
  assert (params_name request ∉ (name <$> enabledTools (newSierraDBServer P absent)))
    as Hmissing.
  { intros Hin. apply Habsent. cbn [enabledTools newSierraDBServer] in Hin.
    apply list_elem_of_fmap in Hin as (tool & -> & Hin).
    apply list_elem_of_fmap. exists tool. split; [done|].
    unfold loadAndFilterTools in Hin.
    destruct (options_toolsConfig P) as [path|]; [|done].
    destruct (truthy (VStr path)); [|done].
    destruct (readAndParse P path) as [| |config]; try done.
    destruct (wellFormed config); [|done].
    by apply list_elem_of_filter in Hin as [_ Hin]. }
  pose proof (not_enabled_answer P registered request Hdisabled Hproto) as Hfirst.
  pose proof (not_enabled_answer P absent request Hmissing Hproto) as Hsecond.
  rewrite (bool_decide_eq_true_2 _ Hregistered) in Hfirst.
  rewrite (bool_decide_eq_false_2 _ Habsent) in Hsecond.
  split; [exact Hfirst|]. split; [exact Hsecond|].
  rewrite Hfirst, Hsecond. intros Heq.
  injection Heq as Heq. apply (inj (String.app "")) in Heq.
  apply Hsdk in Heq. by apply messages_differ in Heq.
Qed.

(** C8. The resolver returns the per-call argument when it is present,
    else the [--connection-string] option, else
    [POSTGRES_CONNECTION_STRING] ("present" is JavaScript truthiness: an
    empty string counts as absent), and with none of them it throws an
    [McpError] that says where a connection string can be given.  A
    call of an enabled tool hands the [connectionString] member of its
    arguments to the resolver, and what the resolver returns is the
    connection string the handler works with; when the resolver throws,
    the call is answered with its message as an error output.  This is
    so for the handlers that resolve before their [try], where the
    dispatcher turns the error into the output, and for the schema
    tool, which resolves inside its [try] and builds the output
    itself. *)
Theorem connection_string_precedence (P : Process) (explicit : Value) :
  let cli := ofOptional (options_connectionString P) in
  let env := ofOptional (env_POSTGRES_CONNECTION_STRING P) in
  (truthy explicit = true -> getConnectionString P explicit = Returns explicit)
  ∧ (truthy explicit = false -> truthy cli = true ->
       getConnectionString P explicit = Returns cli)
  ∧ (truthy explicit = false -> truthy cli = false -> truthy env = true ->
       getConnectionString P explicit = Returns env)
  ∧ (truthy explicit = false -> truthy cli = false -> truthy env = false ->
       getConnectionString P explicit = Throws (newMcpError InvalidParams noConnectionString))
  ∧ (forall srv request tool guarded,
       enabledToolsMap srv !! params_name request = Some tool ->
       params_arguments request ≠ VUndefined ->
       params_arguments request ≠ VNull ->
       property (params_arguments request) "connectionString" = explicit ->
       let args := params_arguments request in
       (execute tool = Tools.handler guarded ->
          callTool P srv request =
            Returns
              (if truthy explicit then guarded args explicit
               else if truthy cli then guarded args cli
               else if truthy env then guarded args env
               else {| content :=
                         [TextPart ("Error: "
                                    +:+ mcpErrorMessage InvalidParams noConnectionString)];
                       isError := Some true |}))
       ∧ (execute tool = SchemaTool.handler guarded ->
          SchemaTool.earlyReturn args = None ->
          callTool P srv request =
            Returns
              (if truthy explicit then guarded args explicit
               else if truthy cli then guarded args cli
               else if truthy env then guarded args env
               else {| content :=
                         [TextPart ("Error executing "
                                    +:+ Text.toString (property args "operation")
                                    +:+ " operation: "
                                    +:+ mcpErrorMessage InvalidParams noConnectionString)];
                       isError := Some true |}))).
Proof.
  intros cli env.
  assert (getConnectionString P explicit
          = if truthy explicit then Returns explicit
            else if truthy cli then Returns cli
            else if truthy env then Returns env
            else Throws (newMcpError InvalidParams noConnectionString)) as Hresolve
    by reflexivity.
  split; [by intros Hexplicit; rewrite Hresolve, Hexplicit|].
  split; [by intros Hexplicit Hcli; rewrite Hresolve, Hexplicit, Hcli|].
  split; [by intros Hexplicit Hcli Henv; rewrite Hresolve, Hexplicit, Hcli, Henv|].
  split; [by intros Hexplicit Hcli Henv; rewrite Hresolve, Hexplicit, Hcli, Henv|].
  intros srv request tool guarded Htool Hundef Hnull Harg args. subst args. split.
  - intros Hexecute.
    rewrite (callTool_enabled _ _ _ _ Htool), Hexecute. unfold Tools.handler.
    destruct (params_arguments request) eqn:Hargs; try done;
      rewrite Harg, Hresolve;
      by destruct (truthy explicit), (truthy cli), (truthy env).
  - intros Hexecute Hearly.
    assert (getConnectionString P (SchemaTool.resolverArgument (params_arguments request))
            = getConnectionString P explicit) as Hsame.
    { unfold SchemaTool.resolverArgument. rewrite Harg.
      destruct (_ || _); [|done]. unfold Boot.orElse.
      destruct (truthy explicit) eqn:Hexplicit; [done|].
      unfold getConnectionString. by rewrite Hexplicit. }
    rewrite (callTool_enabled _ _ _ _ Htool), Hexecute. unfold SchemaTool.handler.
    destruct (params_arguments request) eqn:Hargs; try done;
      rewrite Hearly, Hsame, Hresolve;
      by destruct (truthy explicit), (truthy cli), (truthy env).
Qed.

End Dispatcher.

(** ** The dispatcher on concrete requests *)

Section DispatcherExamples.
Import JS Mcp Server Examples.

Local Ltac by_computation :=
  first
    [ vm_compute; reflexivity
    | apply (bool_decide_eq_false_1 _); vm_compute; reflexivity
    | apply (bool_decide_eq_true_1 _); vm_compute; reflexivity ].

(** C1 on a concrete call.  The schema of [sierra_manage_users] wants
    [operation] to be one of seven strings and rejects [{ operation: 42 }];
    the dispatcher hands these arguments to the handler all the same:
    its guarded block runs on them, with the default connection string. *)
Theorem unvalidated_arguments_reach_the_handler (guarded : Value -> Value -> ToolOutput) :
  let tool := Tools.manageUsersTool guarded in
  let arguments := VObj [("operation", VNum 42)] in
  Zod.accepts (inputSchema tool) arguments = false
  ∧ callTool (H := sdk) withDefault (newSierraDBServer withDefault [tool])
      (call "sierra_manage_users" arguments)
    = Returns (guarded arguments (VStr "postgresql://localhost/app")).
Proof. split; vm_compute; reflexivity. Qed.

Lemma handler_fault_becomes_error_output_witness :
  let srv := newSierraDBServer bare allTools in
  let unresolved :=
    call "sierra_analyze_database" (VObj [("analysisType", VStr "security")]) in
  let withoutArguments := call "sierra_manage_users" VUndefined in
  let analyze := Tools.analyzeDatabaseTool echo in
  let users := Tools.manageUsersTool echo in
  enabledToolsMap srv !! params_name unresolved = Some analyze
  ∧ execute analyze (params_arguments unresolved) (getConnectionString (H := sdk) bare)
    = Throws (ThrownMcpError InvalidParams
                ("MCP error -32602: " +:+ noConnectionString))
  ∧ callTool (H := sdk) bare srv unresolved = Returns (failure noConnectionStringText)
  ∧ enabledToolsMap srv !! params_name withoutArguments = Some users
  ∧ execute users (params_arguments withoutArguments) (getConnectionString (H := sdk) bare)
    = Throws (ThrownError
                "Cannot destructure property 'connectionString' of 'args' as it is undefined.")
  ∧ callTool (H := sdk) bare srv withoutArguments = Returns (failure cannotDestructureText).
Proof.
  intros srv unresolved withoutArguments analyze users.
  assert (enabledToolsMap srv !! params_name unresolved = Some analyze) as Hanalyze
    by by_computation.
  assert (execute analyze (params_arguments unresolved) (getConnectionString (H := sdk) bare)
          = Throws (ThrownMcpError InvalidParams
                      ("MCP error -32602: " +:+ noConnectionString))) as Hunresolved
    by by_computation.
  assert (enabledToolsMap srv !! params_name withoutArguments = Some users) as Husers
    by by_computation.
  assert (execute users (params_arguments withoutArguments)
            (getConnectionString (H := sdk) bare)
          = Throws (ThrownError
                      "Cannot destructure property 'connectionString' of 'args' as it is undefined."))
    as Hmissing by by_computation.
  split; [exact Hanalyze|]. split; [exact Hunresolved|].
  split; [exact (proj1 (handler_fault_becomes_error_output (H := sdk) bare srv unresolved
                          analyze _ Hanalyze Hunresolved))|].
  split; [exact Husers|]. split; [exact Hmissing|].
  exact (proj1 (handler_fault_becomes_error_output (H := sdk) bare srv withoutArguments
                  users _ Husers Hmissing)).
Defined.



(** C3 is not what the code does.  Two registries with the same enabled
    tools, one that registers [sierra_analyze_database] and disables it
    by configuration and one that does not register it, answer a call of
    that name with different texts. *)
Lemma not_found_message_counterexample :
  let registered := newSierraDBServer restricted allTools in
  let absent := newSierraDBServer restricted [Tools.manageUsersTool echo] in
  let request := call "sierra_analyze_database" (VObj []) in
  name <$> enabledTools registered = name <$> enabledTools absent
  ∧ (params_name request ∉ (name <$> enabledTools registered))
  ∧ callTool (H := sdk) restricted registered request = Returns (failure disabledText)
  ∧ callTool (H := sdk) restricted absent request
    = Returns (failure (unknownText "sierra_analyze_database"))
  ∧ callTool (H := sdk) restricted registered request
    ≠ callTool (H := sdk) restricted absent request.
Proof.
  intros registered absent request.
  split; [by_computation|]. split; [by_computation|].
  split; [by_computation|]. split; [by_computation|].
  intros Heq. vm_compute in Heq. discriminate Heq.
Qed.

(** The [McpError] of the example SDK keeps the sentence it is given. *)
Lemma sdk_keeps_the_sentence (code : ErrorCode) (sentence sentence' : string) :
  mcpErrorMessage (Sdk := sdk) code sentence = mcpErrorMessage (Sdk := sdk) code sentence' ->
  sentence = sentence'.
Proof.
  cbn [mcpErrorMessage sdk]. intros Heq.
  apply (inj (String.app "MCP error ")) in Heq.
  apply (inj (String.app (codeNumber code))) in Heq.
  by apply (inj (String.app ": ")) in Heq.
Qed.

Lemma not_found_message_depends_on_registration_witness :
  let registered := allTools in
  let absent := [Tools.manageUsersTool echo] in
  let request := call "sierra_analyze_database" (VObj []) in
  inherited (params_name request) = false
  ∧ params_name request ∈ name <$> registered
  ∧ (params_name request ∉ (name <$> enabledTools (newSierraDBServer restricted registered)))
  ∧ (params_name request ∉ (name <$> absent))
  ∧ callTool (H := sdk) restricted (newSierraDBServer restricted registered) request
    = Returns (failure disabledText)
  ∧ callTool (H := sdk) restricted (newSierraDBServer restricted absent) request
    = Returns (failure (unknownText "sierra_analyze_database"))
  ∧ callTool (H := sdk) restricted (newSierraDBServer restricted registered) request
    ≠ callTool (H := sdk) restricted (newSierraDBServer restricted absent) request.
Proof.
  intros registered absent request.
  assert (inherited (params_name request) = false) as Hproto by by_computation.
  assert (params_name request ∈ name <$> registered) as Hregistered by by_computation.
  assert (params_name request
          ∉ (name <$> enabledTools (newSierraDBServer restricted registered)))
    as Hdisabled by by_computation.
  assert (params_name request ∉ (name <$> absent)) as Habsent by by_computation.
  split; [exact Hproto|]. split; [exact Hregistered|]. split; [exact Hdisabled|].
  split; [exact Habsent|].
  exact (not_found_message_depends_on_registration (H := sdk) restricted registered absent
           request (sdk_keeps_the_sentence MethodNotFound) Hproto Hregistered Hdisabled
           Habsent).
Defined.

Lemma connection_string_precedence_witness :
  let perCall := VStr "postgresql://tenant/db" in
  let override :=
    call "sierra_analyze_database"
      (VObj [("analysisType", VStr "security"); ("connectionString", perCall)]) in
  let plain := call "sierra_analyze_database" (VObj [("analysisType", VStr "security")]) in
  let schema := call "sierra_manage_schema" (VObj [("operation", VStr "get_info")]) in
  truthy perCall = true
  ∧ getConnectionString (H := sdk) withDefault perCall = Returns perCall
  ∧ getConnectionString (H := sdk) withDefault VUndefined
    = Returns (VStr "postgresql://localhost/app")
  ∧ getConnectionString (H := sdk) bare VUndefined
    = Throws (newMcpError (H := sdk) InvalidParams noConnectionString)
  ∧ callTool (H := sdk) withDefault (newSierraDBServer withDefault allTools) override
    = Returns (echo (params_arguments override) perCall)
  ∧ callTool (H := sdk) withDefault (newSierraDBServer withDefault allTools) plain
    = Returns (echo (params_arguments plain) (VStr "postgresql://localhost/app"))
  ∧ callTool (H := sdk) bare (newSierraDBServer bare allTools) plain
    = Returns (failure noConnectionStringText)
  ∧ callTool (H := sdk) bare (newSierraDBServer bare MoreExamples.withSchemaTool) schema
    = Returns (failure MoreExamples.schemaNoConnectionStringText).
Proof.
  intros perCall override plain schema.
  destruct (connection_string_precedence (H := sdk) withDefault perCall)
    as (Hexplicit & _ & _ & _ & Hoverride).
  destruct (connection_string_precedence (H := sdk) withDefault VUndefined)
    as (_ & Hcli & _ & _ & Hplain).
  destruct (connection_string_precedence (H := sdk) bare VUndefined)
    as (_ & _ & _ & Hnone & Hbare).
  split; [reflexivity|].
  split; [exact (Hexplicit eq_refl)|].
  split; [exact (Hcli eq_refl eq_refl)|].
  split; [exact (Hnone eq_refl eq_refl eq_refl)|].
  split.
  { refine (proj1 (Hoverride (newSierraDBServer withDefault allTools) override
                     (Tools.analyzeDatabaseTool echo) echo _ _ _ eq_refl) eq_refl);
      by_computation || discriminate. }
  split.
  { refine (proj1 (Hplain (newSierraDBServer withDefault allTools) plain
                     (Tools.analyzeDatabaseTool echo) echo _ _ _ eq_refl) eq_refl);
      by_computation || discriminate. }
  split.
  { refine (proj1 (Hbare (newSierraDBServer bare allTools) plain
                     (Tools.analyzeDatabaseTool echo) echo _ _ _ eq_refl) eq_refl);
      by_computation || discriminate. }
  assert (enabledToolsMap (newSierraDBServer bare MoreExamples.withSchemaTool)
            !! params_name schema = Some (SchemaTool.manageSchemaTools echo)) as Htool
    by reflexivity.
  assert (params_arguments schema ≠ VUndefined) as Hundefined by discriminate.
  assert (params_arguments schema ≠ VNull) as Hnull by discriminate.
  pose proof (proj2 (Hbare (newSierraDBServer bare MoreExamples.withSchemaTool) schema
                       (SchemaTool.manageSchemaTools echo) echo Htool Hundefined Hnull
                       eq_refl) eq_refl eq_refl) as Hschema.
  vm_compute in Hschema. vm_compute. exact Hschema.
Defined.

End DispatcherExamples.


(** ** The HTTP adapter *)

Section HttpAdapter.
Import JS Mcp Http.
Context `{Sdk Body}.


Lemma onclose_constructed (transport : TransportRef) (S : State) :
  constructed (onclose transport S) = constructed S.
Proof. unfold onclose. by destruct (_ && _). Qed.

Lemma callbacks_constructed (transport : TransportRef) (eff : SdkEffect) (S : State) :
  constructed (callbacks transport eff S) = constructed S.
Proof.
  unfold callbacks. destruct (initializes eff), (closes eff);
    rewrite ?onclose_constructed; reflexivity.
Qed.

Lemma has_Some {A} (obj : gmap string A) (k : string) (a : A) :
  obj !! k = Some a -> has obj k = true.
Proof. unfold has, get. by intros ->. Qed.

Lemma has_None {A} (obj : gmap string A) (k : string) :
  obj !! k = None -> has obj k = inherited k.
Proof. unfold has, get. intros ->. by destruct (inherited k). Qed.

(** A request that carries the id of a live session goes to the
    transport of that session, whatever its body is, also when the body
    is a second [initialize]; the adapter constructs nothing. *)
Lemma post_with_live_session (sid : string) (transport : TransportRef) (body : Body)
    (connectRejects : bool) (eff : SdkEffect) (S : State) :
  sid ≠ "" ->
  transports S !! sid = Some transport ->
  post_mcp (Some sid) body connectRejects eff S
    = handleRequest internalServerError transport eff S
  ∧ constructed (snd (post_mcp (Some sid) body connectRejects eff S)) = constructed S.
Proof.
  intros Hsid Htransport.
  assert (post_mcp (Some sid) body connectRejects eff S
          = handleRequest internalServerError transport eff S) as Hpost.
  { unfold post_mcp. cbn [ofOptional]; change (default "" (Some sid)) with sid. apply truthy_string in Hsid. rewrite Hsid.
    rewrite (has_Some _ _ _ Htransport). cbn [andb].
    unfold get. by rewrite Htransport. }
  split; [exact Hpost|]. rewrite Hpost. apply callbacks_constructed.
Qed.

Lemma callbacks_registered (transport : TransportRef) (eff : SdkEffect) (S : State)
    (other : TransportRef) :
  (exists sid, transports S !! sid = Some transport) ->
  (exists sid, transports (callbacks transport eff S) !! sid = Some other) ->
  exists sid, transports S !! sid = Some other.
Proof.
  intros Hlive [sid Hsid].
  assert (forall T : State,
            (forall k t, transports T !! k = Some t ->
                         t = transport ∨ transports S !! k = Some t) ->
            forall k t, transports (onclose transport T) !! k = Some t ->
                        t = transport ∨ transports S !! k = Some t) as Hclose.
  { intros T HT k t. unfold onclose. destruct (_ && _); [|by apply HT].
    cbn [withTransports transports]. intros Hk.
    apply lookup_delete_Some in Hk as [_ Hk]. by apply HT. }
  assert (other = transport ∨ transports S !! sid = Some other) as [-> | Hother];
    [|done|by exists sid].
  revert Hsid. unfold callbacks.
  destruct (initializes eff) as [newSessionId|], (closes eff).
  - apply Hclose. intros k t. unfold onsessioninitialized, withTransports.
    cbn [transports]. intros Hk.
    apply lookup_insert_Some in Hk as [[_ <-] | [_ Hk]]; auto.
  - unfold onsessioninitialized, withTransports. cbn [transports]. intros Hk.
    apply lookup_insert_Some in Hk as [[_ <-] | [_ Hk]]; auto.
  - apply Hclose. auto.
  - auto.
Qed.

(** C5 holds of the code but for one kind of exchange.  For the three
    routes of [/mcp]:

    - A transport, the session object of this adapter, is constructed
      exactly by a [POST] that has no session id (none, or an empty
      one) and whose body is an [initialize] request; [DELETE] and
      [GET] construct none.  When the new transport initialises, the id
      it generated is its key in [transports].  No other exchange puts
      a transport into [transports] that was not there before (whether
      a transport that is there can get a second key is up to the SDK,
      which calls [onsessioninitialized]).
    - An exchange that carries the id of a live session is handed to
      the transport of that session, on all three routes.
    - An exchange without the id of a live session, other than the
      [initialize] above, leaves the state as it was.  [POST] answers
      it with a JSON-RPC error (400 with code -32000; 500 with code
      -32603 when the id names a member of [Object.prototype]) and
      [DELETE] with status 400 (500 for such an id).  [GET] answers it
      with status 400, unless the id names a member of
      [Object.prototype]: then [transports[sessionId]] is truthy, the
      call of [handleRequest] on it throws, and [GET], which has no
      [try], neither routes nor rejects the exchange. *)
Theorem routing_by_session_token (sessionId : option string) (body : Body)
    (connectRejects : bool) (eff : SdkEffect) (S : State) :
  let key := default "" sessionId in
  let posted := post_mcp sessionId body connectRejects eff S in
  let deleted := delete_mcp sessionId eff S in
  let got := Routes.get_mcp sessionId eff S in
  let tokenlessInitialize :=
    truthy (ofOptional sessionId) = false ∧ isInitializeRequest body = true in
  let registered (T : State) (transport : TransportRef) :=
    exists sid, transports T !! sid = Some transport in
  (constructed (snd posted) = Datatypes.S (constructed S) <-> tokenlessInitialize)
  ∧ constructed (snd deleted) = constructed S
  ∧ constructed (snd got) = constructed S
  ∧ (tokenlessInitialize -> connectRejects = false -> closes eff = false ->
     forall newSessionId, initializes eff = Some newSessionId ->
       transports (snd posted) !! newSessionId = Some (constructed S))
  ∧ (¬ tokenlessInitialize ->
     forall transport, registered (snd posted) transport -> registered S transport)
  ∧ (forall transport, registered (snd deleted) transport -> registered S transport)
  ∧ (forall transport, registered (snd got) transport -> registered S transport)
  ∧ (forall transport,
       truthy (ofOptional sessionId) = true -> transports S !! key = Some transport ->
       posted = handleRequest internalServerError transport eff S
       ∧ deleted = handleRequest terminationError transport eff S
       ∧ got = (match settles eff with
                | Resolved w => Routes.Answered (ByTransport w)
                | Rejected _ => Routes.Unhandled
                end, callbacks transport eff S))
  ∧ (truthy (ofOptional sessionId) = false ∨ transports S !! key = None ->
       (¬ tokenlessInitialize ->
        posted = (if inherited key then internalServerError else badRequest, S))
       ∧ deleted = (if inherited key then terminationError else invalidOrMissing, S)
       ∧ got = (if inherited key then Routes.Unhandled
                else Routes.Answered invalidOrMissing, S)).
Proof.
  intros key posted deleted got tokenlessInitialize registered.
  subst posted deleted got tokenlessInitialize registered.
  destruct (truthy (ofOptional sessionId)) eqn:Htoken.
  - (* a session id is given *)
    destruct sessionId as [sid|]; [|done].
    cbn [ofOptional] in Htoken. pose proof (proj1 (truthy_string sid) Htoken) as Hsid.
    change (default "" (Some sid)) with sid in key. subst key.
    destruct (transports S !! sid) as [transport|] eqn:Htransport.
    + (* of a live session *)
      destruct (post_with_live_session sid transport body connectRejects eff S Hsid Htransport)
        as [Hpost Hconstructed].
      assert (delete_mcp (Some sid) eff S = handleRequest terminationError transport eff S)
        as Hdelete.
      { unfold delete_mcp. cbn [ofOptional]. change (default "" (Some sid)) with sid.
        rewrite Htoken, (has_Some _ _ _ Htransport). cbn [negb orb].
        unfold get. by rewrite Htransport. }
      assert (Routes.get_mcp (Some sid) eff S
              = (match settles eff with
                 | Resolved w => Routes.Answered (ByTransport w)
                 | Rejected _ => Routes.Unhandled
                 end, callbacks transport eff S)) as Hget.
      { unfold Routes.get_mcp. cbn [ofOptional]. change (default "" (Some sid)) with sid.
        rewrite Htoken, (has_Some _ _ _ Htransport). cbn [negb orb].
        unfold get. by rewrite Htransport. }
      assert (exists k, transports S !! k = Some transport) as Hlive by by exists sid.
      rewrite Hpost, Hdelete, Hget. cbn [snd handleRequest].
      rewrite callbacks_constructed.
      split; [split; [lia | by intros [? _]]|].
      split; [done|]. split; [done|].
      split; [by intros [? _]|].
      split; [intros _ other; by apply callbacks_registered|].
      split; [intros other; by apply callbacks_registered|].
      split; [intros other; by apply callbacks_registered|].
      split.
      * intros transport' _ [= <-]. done.
      * intros [? | ?]; done.
    + (* of no live session *)
      assert (post_mcp (Some sid) body connectRejects eff S
              = (if inherited sid then internalServerError else badRequest, S)) as Hpost.
      { unfold post_mcp. cbn [ofOptional]. change (default "" (Some sid)) with sid.
        rewrite Htoken, (has_None _ _ Htransport). unfold get. rewrite Htransport.
        by destruct (inherited sid). }
      assert (delete_mcp (Some sid) eff S
              = (if inherited sid then terminationError else invalidOrMissing, S)) as Hdelete.
      { unfold delete_mcp. cbn [ofOptional]. change (default "" (Some sid)) with sid.
        rewrite Htoken, (has_None _ _ Htransport). unfold get. rewrite Htransport.
        by destruct (inherited sid). }
      assert (Routes.get_mcp (Some sid) eff S
              = (if inherited sid then Routes.Unhandled
                 else Routes.Answered invalidOrMissing, S)) as Hget.
      { unfold Routes.get_mcp. cbn [ofOptional]. change (default "" (Some sid)) with sid.
        rewrite Htoken, (has_None _ _ Htransport). unfold get. rewrite Htransport.
        by destruct (inherited sid). }
      rewrite Hpost, Hdelete, Hget. cbn [snd].
      split; [split; [lia | by intros [? _]]|].
      split; [done|]. split; [done|].
      split; [by intros [? _]|].
      split; [done|]. split; [done|]. split; [done|].
      split; [by intros transport' _ ?|done].
  - (* no session id *)
    assert (key = "") as Hkey.
    { subst key. destruct sessionId as [sid|]; [|done].
      cbn [ofOptional truthy] in Htoken. apply negb_false_iff in Htoken.
      by apply String.eqb_eq in Htoken as ->. }
    assert (post_mcp sessionId body connectRejects eff S
            = if isInitializeRequest body then
                let S' := {| transports := transports S; sessionIdOf := sessionIdOf S;
                             constructed := Datatypes.S (constructed S) |} in
                if connectRejects then (internalServerError, S')
                else handleRequest internalServerError (constructed S) eff S'
              else (badRequest, S)) as Hpost.
    { unfold post_mcp. by rewrite Htoken. }
    assert (delete_mcp sessionId eff S = (invalidOrMissing, S)) as Hdelete.
    { unfold delete_mcp. by rewrite Htoken. }
    assert (Routes.get_mcp sessionId eff S = (Routes.Answered invalidOrMissing, S)) as Hget.
    { unfold Routes.get_mcp. by rewrite Htoken. }
    rewrite Hpost, Hdelete, Hget, Hkey. clear Hpost Hdelete Hget. cbn [snd].
    change (inherited "") with false. cbn iota.
    destruct (isInitializeRequest body) eqn:Hinit.
    + split.
      { split; [done|]. intros _.
        destruct connectRejects; cbn [snd handleRequest]; [done|].
        by rewrite callbacks_constructed. }
      split; [done|]. split; [done|].
      split.
      { intros _ -> Hcloses newSessionId Hinitializes. cbn [snd handleRequest].
        unfold callbacks. rewrite Hinitializes, Hcloses.
        unfold onsessioninitialized, withTransports. cbn [transports].
        apply lookup_insert_eq. }
      split; [intros Hnot; exfalso; by apply Hnot|].
      split; [done|]. split; [done|].
      split; [by intros transport' ?|].
      intros _. split; [|done]. intros Hnot. exfalso. by apply Hnot.
    + cbn [snd]. split; [split; [lia | by intros [_ ?]]|].
      split; [done|]. split; [done|].
      split; [by intros [_ ?]|].
      split; [done|]. split; [done|]. split; [done|].
      split; [by intros transport' ?|done].
Qed.

(** C7. After [DELETE /mcp] has closed the session [sid], the
    dictionary no longer has it.  A second [DELETE /mcp] with the same
    id is answered without an exception, whatever the transport would
    do, and leaves the state as the first one left it; so does a second
    [onclose] of the transport.  The answer to the second request is
    status 400, [Invalid or missing session ID] (status 500 if the id
    is the name of a member of [Object.prototype], which no generated id
    is). *)
Theorem terminating_twice_changes_nothing (sid : string) (transport : TransportRef)
    (eff : SdkEffect) (S : State) :
  sid ≠ "" ->
  transports S !! sid = Some transport ->
  sessionIdOf S !! transport = Some sid ->
  initializes eff = None ->
  closes eff = true ->
  let closed := snd (delete_mcp (Some sid) eff S) in
  transports closed = base.delete sid (transports S)
  ∧ transports closed !! sid = None
  ∧ (forall eff',
       delete_mcp (Some sid) eff' closed
       = (if inherited sid then terminationError else invalidOrMissing, closed))
  ∧ onclose transport closed = closed.
Proof.
  intros Hsid Htransport Hid Hinitializes Hcloses closed.
  pose proof (proj2 (truthy_string sid) Hsid) as Htruthy.
  assert (closed = withTransports (fun transports => base.delete sid transports) S) as Hclosed.
  { subst closed. unfold delete_mcp. cbn [ofOptional]; change (default "" (Some sid)) with sid. rewrite Htruthy.
    rewrite (has_Some _ _ _ Htransport). cbn [negb orb].
    unfold get. rewrite Htransport. cbn [snd handleRequest].
    unfold callbacks. rewrite Hinitializes, Hcloses.
    unfold onclose. rewrite Hid. cbn [ofOptional]; change (default "" (Some sid)) with sid. rewrite Htruthy.
    by rewrite (has_Some _ _ _ Htransport). }
  assert (transports closed !! sid = None) as Hgone.
  { rewrite Hclosed. apply lookup_delete_eq. }
  split; [by rewrite Hclosed|]. split; [exact Hgone|]. split.
  - intros eff'. unfold delete_mcp. cbn [ofOptional]; change (default "" (Some sid)) with sid. rewrite Htruthy.
    rewrite (has_None _ _ Hgone). unfold get. rewrite Hgone.
    by destruct (inherited sid).
  - unfold onclose.
    assert (sessionIdOf closed !! transport = Some sid) as Hid' by by rewrite Hclosed.
    rewrite Hid'. cbn [ofOptional]; change (default "" (Some sid)) with sid. rewrite Htruthy.
    destruct (has (transports closed) sid); cbn [andb]; [|done].
    unfold withTransports. rewrite (delete_id _ _ Hgone). by destruct closed.
Qed.

End HttpAdapter.

Section HttpExamples.
Import JS Mcp Http Examples.

Lemma terminating_twice_changes_nothing_witness :
  let closed := snd (delete_mcp (Some liveSession) closing oneSession) in
  liveSession ≠ ""
  ∧ transports oneSession !! liveSession = Some 0
  ∧ sessionIdOf oneSession !! 0 = Some liveSession
  ∧ initializes closing = None
  ∧ closes closing = true
  ∧ transports closed !! liveSession = None
  ∧ delete_mcp (Some liveSession) answering closed = (invalidOrMissing, closed)
  ∧ onclose 0 closed = closed.
Proof.
  intros closed.
  assert (liveSession ≠ "") as Hsid by discriminate.
  assert (transports oneSession !! liveSession = Some 0) as Htransport
    by (vm_compute; reflexivity).
  assert (sessionIdOf oneSession !! 0 = Some liveSession) as Hid by (vm_compute; reflexivity).
  destruct (terminating_twice_changes_nothing liveSession 0 closing oneSession
              Hsid Htransport Hid eq_refl eq_refl) as (_ & Hgone & Hsecond & Honclose).
  split; [exact Hsid|]. split; [exact Htransport|]. split; [exact Hid|].
  split; [reflexivity|]. split; [reflexivity|]. split; [exact Hgone|].
  split; [exact (Hsecond answering)|exact Honclose].
Defined.

(** C5 on concrete exchanges, with one live session.  [GET /mcp] with
    the session id [constructor], which no session has, is neither
    routed nor rejected: the exception escapes.  With an id that is no
    member of [Object.prototype] it is answered with status 400, and
    with the id of the live session it reaches the transport. *)
Lemma routing_by_session_token_witness :
  transports oneSession !! "constructor" = None
  ∧ Routes.get_mcp (Some "constructor") answering oneSession
    = (Routes.Unhandled, oneSession)
  ∧ post_mcp (H := sdk) (Some "constructor") callBody false answering oneSession
    = (JsonRpcError 500 (-32603) "Internal server error", oneSession)
  ∧ Routes.get_mcp (Some "no-such-session") answering oneSession
    = (Routes.Answered (PlainText 400 "Invalid or missing session ID"), oneSession)
  ∧ Routes.get_mcp (Some liveSession) answering oneSession
    = (Routes.Answered (ByTransport {| status := 200; payload := "" |}), oneSession).
Proof.
  assert (transports oneSession !! "constructor" = None) as Hmember
    by (vm_compute; reflexivity).
  assert (transports oneSession !! "no-such-session" = None) as Hunknown
    by (vm_compute; reflexivity).
  assert (transports oneSession !! liveSession = Some 0) as Hlive
    by (vm_compute; reflexivity).
  destruct (routing_by_session_token (H := sdk) (Some "constructor") callBody false
              answering oneSession) as (_ & _ & _ & _ & _ & _ & _ & _ & Hrejected).
  destruct (Hrejected (or_intror Hmember)) as (Hpost & _ & Hget).
  destruct (routing_by_session_token (H := sdk) (Some "no-such-session") callBody false
              answering oneSession) as (_ & _ & _ & _ & _ & _ & _ & _ & Hrejected').
  destruct (Hrejected' (or_intror Hunknown)) as (_ & _ & Hget').
  destruct (routing_by_session_token (H := sdk) (Some liveSession) callBody false
              answering oneSession) as (_ & _ & _ & _ & _ & _ & _ & Hrouted & _).
  destruct (Hrouted 0 eq_refl Hlive) as (_ & _ & Hget'').
  split; [exact Hmember|]. split; [exact Hget|].
  split; [apply Hpost; by intros [? _]|].
  split; [exact Hget'|exact Hget''].
Defined.

(** [POST /mcp] on concrete requests: an [initialize] without a session
    id creates and registers a session; an [initialize] without
    [params], a call without a session id and a call with an unknown one
    are answered with 400. *)
Example post_examples :
  let fresh := "0b9d3a52-6c1e-4d0a-8a43-9f1d2c3b4a5e" in
  let created := post_mcp (H := sdk) None initializeBody false (initializing fresh) oneSession in
  fst created = ByTransport {| status := 200; payload := "" |}
  ∧ transports (snd created) !! fresh = Some 1
  ∧ constructed (snd created) = 2
  ∧ post_mcp (H := sdk) None bareInitializeBody false (initializing fresh) oneSession
    = (badRequest, oneSession)
  ∧ post_mcp (H := sdk) None callBody false answering oneSession = (badRequest, oneSession)
  ∧ post_mcp (H := sdk) (Some fresh) callBody false answering oneSession
    = (badRequest, oneSession)
  ∧ post_mcp (H := sdk) (Some "constructor") callBody false answering oneSession
    = (internalServerError, oneSession).
Proof. repeat split; vm_compute; reflexivity. Qed.

End HttpExamples.

(** ** The shared database connection *)

Section SharedConnection.
Import Db.

Lemma statements_run_on_the_current_client (call : Invocation) (k : Client) (p : string)
    (todo : list string) (w : World) :
  client w = Some k ->
  pool w = Some p ->
  foldl (fun '(pc, w) io => step call io pc w) (runQueries todo w)
    (replicate (length todo) Done)
  = handlerFinally Ok (ran k todo w).
Proof.
  revert w. induction todo as [|sql rest IH]; intros w Hclient Hpool.
  - simpl. f_equal. by destruct w.
  - cbn [length replicate foldl]. unfold runQueries at 1. rewrite Hclient, Hpool.
    cbn [step]. fold (runQueries rest).
    rewrite IH by done. f_equal. unfold ran. cbn [pool client connectionString lastError
      poolCache issued trace]. f_equal; [done | done |].
    rewrite reverse_cons, fmap_app, <- app_assoc. reflexivity.
Qed.

(** X28. An invocation that runs with no other invocation in flight,
    on a database that answers, checks out one client from the pool of
    its own connection string, sends [SELECT 1] and then its statements
    on that client, in order, releases it and leaves the shared
    [DatabaseConnection] without client and with an empty
    [connectionString].  The instance is not reset: its [pool] field
    and the module-level [poolCache] keep the pool of this invocation
    for the invocations that follow. *)
Theorem invocation_alone_uses_its_own_connection (call : Invocation) (w : World) :
  conn call ≠ "" ->
  client w = None ->
  connectionString w = "" ->
  let k := {| ofPool := conn call; serial := issued w |} in
  let after := alone call (replicate (3 + length (statements call)) Done) w in
  fst after = Finished Ok
  ∧ trace (snd after)
    = Released k :: (Ran k <$> reverse (statements call))
      ++ Ran k "SELECT 1" :: CheckedOut k
      :: (if bool_decide (conn call ∈ poolCache w) then [] else [PoolCreated (conn call)])
      ++ trace w
  ∧ client (snd after) = None
  ∧ connectionString (snd after) = ""
  ∧ pool (snd after) = Some (conn call)
  ∧ conn call ∈ poolCache (snd after).
Proof.
  intros Hconn Hclient Hcs k after. subst after.
  destruct call as [c todo]. destruct w as [p cl cs le cache n tr].
  cbn [conn statements client connectionString issued poolCache trace] in *. subst cl cs.
  unfold alone. cbn [Nat.add replicate foldl]. cbn [step conn statements].
  assert (connect c todo
            {| pool := p; client := None; connectionString := ""; lastError := le;
               poolCache := cache; issued := n; trace := tr |}
          = (AwaitCheckout c,
             {| pool := Some c; client := None; connectionString := c; lastError := le;
                poolCache := {[c]} ∪ cache; issued := n;
                trace := (if bool_decide (c ∈ cache) then [] else [PoolCreated c]) ++ tr |}))
    as Hconnect.
  { unfold connect. rewrite (eqb_empty_false c Hconn).
    cbn [pool client connectionString lastError poolCache issued trace].
    assert (String.eqb "" c = false) as -> by (apply String.eqb_neq; congruence).
    rewrite andb_false_r.
    cbn [pool client connectionString lastError poolCache issued trace].
    f_equal.
    assert ((if bool_decide (is_Some p)
             then disconnect {| pool := p; client := None; connectionString := "";
                                lastError := le; poolCache := cache; issued := n; trace := tr |}
             else {| pool := p; client := None; connectionString := "";
                     lastError := le; poolCache := cache; issued := n; trace := tr |})
            = {| pool := p; client := None; connectionString := "";
                 lastError := le; poolCache := cache; issued := n; trace := tr |}) as ->
      by (by destruct (bool_decide (is_Some p))).
    cbn [pool client connectionString lastError poolCache issued trace].
    f_equal.
    destruct (decide (c ∈ cache)) as [Hin | Hout].
    - rewrite (bool_decide_eq_true_2 _ Hin).
      rewrite bool_decide_eq_false_2; [done | by intros Hnot]. 
    - rewrite (bool_decide_eq_false_2 _ Hout).
      by rewrite bool_decide_eq_true_2. }
  rewrite Hconnect. cbn [step pool client connectionString lastError poolCache issued trace].
  rewrite (statements_run_on_the_current_client _ k c) by done.
  unfold handlerFinally, disconnect, release, ran.
  cbn [fst snd pool client connectionString lastError poolCache issued trace].
  repeat split; try done. set_solver.
Qed.

Lemma invocation_alone_uses_its_own_connection_witness :
  let after := alone Examples.tenantA [Done; Done; Done; Done] initial in
  conn Examples.tenantA ≠ ""
  ∧ client initial = None
  ∧ connectionString initial = ""
  ∧ fst after = Finished Ok
  ∧ trace (snd after)
    = [Released Examples.clientOfA; Ran Examples.clientOfA "DROP INDEX a_idx";
       Ran Examples.clientOfA "SELECT 1"; CheckedOut Examples.clientOfA;
       PoolCreated "postgresql://tenant-a/db"]
  ∧ pool (snd after) = Some "postgresql://tenant-a/db".
Proof.
  intros after.
  assert (conn Examples.tenantA ≠ "") as Hconn by discriminate.
  destruct (invocation_alone_uses_its_own_connection Examples.tenantA initial
              Hconn eq_refl eq_refl) as (Hok & Htrace & _ & _ & Hpool & _).
  split; [exact Hconn|]. split; [reflexivity|]. split; [reflexivity|].
  split; [exact Hok|]. split; [exact Htrace|exact Hpool].
Defined.

(** [connect] with a string that is not the one of the instance, on an
    instance without client: the instance gets the pool of the string,
    and the invocation waits for a client. *)
Lemma connect_starts (c : string) (todo : list string) (w : World) :
  c ≠ "" ->
  client w = None ->
  connectionString w ≠ c ->
  connect c todo w
  = (AwaitCheckout c,
     {| pool := Some c; client := None; connectionString := c; lastError := lastError w;
        poolCache := {[c]} ∪ poolCache w; issued := issued w;
        trace := if bool_decide (c ∉ poolCache w) then PoolCreated c :: trace w
                 else trace w |}).
Proof.
  intros Hconn Hclient Hother. destruct w as [p cl cs le cache n tr].
  cbn [client connectionString lastError poolCache issued trace] in *. subst cl.
  unfold connect. rewrite (eqb_empty_false c Hconn).
  cbn [pool client connectionString lastError poolCache issued trace].
  assert (String.eqb cs c = false) as -> by by apply String.eqb_neq.
  rewrite andb_false_r.
  by destruct (bool_decide (is_Some p)).
Qed.

Lemma resume_first (io : Io) (w : World) (A B : Invocation) (pcA pcB : Pc) :
  resume 0 io {| world := w; calls := [(A, pcA); (B, pcB)] |}
  = {| world := (step A io pcA w).2; calls := [(A, (step A io pcA w).1); (B, pcB)] |}.
Proof.
  unfold resume. cbn [calls world lookup list_lookup].
  by destruct (step A io pcA w).
Qed.

Lemma resume_second (io : Io) (w : World) (A B : Invocation) (pcA pcB : Pc) :
  resume 1 io {| world := w; calls := [(A, pcA); (B, pcB)] |}
  = {| world := (step B io pcB w).2; calls := [(A, pcA); (B, (step B io pcB w).1)] |}.
Proof.
  unfold resume. cbn [calls world lookup list_lookup].
  by destruct (step B io pcB w).
Qed.

(** C9 is not what the code does.  Two invocations with different
    connection strings overlap: A starts, B starts while A waits for its
    client, both get their clients, and A goes on.  All handlers share
    the one [DatabaseConnection]: B has overwritten its [pool] and
    [client] fields, so the first statement of A is sent on the client
    that was checked out for B, from the pool of B's connection string.
    The client that was checked out for A is no longer referred to by
    the instance. *)
Theorem overlapping_invocations_share_the_client (A B : Invocation) (sql : string)
    (rest : list string) (w : World) :
  conn A ≠ "" ->
  conn B ≠ "" ->
  conn A ≠ conn B ->
  statements A = sql :: rest ->
  client w = None ->
  connectionString w = "" ->
  let clientOfA := {| ofPool := conn A; serial := issued w |} in
  let clientOfB := {| ofPool := conn B; serial := S (issued w) |} in
  let after :=
    run [(0, Done); (1, Done); (0, Done); (1, Done); (0, Done)]
      {| world := w; calls := [(A, Start); (B, Start)] |} in
  calls after = [(A, AwaitQuery clientOfB rest); (B, AwaitSelect1 clientOfB)]
  ∧ Driver.sent (trace (world after))
    = (clientOfB, sql) :: (clientOfB, "SELECT 1") :: (clientOfA, "SELECT 1")
      :: Driver.sent (trace w)
  ∧ ofPool clientOfB ≠ conn A
  ∧ client (world after) = Some clientOfB
  ∧ pool (world after) = Some (conn B)
  ∧ Driver.releases (trace (world after)) = Driver.releases (trace w).
Proof.
  intros HA HB Hdistinct Hstatements Hclient Hcs clientOfA clientOfB after.
  assert (connectionString w ≠ conn A) as HcsA by (rewrite Hcs; congruence).
  subst after. unfold run. cbn [foldl].
  rewrite resume_first. cbn [step].
  rewrite (connect_starts (conn A) (statements A) w HA Hclient HcsA). cbn [fst snd].
  rewrite resume_second. cbn [step].
  rewrite connect_starts; [|done|done|by cbn [connectionString]]. cbn [fst snd].
  cbn [pool client connectionString lastError poolCache issued trace].
  rewrite resume_first. cbn [step fst snd].
  cbn [pool client connectionString lastError poolCache issued trace].
  rewrite resume_second. cbn [step fst snd].
  cbn [pool client connectionString lastError poolCache issued trace].
  rewrite resume_first. cbn [step]. rewrite Hstatements. unfold runQueries.
  cbn [pool client connectionString lastError poolCache issued trace fst snd calls world].
  split; [done|].
  split.
  { cbn [Driver.sent]. do 3 f_equal.
    by destruct (bool_decide (conn B ∉ _)), (bool_decide (conn A ∉ _)). }
  split; [subst clientOfB; cbn [ofPool]; congruence|]. split; [done|]. split; [done|].
  cbn [Driver.releases].
  by destruct (bool_decide (conn B ∉ _)), (bool_decide (conn A ∉ _)).
Qed.

Lemma overlapping_invocations_share_the_client_witness :
  let after := run Examples.overlapping Examples.bothStarted in
  conn Examples.tenantA ≠ ""
  ∧ conn Examples.tenantB ≠ ""
  ∧ conn Examples.tenantA ≠ conn Examples.tenantB
  ∧ statements Examples.tenantA = ["DROP INDEX a_idx"]
  ∧ calls after
    = [(Examples.tenantA, AwaitQuery Examples.clientOfB []);
       (Examples.tenantB, AwaitSelect1 Examples.clientOfB)]
  ∧ Driver.sent (trace (world after))
    = [(Examples.clientOfB, "DROP INDEX a_idx"); (Examples.clientOfB, "SELECT 1");
       (Examples.clientOfA, "SELECT 1")]
  ∧ ofPool Examples.clientOfB = "postgresql://tenant-b/db".
Proof.
  intros after.
  assert (conn Examples.tenantA ≠ "") as HA by discriminate.
  assert (conn Examples.tenantB ≠ "") as HB by discriminate.
  assert (conn Examples.tenantA ≠ conn Examples.tenantB) as Hdistinct by discriminate.
  destruct (overlapping_invocations_share_the_client Examples.tenantA Examples.tenantB
              "DROP INDEX a_idx" [] initial HA HB Hdistinct eq_refl eq_refl eq_refl)
    as (Hcalls & Hsent & _).
  split; [exact HA|]. split; [exact HB|]. split; [exact Hdistinct|].
  split; [reflexivity|]. split; [exact Hcalls|]. split; [exact Hsent|reflexivity].
Defined.

End SharedConnection.

(** * Further properties of the code *)

(** ** Registry and dispatcher *)

Section MoreRegistry.
Import JS Mcp Server Boot.
Context `{Sdk Body}.

Lemma insert_all_lookup_other (tools : list SierraTool) (acc : gmap string SierraTool)
    (n : string) :
  n ∉ name <$> tools ->
  foldl (fun acc tool => <[name tool := tool]> acc) acc tools !! n = acc !! n.
Proof.
  revert acc. induction tools as [|tool tools IH]; intros acc Hn; simpl; [done|].
  rewrite fmap_cons, not_elem_of_cons in Hn. destruct Hn as [Hne Hn].
  rewrite IH by done. by rewrite lookup_insert_ne.
Qed.

Lemma listTools_names (srv : SierraDBServer) :
  (fun entry => entry.1.1) <$> listTools srv = name <$> enabledTools srv.
Proof.
  unfold listTools. induction (enabledTools srv) as [|tool tools IH]; [done|].
  cbn [map fmap list_fmap] in *. by f_equal.
Qed.

(** X1. The names the server advertises in answer to [tools/list] are
    exactly the names a [tools/call] finds in its dictionary. *)
Theorem advertised_iff_dispatchable (P : Process) (tools : list SierraTool) (n : string) :
  n ∈ (fun entry => entry.1.1) <$> listTools (newSierraDBServer P tools)
  <-> is_Some (enabledToolsMap (newSierraDBServer P tools) !! n).
Proof.
  rewrite listTools_names.
  change (enabledToolsMap (newSierraDBServer P tools))
    with (byName (enabledTools (newSierraDBServer P tools))).
  pose proof (byName_None (enabledTools (newSierraDBServer P tools)) n) as Hnone.
  destruct (byName (enabledTools (newSierraDBServer P tools)) !! n) as [tool|] eqn:Hlookup.
  - split; [by eauto|]. intros _.
    destruct (decide (n ∈ name <$> enabledTools (newSierraDBServer P tools))) as [|Hout];
      [done|]. apply Hnone in Hout. congruence.
  - split; [|by intros [? ?]]. intros Hin. exfalso. by apply (proj1 Hnone).
Qed.

(** X2. Tool names are not checked for uniqueness.  When several
    registered tools share a name, a call of that name runs the one that
    was registered last. *)
Theorem last_registration_wins (P : Process) (before after : list SierraTool)
    (tool : SierraTool) (request : CallToolRequest) :
  truthy (ofOptional (options_toolsConfig P)) = false ->
  name tool ∉ name <$> after ->
  params_name request = name tool ->
  callTool P (newSierraDBServer P (before ++ tool :: after)) request =
  match execute tool (params_arguments request) (getConnectionString P) with
  | Returns result => Returns result
  | Throws error => Returns (errorOutput (errorMessageOf error))
  end.
Proof.
  intros Hconfig Hlast Hname. apply callTool_enabled.
  unfold newSierraDBServer. cbn [enabledToolsMap].
  rewrite (no_tools_config _ _ Hconfig), Hname.
  unfold byName. rewrite foldl_app. cbn [foldl].
  rewrite insert_all_lookup_other by done. apply lookup_insert_eq.
Qed.

Lemma setOf_elem (items : list string) (x : string) : x ∈ setOf items <-> x ∈ items.
Proof.
  induction items as [|y items IH]; [done|].
  cbn [setOf]. rewrite !elem_of_cons, list_elem_of_filter, IH.
  destruct (decide (x = y)); naive_solver.
Qed.

Lemma setOf_NoDup (items : list string) : NoDup (setOf items).
Proof.
  induction items as [|y items IH]; cbn [setOf]; [constructor|].
  constructor; [|by apply NoDup_filter].
  rewrite list_elem_of_filter. naive_solver.
Qed.

Lemma loadAndFilterTools_allowList (P : Process) (tools : list SierraTool) (path : string)
    (names : list string) :
  options_toolsConfig P = Some path ->
  path ≠ "" ->
  Spec.allowList (readAndParse P path) = Some names ->
  loadAndFilterTools P tools = filter (fun tool => name tool ∈ names) tools
  ∧ name <$> loadAndFilterTools P tools = filter (fun n => n ∈ names) (name <$> tools).
Proof.
  intros Hpath Hne Hnames.
  assert (loadAndFilterTools P tools = filter (fun tool => name tool ∈ names) tools) as Hload.
  { unfold loadAndFilterTools. rewrite Hpath. apply truthy_string in Hne. rewrite Hne.
    destruct (readAndParse P path) as [| |config]; try done.
    rewrite wellFormed_allowList in Hnames. destruct (wellFormed config); [|done].
    by injection Hnames as <-. }
  split; [exact Hload|]. rewrite Hload. apply filter_names.
Qed.

(** X3. With a well-formed allow-list, the names the server warns about
    are the listed names that no registered tool has, each once; a
    listed name is either the name of an enabled tool or warned about,
    and never both. *)
Theorem allow_list_warnings (P : Process) (tools : list SierraTool) (path : string)
    (names : list string) :
  options_toolsConfig P = Some path ->
  path ≠ "" ->
  Spec.allowList (readAndParse P path) = Some names ->
  NoDup (notFoundWarnings P tools)
  ∧ (forall n, n ∈ notFoundWarnings P tools <-> n ∈ names ∧ n ∉ name <$> tools)
  ∧ (forall n, n ∈ names ->
       (n ∈ name <$> loadAndFilterTools P tools ∧ (n ∉ notFoundWarnings P tools))
       ∨ ((n ∉ name <$> loadAndFilterTools P tools) ∧ n ∈ notFoundWarnings P tools)).
Proof.
  intros Hpath Hne Hnames.
  pose proof (loadAndFilterTools_allowList P tools path names Hpath Hne Hnames)
    as [Hload Hloadnames].
  assert (notFoundWarnings P tools
          = filter (fun n => existsb (fun tool => String.eqb (name tool) n) tools = false)
              (setOf names)) as Hwarn.
  { unfold notFoundWarnings. rewrite Hpath. apply truthy_string in Hne. rewrite Hne.
    destruct (readAndParse P path) as [| |config]; try done.
    rewrite wellFormed_allowList in Hnames. destruct (wellFormed config); [|done].
    by injection Hnames as <-. }
  assert (forall n, n ∈ notFoundWarnings P tools <-> n ∈ names ∧ n ∉ name <$> tools)
    as Hspec.
  { intros n. rewrite Hwarn, list_elem_of_filter, setOf_elem, wasAvailable_spec.
    rewrite bool_decide_eq_false. naive_solver. }
  split; [rewrite Hwarn; apply NoDup_filter, setOf_NoDup|].
  split; [exact Hspec|].
  intros n Hn. rewrite Hloadnames, list_elem_of_filter, Hspec.
  destruct (decide (n ∈ name <$> tools)); [left | right]; naive_solver.
Qed.

(** X4. What the resolver returns is never falsy: a handler is never
    given an empty, [null] or [undefined] connection string. *)
Theorem resolved_connection_string_is_truthy (P : Process) (arg resolved : Value) :
  getConnectionString P arg = Returns resolved ->
  truthy resolved = true.
Proof.
  unfold getConnectionString.
  destruct (truthy arg) eqn:Harg; [by intros [= <-]|].
  destruct (truthy (ofOptional (options_connectionString P))) eqn:Hcli; [by intros [= <-]|].
  destruct (truthy (ofOptional (env_POSTGRES_CONNECTION_STRING P))) eqn:Henv;
    [by intros [= <-]|done].
Qed.

(** X5. A [tools/call] without [arguments] on a tool of the common
    shape is answered with an error output about the destructuring of
    [undefined]; the connection string is not even resolved, whatever
    defaults the process has. *)
Theorem call_without_arguments (P : Process) (srv : SierraDBServer)
    (request : CallToolRequest) (tool : SierraTool)
    (guarded : Value -> Value -> ToolOutput) :
  enabledToolsMap srv !! params_name request = Some tool ->
  execute tool = Tools.handler guarded ->
  params_arguments request = VUndefined ->
  callTool P srv request =
    Returns
      {| content :=
           [TextPart
              "Error: Cannot destructure property 'connectionString' of 'args' as it is undefined."];
         isError := Some true |}.
Proof.
  intros Htool Hexecute Hargs.
  rewrite (callTool_enabled _ _ _ _ Htool), Hexecute, Hargs. reflexivity.
Qed.

(** X6. The dictionary of enabled tools is an object literal.  A call
    of a name that [Object.prototype] defines ([constructor],
    [toString], ...) and that no enabled tool has finds that member
    instead of [undefined]: the answer is the error output of a failed
    call of [tool.execute], not the not-found message. *)
Theorem call_of_a_prototype_member (P : Process) (tools : list SierraTool)
    (request : CallToolRequest) :
  params_name request ∈ objectPrototypeMembers ->
  params_name request ∉ name <$> enabledTools (newSierraDBServer P tools) ->
  callTool P (newSierraDBServer P tools) request =
    Returns
      {| content := [TextPart "Error: tool.execute is not a function"];
         isError := Some true |}.
Proof.
  intros Hproto Hname. apply byName_None in Hname.
  unfold callTool, tryCallTool.
  change (enabledToolsMap (newSierraDBServer P tools))
    with (byName (enabledTools (newSierraDBServer P tools))).
  rewrite (get_None _ _ Hname). unfold inherited.
  by rewrite (bool_decide_eq_true_2 _ Hproto).
Qed.

Lemma withSchema_names (schemaOf : SierraTool -> Zod.Schema) (tools : list SierraTool) :
  name <$> (withSchema schemaOf <$> tools) = name <$> tools.
Proof.
  induction tools as [|t tools IH]; [done|].
  cbn [fmap list_fmap] in *. by f_equal.
Qed.

Lemma withSchema_filter (schemaOf : SierraTool -> Zod.Schema) (names : list string)
    (tools : list SierraTool) :
  filter (fun tool => name tool ∈ names) (withSchema schemaOf <$> tools)
  = withSchema schemaOf <$> filter (fun tool => name tool ∈ names) tools.
Proof.
  induction tools as [|t tools IH]; [done|].
  rewrite fmap_cons, !filter_cons. cbn [withSchema name].
  destruct (decide (name t ∈ names)); [rewrite fmap_cons|]; by rewrite IH.
Qed.

Lemma withSchema_load (P : Process) (schemaOf : SierraTool -> Zod.Schema)
    (tools : list SierraTool) :
  loadAndFilterTools P (withSchema schemaOf <$> tools)
  = withSchema schemaOf <$> loadAndFilterTools P tools.
Proof.
  unfold loadAndFilterTools. destruct (options_toolsConfig P) as [path|]; [|done].
  destruct (truthy (VStr path)); [|done].
  destruct (readAndParse P path) as [| |config]; try done.
  destruct (wellFormed config); [|done]. apply withSchema_filter.
Qed.

Lemma withSchema_byName (schemaOf : SierraTool -> Zod.Schema) (tools : list SierraTool)
    (n : string) :
  byName (withSchema schemaOf <$> tools) !! n = withSchema schemaOf <$> byName tools !! n.
Proof.
  unfold byName.
  assert (forall acc : gmap string SierraTool,
            foldl (fun acc tool => <[name tool := tool]> acc) (withSchema schemaOf <$> acc)
              (withSchema schemaOf <$> tools)
            = withSchema schemaOf <$>
                foldl (fun acc tool => <[name tool := tool]> acc) acc tools) as Hfold.
  { induction tools as [|t tools IH]; intros acc; [done|].
    cbn [fmap list_fmap foldl]. cbn [withSchema name].
    rewrite <- IH. by rewrite fmap_insert. }
  specialize (Hfold ∅). rewrite fmap_empty in Hfold. rewrite Hfold. apply lookup_fmap.
Qed.

(** X7. The dispatcher never looks at [inputSchema]: replacing the
    schemas of the registered tools by any others changes no answer to
    any call. *)
Theorem schema_plays_no_part_in_dispatch (P : Process) (tools : list SierraTool)
    (schemaOf : SierraTool -> Zod.Schema) (request : CallToolRequest) :
  callTool P (newSierraDBServer P (withSchema schemaOf <$> tools)) request
  = callTool P (newSierraDBServer P tools) request.
Proof.
  unfold callTool, tryCallTool, newSierraDBServer.
  cbn [enabledToolsMap availableToolsList].
  rewrite withSchema_load. unfold get. rewrite withSchema_byName.
  rewrite !wasAvailable_spec, withSchema_names.
  by destruct (byName (loadAndFilterTools P tools) !! params_name request).
Qed.

(** X8. [--port] has the default ['7409'], so [options.port] is never
    empty unless [--port ''] is given: without the flag the server
    listens on 7409 whatever [PORT] is, and with a non-empty flag [PORT]
    is not looked at either. *)
Theorem port_ignores_the_environment (flags : Flags) (PORT PORT' : option string) :
  portFlag flags ≠ Some "" ->
  port flags PORT = port flags PORT'
  ∧ (portFlag flags = None -> port flags PORT = Doubles.Finite 7409).
Proof.
  intros Hflag. unfold port, options_port, orElse.
  destruct (portFlag flags) as [s|] eqn:Hs; cbn [default from_option id].
  - assert (truthy (VStr s) = true) as Htruthy by (apply truthy_string; congruence).
    rewrite Htruthy. cbn [truthy]. simpl in Htruthy. rewrite Htruthy. by split.
  - split; [reflexivity|]. intros _. vm_compute. reflexivity.
Qed.

End MoreRegistry.

(** ** The routes of the HTTP adapter *)

Section MoreRoutes.
Import JS Mcp Http Routes.
Context `{Sdk Body}.

Lemma prototype_member_is_truthy (k : string) :
  k ∈ objectPrototypeMembers -> truthy (VStr k) = true.
Proof.
  unfold objectPrototypeMembers. rewrite !elem_of_cons, elem_of_nil.
  intros Hk. repeat (destruct Hk as [-> | Hk]; [reflexivity|]). done.
Qed.

(** X9. A session id that is the name of a member of
    [Object.prototype] passes the guard of all three routes although no
    session has it.  [POST] and [DELETE] then fail inside their [try]
    and answer with status 500; [GET] has no [try] and lets the
    exception escape.  None of them changes the state. *)
Theorem prototype_member_as_session_id (k : string) (body : Body) (connectRejects : bool)
    (eff : SdkEffect) (S : State) :
  k ∈ objectPrototypeMembers ->
  transports S !! k = None ->
  post_mcp (Some k) body connectRejects eff S = (internalServerError, S)
  ∧ delete_mcp (Some k) eff S = (terminationError, S)
  ∧ get_mcp (Some k) eff S = (Unhandled, S).
Proof.
  intros Hproto Hnone.
  pose proof (prototype_member_is_truthy k Hproto) as Htruthy.
  assert (inherited k = true) as Hinherited by by apply bool_decide_eq_true_2.
  assert (has (transports S) k = true) as Hhas by by rewrite (has_None _ _ Hnone).
  assert (get (transports S) k = Inherited) as Hget.
  { unfold get. by rewrite Hnone, Hinherited. }
  unfold post_mcp, delete_mcp, get_mcp. cbn [ofOptional].
  change (default "" (Some k)) with k. by rewrite Htruthy, Hhas, Hget.
Qed.

Lemma onclose_other (transport : TransportRef) (sid other : string) (S : State) :
  sessionIdOf S !! transport = Some sid ->
  other ≠ sid ->
  transports (onclose transport S) !! other = transports S !! other.
Proof.
  intros Hid Hother. unfold onclose. rewrite Hid. cbn [ofOptional].
  change (default "" (Some sid)) with sid.
  destruct (truthy (VStr sid) && has (transports S) sid); [|done].
  cbn [withTransports transports]. by apply lookup_delete_ne.
Qed.

Lemma callbacks_other (transport : TransportRef) (sid other : string) (eff : SdkEffect)
    (S : State) :
  sessionIdOf S !! transport = Some sid ->
  initializes eff = None ->
  other ≠ sid ->
  transports (callbacks transport eff S) !! other = transports S !! other.
Proof.
  intros Hid Hinit Hother. unfold callbacks. rewrite Hinit.
  destruct (closes eff); [by apply (onclose_other _ sid)|done].
Qed.

(** X10. A request that carries the id of a live session and does not
    make its transport initialise again leaves the entries of all other
    sessions as they are, on every route: at most the entry of its own
    session goes away. *)
Theorem other_sessions_untouched (sid other : string) (transport : TransportRef)
    (body : Body) (connectRejects : bool) (eff : SdkEffect) (S : State) :
  sid ≠ "" ->
  transports S !! sid = Some transport ->
  sessionIdOf S !! transport = Some sid ->
  initializes eff = None ->
  other ≠ sid ->
  transports (snd (post_mcp (Some sid) body connectRejects eff S)) !! other
    = transports S !! other
  ∧ transports (snd (delete_mcp (Some sid) eff S)) !! other = transports S !! other
  ∧ transports (snd (get_mcp (Some sid) eff S)) !! other = transports S !! other.
Proof.
  intros Hsid Htransport Hid Hinit Hother.
  pose proof (proj2 (truthy_string sid) Hsid) as Htruthy.
  pose proof (has_Some _ _ _ Htransport) as Hhas.
  assert (get (transports S) sid = Own transport) as Hget by by apply get_Some.
  unfold post_mcp, delete_mcp, get_mcp. cbn [ofOptional].
  change (default "" (Some sid)) with sid. rewrite Htruthy, Hhas, Hget.
  cbn [andb negb orb snd handleRequest].
  by rewrite !(callbacks_other _ sid).
Qed.

Lemma onclose_registered (transport : TransportRef) (sid : string) (owner : TransportRef)
    (S : State) :
  sid ≠ "" ->
  sessionIdOf S !! transport = Some sid ->
  transports S !! sid = Some owner ->
  onclose transport S = withTransports (fun transports => base.delete sid transports) S.
Proof.
  intros Hsid Hid Hlive. unfold onclose. rewrite Hid. cbn [ofOptional].
  change (default "" (Some sid)) with sid.
  by rewrite (proj2 (truthy_string sid) Hsid), (has_Some _ _ _ Hlive).
Qed.

(** X11. The life of a session.  An [initialize] without a session id,
    for which the transport generates [newId], registers the new
    transport under [newId]; a later [POST] with that id reaches that
    transport; once a [DELETE] has closed it, the dictionary is what it
    was before the session, and a [POST] with the id is answered with
    status 400. *)
Theorem session_lifecycle (newId : string) (body body' : Body) (connectRejects : bool)
    (opening closing eff : SdkEffect) (S : State) :
  newId ≠ "" ->
  inherited newId = false ->
  transports S !! newId = None ->
  isInitializeRequest body = true ->
  initializes opening = Some newId ->
  closes opening = false ->
  initializes closing = None ->
  closes closing = true ->
  let opened := snd (post_mcp None body false opening S) in
  let closed := snd (delete_mcp (Some newId) closing opened) in
  transports opened = <[newId := constructed S]> (transports S)
  ∧ post_mcp (Some newId) body' connectRejects eff opened
    = handleRequest internalServerError (constructed S) eff opened
  ∧ transports closed = transports S
  ∧ post_mcp (Some newId) body' connectRejects eff closed = (badRequest, closed).
Proof.
  intros Hid Hproto Hfresh Hinit Hopening Hopen Hclosing Hclose opened closed.
  pose proof (proj2 (truthy_string newId) Hid) as Htruthy.
  assert (opened =
          {| transports := <[newId := constructed S]> (transports S);
             sessionIdOf := <[constructed S := newId]> (sessionIdOf S);
             constructed := Datatypes.S (constructed S) |}) as Hopened.
  { subst opened. unfold post_mcp. cbn [ofOptional truthy andb negb]. rewrite Hinit.
    cbn [snd handleRequest]. unfold callbacks. by rewrite Hopening, Hopen. }
  clearbody opened.
  assert (transports opened !! newId = Some (constructed S)) as Hlookup.
  { rewrite Hopened. apply lookup_insert_eq. }
  assert (closed =
          {| transports := transports S;
             sessionIdOf := <[constructed S := newId]> (sessionIdOf S);
             constructed := Datatypes.S (constructed S) |}) as Hclosed.
  { subst closed. unfold delete_mcp. cbn [ofOptional].
    change (default "" (Some newId)) with newId.
    rewrite Htruthy, (has_Some (A := TransportRef) _ _ _ Hlookup), (get_Some (A := TransportRef) _ _ _ Hlookup).
    cbn [negb orb snd handleRequest]. unfold callbacks. rewrite Hclosing, Hclose.
    rewrite (onclose_registered (constructed S) newId (constructed S) opened Hid);
      [|by rewrite Hopened; apply lookup_insert_eq|exact Hlookup].
    rewrite Hopened. unfold withTransports. cbn [transports sessionIdOf constructed].
    f_equal. rewrite delete_insert_eq. by apply delete_id. }
  split; [by rewrite Hopened|]. split.
  - apply post_with_live_session; done.
  - split; [by rewrite Hclosed|].
    assert (transports closed !! newId = None) as Hgone by by rewrite Hclosed.
    unfold post_mcp. cbn [ofOptional]. change (default "" (Some newId)) with newId.
    rewrite Htruthy, (has_None _ _ Hgone), Hproto. reflexivity.
Qed.

Lemma closeSession_shrinks (closeOf : TransportRef -> CloseEffect) (S : State)
    (sid k : string) :
  transports S !! k = None ->
  transports (closeSession closeOf S sid) !! k = None.
Proof.
  intros Hk. unfold closeSession.
  destruct (transports S !! sid) as [transport|]; [|done].
  assert (transports (if notifies (closeOf transport) then onclose transport S else S) !! k
          = None) as Hnotified.
  { destruct (notifies (closeOf transport)); [|done]. unfold onclose.
    destruct (_ && _); [|done]. cbn [withTransports transports].
    rewrite lookup_delete_None. by right. }
  destruct (closeThrows (closeOf transport)); [done|].
  cbn [withTransports transports]. rewrite lookup_delete_None. by right.
Qed.

Lemma closeSession_removes (closeOf : TransportRef -> CloseEffect) (S : State)
    (sid : string) :
  (forall transport, closeThrows (closeOf transport) = false) ->
  transports (closeSession closeOf S sid) !! sid = None.
Proof.
  intros Hclose. unfold closeSession.
  destruct (transports S !! sid) as [transport|] eqn:Hsid; [|done].
  rewrite Hclose. cbn [withTransports transports]. apply lookup_delete_eq.
Qed.

Lemma shutdown_shrinks (closeOf : TransportRef -> CloseEffect) (keys : list string)
    (S : State) (k : string) :
  transports S !! k = None ->
  transports (shutdown closeOf keys S) !! k = None.
Proof.
  revert S. induction keys as [|sid keys IH]; intros S Hk; [done|].
  cbn [shutdown foldl]. apply IH. by apply closeSession_shrinks.
Qed.

(** X12. The loop that runs at [SIGINT] never adds an entry, and when
    no [close()] throws it leaves no session behind: every key it
    enumerated is gone, so a loop over all keys empties [transports]. *)
Theorem shutdown_closes_every_session (closeOf : TransportRef -> CloseEffect)
    (keys : list string) (S : State) :
  (forall transport, closeThrows (closeOf transport) = false) ->
  (forall sid, is_Some (transports S !! sid) -> sid ∈ keys) ->
  transports (shutdown closeOf keys S) = ∅.
Proof.
  intros Hclose Hkeys. apply map_eq. intros k. rewrite lookup_empty.
  destruct (decide (k ∈ keys)) as [Hin | Hout].
  - clear Hkeys. revert S. induction keys as [|sid keys IH]; intros S.
    + by apply elem_of_nil in Hin.
    + cbn [shutdown foldl]. apply elem_of_cons in Hin as [-> | Hin].
      * apply shutdown_shrinks. by apply closeSession_removes.
      * by apply IH.
  - apply shutdown_shrinks. destruct (transports S !! k) eqn:Hk; [|done].
    exfalso. apply Hout, Hkeys. by rewrite Hk.
Qed.

End MoreRoutes.

(** ** The shared connection: error paths and bookkeeping *)

Section MoreSharedConnection.
Import Db Driver.

Lemma disconnect_quiescent (w : World) :
  client (disconnect w) = None ∧ connectionString (disconnect w) = "".
Proof.
  unfold disconnect. cbn [client connectionString]. unfold release.
  destruct (client w) eqn:Hclient; cbn [client]; auto.
Qed.

Lemma handlerFinally_inv (out out' : Outcome) (w w' : World) :
  handlerFinally out w = (Finished out', w') ->
  client w' = None ∧ connectionString w' = "".
Proof. unfold handlerFinally. intros [= _ <-]. apply disconnect_quiescent. Qed.

Lemma connectCatch_inv (message : string) (out : Outcome) (w w' : World) :
  connectCatch message w = (Finished out, w') ->
  client w' = None ∧ connectionString w' = "".
Proof.
  unfold connectCatch. destruct (pool (release w)); [done|]. apply handlerFinally_inv.
Qed.

Lemma runQueries_inv (todo : list string) (out : Outcome) (w w' : World) :
  runQueries todo w = (Finished out, w') ->
  client w' = None ∧ connectionString w' = "".
Proof.
  unfold runQueries. destruct todo as [|sql rest]; [apply handlerFinally_inv|].
  destruct (client w), (pool w); try done; apply handlerFinally_inv.
Qed.

(** X13. Whenever a step ends an invocation, it has gone through the
    handler's [finally]: the shared instance is left without client and
    with an empty [connectionString], also when the client at hand was
    checked out by another invocation. *)
Theorem finishing_disconnects (call : Invocation) (io : Io) (pc : Pc) (w w' : World)
    (out : Outcome) :
  (forall out0, pc ≠ Finished out0) ->
  step call io pc w = (Finished out, w') ->
  client w' = None ∧ connectionString w' = "".
Proof.
  intros Hrunning. destruct pc as [|p|k|p|k rest|out0]; cbn [step].
  - unfold connect. destruct (String.eqb (conn call) ""); [apply connectCatch_inv|].
    destruct (_ && _); [apply runQueries_inv|done].
  - destruct io; [done|apply connectCatch_inv].
  - destruct io; [apply runQueries_inv|apply connectCatch_inv].
  - destruct io; apply handlerFinally_inv.
  - destruct io; [apply runQueries_inv|apply handlerFinally_inv].
  - by destruct (Hrunning out0).
Qed.

Lemma release_counts (w : World) :
  client (release w) = None
  ∧ checkouts (trace (release w)) = checkouts (trace w)
  ∧ releases (trace (release w))
    = releases (trace w) + match client w with Some _ => 1 | None => 0 end.
Proof.
  unfold release. destruct (client w) eqn:Hclient; cbn; repeat split; (done || lia).
Qed.

Lemma disconnect_counts (w : World) :
  client (disconnect w) = None
  ∧ checkouts (trace (disconnect w)) = checkouts (trace w)
  ∧ releases (trace (disconnect w))
    = releases (trace w) + match client w with Some _ => 1 | None => 0 end.
Proof. unfold disconnect. cbn [client trace]. apply release_counts. Qed.

Lemma balanced_finally (c0 r0 : nat) (out : Outcome) (w : World) (held : bool) :
  checkouts (trace w) + r0 = releases (trace w) + c0 + (if held then 1 else 0) ->
  (if held then is_Some (client w) else client w = None) ->
  balanced c0 r0 (handlerFinally out w).1 (handlerFinally out w).2.
Proof.
  intros Hcount Hclient. unfold handlerFinally, balanced. cbn [fst snd holds].
  destruct (disconnect_counts w) as (Hnone & Hc & Hr). rewrite Hnone, Hc, Hr.
  split; [|done]. destruct held.
  - destruct Hclient as [k ->]. lia.
  - rewrite Hclient. lia.
Qed.

Lemma balanced_connectCatch (c0 r0 : nat) (message : string) (w : World) (held : bool) :
  checkouts (trace w) + r0 = releases (trace w) + c0 + (if held then 1 else 0) ->
  (if held then is_Some (client w) else client w = None) ->
  balanced c0 r0 (connectCatch message w).1 (connectCatch message w).2.
Proof.
  intros Hcount Hclient. unfold connectCatch.
  destruct (release_counts w) as (Hnone & Hc & Hr).
  assert (checkouts (trace (release w)) + r0 = releases (trace (release w)) + c0) as Hreleased.
  { rewrite Hc, Hr. destruct held.
    - destruct Hclient as [k ->]. lia.
    - rewrite Hclient. lia. }
  destruct (pool (release w)) as [p|].
  - unfold balanced. cbn [fst snd holds client trace checkouts releases]. split; [lia|done].
  - apply (balanced_finally c0 r0 _ _ false); cbn [client trace]; [lia|done].
Qed.

Lemma balanced_runQueries (c0 r0 : nat) (todo : list string) (w : World) (held : bool) :
  checkouts (trace w) + r0 = releases (trace w) + c0 + (if held then 1 else 0) ->
  (if held then is_Some (client w) else client w = None) ->
  balanced c0 r0 (runQueries todo w).1 (runQueries todo w).2.
Proof.
  intros Hcount Hclient. unfold runQueries.
  destruct todo as [|sql rest]; [by apply (balanced_finally c0 r0 _ _ held)|].
  destruct (client w) as [k|] eqn:Hk, (pool w) as [p|] eqn:Hp;
    try (apply (balanced_finally c0 r0 _ _ held); by rewrite ?Hk).
  unfold balanced. cbn [fst snd holds client trace checkouts releases].
  destruct held; [split; [lia|by eauto] | congruence].
Qed.

Lemma balanced_step (c0 r0 : nat) (call : Invocation) (io : Io) (pc : Pc) (w : World) :
  balanced c0 r0 pc w ->
  balanced c0 r0 (step call io pc w).1 (step call io pc w).2.
Proof.
  intros [Hcount Hclient].
  destruct pc as [|p|k|p|k rest|out0]; cbn [step holds] in *.
  - unfold connect. destruct (String.eqb (conn call) "");
      [by apply (balanced_connectCatch c0 r0 _ _ false)|].
    destruct (_ && _); [by apply (balanced_runQueries c0 r0 _ _ false)|].
    destruct (disconnect_counts w) as (Hnone & Hc & Hr). rewrite Hclient in Hr.
    unfold balanced. cbn [fst snd holds client trace].
    destruct (bool_decide (is_Some (pool w))), (bool_decide (_ ∉ _));
      cbn [checkouts releases]; rewrite ?Hnone, ?Hc, ?Hr; split; (lia || done).
  - destruct io; [|by apply (balanced_connectCatch c0 r0 _ _ false)].
    unfold balanced. cbn [fst snd holds client trace checkouts releases].
    split; [lia|by eauto].
  - destruct io; [by apply (balanced_runQueries c0 r0 _ _ true)
                 |by apply (balanced_connectCatch c0 r0 _ _ true)].
  - destruct io; by apply (balanced_finally c0 r0 _ _ false).
  - destruct io; [by apply (balanced_runQueries c0 r0 _ _ true)
                 |by apply (balanced_finally c0 r0 _ _ true)].
  - done.
Qed.

Lemma balanced_alone (c0 r0 : nat) (call : Invocation) (ios : list Io) (pc : Pc)
    (w : World) :
  balanced c0 r0 pc w ->
  balanced c0 r0
    (foldl (fun '(pc, w) io => step call io pc w) (pc, w) ios).1
    (foldl (fun '(pc, w) io => step call io pc w) (pc, w) ios).2.
Proof.
  revert pc w. induction ios as [|io ios IH]; intros pc w Hinv; [done|].
  cbn [foldl]. pose proof (balanced_step c0 r0 call io pc w Hinv) as Hstep.
  destruct (step call io pc w) as [pc' w']. by apply IH.
Qed.

(** X14. An invocation that runs alone leaks no client, however the
    database answers: once it has finished, it has released as many
    clients as it checked out. *)
Theorem no_client_leak_alone (call : Invocation) (ios : list Io) (w : World)
    (out : Outcome) :
  client w = None ->
  (alone call ios w).1 = Finished out ->
  checkouts (trace (alone call ios w).2) + releases (trace w)
  = releases (trace (alone call ios w).2) + checkouts (trace w).
Proof.
  intros Hclient Hfinished.
  assert (balanced (checkouts (trace w)) (releases (trace w)) Start w) as Hstart.
  { unfold balanced. cbn [holds]. split; [lia|done]. }
  pose proof (balanced_alone _ _ call ios Start w Hstart) as [Hcount _].
  fold (alone call ios w) in Hcount. rewrite Hfinished in Hcount.
  cbn [holds] in Hcount. lia.
Qed.

(** X15. When the database cannot be reached (the checkout fails with
    [message]), an invocation that runs alone sends no statement, ends
    the pool it had just put in place (the one thing it adds to what
    reached the driver, after the creation of the pool when the pool was
    not cached) and removes it from the cache, and its handler answers
    [Failed to connect to database: <message>]; the instance is left
    without pool. *)
Theorem unreachable_database (call : Invocation) (message : string) (w : World) :
  conn call ≠ "" ->
  client w = None ->
  connectionString w = "" ->
  let after := alone call [Done; Fails message; Done] w in
  after.1 = Finished (Failed ("Failed to connect to database: " +:+ message))
  ∧ trace after.2
    = PoolEnded (conn call)
      :: (if bool_decide (conn call ∉ poolCache w) then PoolCreated (conn call) :: trace w
          else trace w)
  ∧ sent (trace after.2) = sent (trace w)
  ∧ pool after.2 = None
  ∧ (conn call ∉ poolCache after.2)
  ∧ client after.2 = None
  ∧ checkouts (trace after.2) = checkouts (trace w).
Proof.
  intros Hconn Hclient Hcs after. subst after.
  destruct call as [c todo]. destruct w as [p cl cs le cache n tr].
  cbn [conn client connectionString] in *. subst cl cs.
  unfold alone. cbn [foldl step conn statements].
  unfold connect. rewrite (eqb_empty_false c Hconn).
  cbn [pool client connectionString lastError poolCache issued trace].
  assert (String.eqb "" c = false) as -> by (apply String.eqb_neq; congruence).
  rewrite andb_false_r.
  assert ((if bool_decide (is_Some p)
           then disconnect {| pool := p; client := None; connectionString := "";
                              lastError := le; poolCache := cache; issued := n; trace := tr |}
           else {| pool := p; client := None; connectionString := "";
                   lastError := le; poolCache := cache; issued := n; trace := tr |})
          = {| pool := p; client := None; connectionString := "";
               lastError := le; poolCache := cache; issued := n; trace := tr |}) as ->
    by (by destruct (bool_decide (is_Some p))).
  cbn [pool client connectionString lastError poolCache issued trace].
  unfold connectCatch, release.
  cbn [pool client connectionString lastError poolCache issued trace step].
  unfold handlerFinally, disconnect, release.
  cbn [fst snd pool client connectionString lastError poolCache issued trace default
       from_option id].
  repeat split; try done.
  - by destruct (bool_decide (c ∉ cache)).
  - set_solver.
  - by destruct (bool_decide (c ∉ cache)).
Qed.

Lemma statements_prefix_run (call : Invocation) (k : Client) (p : string)
    (pre rest : list string) (w : World) :
  client w = Some k ->
  pool w = Some p ->
  foldl (fun '(pc, w) io => step call io pc w) (runQueries (pre ++ rest) w)
    (replicate (length pre) Done)
  = runQueries rest (ran k pre w).
Proof.
  revert w. induction pre as [|sql pre IH]; intros w Hclient Hpool.
  - cbn. f_equal. by destruct w.
  - cbn [app length replicate foldl]. unfold runQueries at 1. rewrite Hclient, Hpool.
    cbn [step]. fold (runQueries (pre ++ rest)).
    rewrite IH by done. f_equal. unfold ran.
    cbn [pool client connectionString lastError poolCache issued trace].
    f_equal; [done | done |].
    rewrite reverse_cons, fmap_app, <- app_assoc. reflexivity.
Qed.

(** X16. When a statement fails, an invocation that runs alone sends
    none of the statements after it: the statements sent are [SELECT 1],
    those before the failing one and the failing one, all on the client
    of its own pool; the client is released, the pool stays, and the
    handler answers [Query failed: <message>]. *)
Theorem failing_statement_stops_the_handler (c : string) (pre post : list string)
    (bad message : string) (w : World) :
  c ≠ "" ->
  client w = None ->
  connectionString w = "" ->
  let call := {| conn := c; statements := pre ++ bad :: post |} in
  let k := {| ofPool := c; serial := issued w |} in
  let after := alone call (replicate (3 + length pre) Done ++ [Fails message]) w in
  after.1 = Finished (Failed ("Query failed: " +:+ message))
  ∧ sent (trace after.2)
    = (k, bad) :: ((fun sql => (k, sql)) <$> reverse pre) ++ (k, "SELECT 1") :: sent (trace w)
  ∧ client after.2 = None
  ∧ pool after.2 = Some c
  ∧ releases (trace after.2) = S (releases (trace w)).
Proof.
  intros Hconn Hclient Hcs call k after. subst call.
  destruct w as [p cl cs le cache n tr].
  cbn [client connectionString issued trace] in *. subst cl cs.
  assert (after =
          (Finished (Failed ("Query failed: " +:+ message)),
           {| pool := Some c; client := None; connectionString := "";
              lastError := Some message; poolCache := {[c]} ∪ cache; issued := S n;
              trace :=
                (Released k :: Ran k bad :: (Ran k <$> reverse pre)
                 ++ Ran k "SELECT 1" :: CheckedOut k
                 :: (if bool_decide (c ∉ cache) then PoolCreated c :: tr else tr))%list |}))
    as Hafter.
  { subst after. unfold alone. rewrite foldl_app.
    cbn [Nat.add replicate foldl]. cbn [step conn statements].
    unfold connect. rewrite (eqb_empty_false c Hconn).
    cbn [pool client connectionString lastError poolCache issued trace].
    assert (String.eqb "" c = false) as -> by (apply String.eqb_neq; congruence).
    rewrite andb_false_r.
    assert ((if bool_decide (is_Some p)
             then disconnect {| pool := p; client := None; connectionString := "";
                                lastError := le; poolCache := cache; issued := n;
                                trace := tr |}
             else {| pool := p; client := None; connectionString := "";
                     lastError := le; poolCache := cache; issued := n; trace := tr |})
            = {| pool := p; client := None; connectionString := "";
                 lastError := le; poolCache := cache; issued := n; trace := tr |}) as ->
      by (by destruct (bool_decide (is_Some p))).
    cbn [pool client connectionString lastError poolCache issued trace step conn
         statements].
    rewrite (statements_prefix_run _ k c) by done.
    unfold runQueries, ran.
    cbn [pool client connectionString lastError poolCache issued trace foldl step].
    unfold handlerFinally, disconnect, release.
    cbn [fst snd pool client connectionString lastError poolCache issued trace].
    reflexivity. }
  rewrite Hafter. cbn [fst snd pool client trace].
  assert (forall (l : list string) (events : list Event),
            sent ((Ran k <$> l) ++ events)%list
            = (((fun sql => (k, sql)) <$> l) ++ sent events)%list)
    as Hsent.
  { intros l events. induction l as [|sql l IH]; [done|]. cbn. by rewrite IH. }
  assert (forall (l : list string) (events : list Event),
            releases ((Ran k <$> l) ++ events)%list = releases events) as Hreleases.
  { intros l events. induction l as [|sql l IH]; [done|]. cbn. by rewrite IH. }
  repeat split.
  - cbn [sent]. rewrite Hsent. cbn [sent]. by destruct (bool_decide (c ∉ cache)).
  - cbn [releases]. rewrite Hreleases. cbn [releases].
    by destruct (bool_decide (c ∉ cache)).
Qed.

(** X17. Two invocations with the same connection string that overlap:
    B starts while A waits for its client.  B finds a pool for its
    string in the instance, takes the connection for established, and
    fails with [Not connected to database] without sending anything;
    its [finally] empties [connectionString].  A is still waiting. *)
Theorem second_invocation_is_not_connected (c : string) (todoA todoB : list string)
    (sql : string) (ioA ioB : Io) (w : World) :
  c ≠ "" ->
  client w = None ->
  connectionString w = "" ->
  let A := {| conn := c; statements := todoA |} in
  let B := {| conn := c; statements := sql :: todoB |} in
  let after := run [(0, ioA); (1, ioB)] {| world := w; calls := [(A, Start); (B, Start)] |} in
  calls after = [(A, AwaitCheckout c); (B, Finished (Failed "Not connected to database"))]
  ∧ sent (trace (world after)) = sent (trace w)
  ∧ checkouts (trace (world after)) = checkouts (trace w)
  ∧ connectionString (world after) = ""
  ∧ pool (world after) = Some c.
Proof.
  intros Hconn Hclient Hcs A B after. subst A B.
  destruct w as [p cl cs le cache n tr].
  cbn [client connectionString trace] in *. subst cl cs.
  assert (after =
          {| world :=
               {| pool := Some c; client := None; connectionString := "";
                  lastError := le; poolCache := {[c]} ∪ cache; issued := n;
                  trace := if bool_decide (c ∉ cache) then PoolCreated c :: tr else tr |};
             calls :=
               [({| conn := c; statements := todoA |}, AwaitCheckout c);
                ({| conn := c; statements := sql :: todoB |},
                 Finished (Failed "Not connected to database"))] |}) as Hafter.
  { subst after. unfold run. cbn [foldl]. unfold resume.
    cbn [calls world lookup list_lookup insert list_insert].
    cbn [step conn statements]. unfold connect. rewrite (eqb_empty_false c Hconn).
    cbn [pool client connectionString lastError poolCache issued trace].
    assert (String.eqb "" c = false) as -> by (apply String.eqb_neq; congruence).
    rewrite andb_false_r.
    assert ((if bool_decide (is_Some p)
             then disconnect {| pool := p; client := None; connectionString := "";
                                lastError := le; poolCache := cache; issued := n;
                                trace := tr |}
             else {| pool := p; client := None; connectionString := "";
                     lastError := le; poolCache := cache; issued := n; trace := tr |})
            = {| pool := p; client := None; connectionString := "";
                 lastError := le; poolCache := cache; issued := n; trace := tr |}) as ->
      by (by destruct (bool_decide (is_Some p))).
    cbn [pool client connectionString lastError poolCache issued trace calls world
         lookup list_lookup insert list_insert step conn statements].
    unfold connect. rewrite (eqb_empty_false c Hconn).
    cbn [pool client connectionString lastError poolCache issued trace].
    rewrite String.eqb_refl.
    assert (bool_decide (is_Some (Some c)) = true) as -> by by apply bool_decide_eq_true_2.
    cbn [andb]. unfold runQueries, handlerFinally, disconnect, release.
    cbn [pool client connectionString lastError poolCache issued trace calls world
         insert list_insert].
    reflexivity. }
  rewrite Hafter. cbn [calls world pool connectionString trace].
  repeat split; by destruct (bool_decide (c ∉ cache)).
Qed.

Lemma rollback_last (k : Client) (message : string) (ios : list Io) (events : list Event) :
  exists rest, (rollback k message ios events).1 = Ran k "ROLLBACK" :: rest.
Proof. unfold rollback. destruct ios as [|[|?] ?]; eauto. Qed.

Lemma rollback_not_committed (k : Client) (message : string) (ios : list Io)
    (events : list Event) :
  (rollback k message ios events).2 ≠ Committed.
Proof. unfold rollback. by destruct ios as [|[|?] ?]. Qed.

Lemma callbackThenCommit_outcome (k : Client) (steps : list TxStep) (ios : list Io)
    (events : list Event) :
  match (callbackThenCommit k steps ios events).2 with
  | Committed =>
      Forall (fun s => exists sql, s = Send sql) steps
      ∧ (callbackThenCommit k steps ios events).1
        = Ran k "COMMIT" :: (Ran k <$> reverse (sends steps)) ++ events
  | TxFailed _ =>
      exists rest, (callbackThenCommit k steps ios events).1 = Ran k "ROLLBACK" :: rest
  | TxPending => True
  end.
Proof.
  revert ios events. induction steps as [|[sql|message] steps IH]; intros ios events.
  - cbn [callbackThenCommit]. destruct ios as [|[|message] ios]; cbn [fst snd]; [done| |].
    + split; [constructor|done].
    + pose proof (rollback_last k message ios (Ran k "COMMIT" :: events)) as Hlast.
      pose proof (rollback_not_committed k message ios (Ran k "COMMIT" :: events)) as Hnot.
      destruct (rollback k message ios (Ran k "COMMIT" :: events)) as [ev [| |]]; done.
  - cbn [callbackThenCommit]. destruct ios as [|[|message] ios]; [done| |].
    + specialize (IH ios (Ran k sql :: events)).
      destruct (callbackThenCommit k steps ios (Ran k sql :: events)) as [ev [| |]];
        cbn [fst snd] in *; [|done|done].
      destruct IH as [Hall Hev]. split; [constructor; eauto|].
      rewrite Hev. change (sends (Send sql :: steps)) with (sql :: sends steps).
      rewrite reverse_cons, fmap_app, <- app_assoc. reflexivity.
    + pose proof (rollback_last k message ios (Ran k sql :: events)) as Hlast.
      pose proof (rollback_not_committed k message ios (Ran k sql :: events)) as Hnot.
      destruct (rollback k message ios (Ran k sql :: events)) as [ev [| |]]; done.
  - cbn [callbackThenCommit].
    pose proof (rollback_last k message ios events) as Hlast.
    pose proof (rollback_not_committed k message ios events) as Hnot.
    destruct (rollback k message ios events) as [ev [| |]]; done.
Qed.

(** X18. [transaction] is all or nothing at the level of the statements
    it sends.  When it commits, the callback threw nowhere and the
    statements sent are [BEGIN], the statements of the callback in
    order, and [COMMIT]; when it fails, at [BEGIN], in the callback or
    at [COMMIT], the last statement sent is [ROLLBACK]. *)
Theorem transaction_commits_or_rolls_back (k : Client) (steps : list TxStep)
    (ios : list Io) :
  match (transaction k steps ios).2 with
  | Committed =>
      Forall (fun s => exists sql, s = Send sql) steps
      ∧ (transaction k steps ios).1
        = Ran k "COMMIT" :: (Ran k <$> reverse (sends steps)) ++ [Ran k "BEGIN"]
  | TxFailed _ => exists rest, (transaction k steps ios).1 = Ran k "ROLLBACK" :: rest
  | TxPending => True
  end.
Proof.
  unfold transaction. destruct ios as [|[|message] ios]; [done| |].
  - apply callbackThenCommit_outcome.
  - pose proof (rollback_last k message ios [Ran k "BEGIN"]) as Hlast.
    pose proof (rollback_not_committed k message ios [Ran k "BEGIN"]) as Hnot.
    destruct (rollback k message ios [Ran k "BEGIN"]) as [ev [| |]]; done.
Qed.

End MoreSharedConnection.

(** ** The user-management handler *)

Section MoreUsers.
Import JS Mcp Text Users.

(** X19. [create], [drop], [alter] and [get_permissions] need a
    username: when it is missing, empty or otherwise falsy, the handler
    answers [Error: username is required for <operation> operation] and
    gives nothing to [db.query]. *)
Theorem username_is_required (a : Args) (op : string) :
  op ∈ ["create"; "drop"; "alter"; "get_permissions"] ->
  operation a = VStr op ->
  truthy (username a) = false ->
  plan a = Reject (refuse ("Error: username is required for " +:+ op +:+ " operation"))
  ∧ statementsOf (plan a) = [].
Proof.
  intros Hop Hoperation Husername.
  assert (plan a
          = Reject (refuse ("Error: username is required for " +:+ op +:+ " operation")))
    as Hplan.
  { rewrite !elem_of_cons, elem_of_nil in Hop. unfold plan. rewrite Hoperation, Husername.
    destruct Hop as [-> | [-> | [-> | [-> | []]]]]; reflexivity. }
  split; [exact Hplan|]. by rewrite Hplan.
Qed.

Lemma roleOptions_run (a : Args) (queries : list (string * list Value))
    (success : Rows -> ToolOutput) :
  match roleOptions a with
  | [] => Reject (refuse "Error: At least one attribute must be specified for alter operation")
  | options =>
      Run [("ALTER ROLE " +:+ quoted (username a) +:+ " " +:+ joinStrings " " options, [])]
        (fun _ => say ("User/role " +:+ quoted (username a) +:+ " altered successfully."))
  end = Run queries success ->
  length queries = 1.
Proof. destruct (roleOptions a); [done|]. by intros [= <- _]. Qed.

(** X20. A call that gets as far as the database sends exactly one
    statement, except [drop] with [cascade], which sends three: the two
    statements about owned objects come before [DROP ROLE]. *)
Theorem statements_per_call (a : Args) (queries : list (string * list Value))
    (success : Rows -> ToolOutput) :
  plan a = Run queries success ->
  if same (operation a) "drop" && truthy (cascade a)
  then exists reassign dropOwned dropRole,
         queries = [(reassign, []); (dropOwned, []); (dropRole, [])]
         ∧ String.prefix "REASSIGN OWNED BY " reassign = true
         ∧ String.prefix "DROP OWNED BY " dropOwned = true
         ∧ String.prefix "DROP ROLE " dropRole = true
  else length queries = 1.
Proof.
  unfold plan.
  destruct (same (operation a) "list") eqn:Hlist.
  { assert (same (operation a) "drop" = false) as ->.
    { unfold same in *. destruct (operation a); try done.
      apply String.eqb_eq in Hlist as ->. reflexivity. }
    by intros [= <- _]. }
  destruct (same (operation a) "create") eqn:Hcreate.
  { assert (same (operation a) "drop" = false) as ->.
    { unfold same in *. destruct (operation a); try done.
      apply String.eqb_eq in Hcreate as ->. reflexivity. }
    destruct (negb (truthy (username a))); [done|]. by intros [= <- _]. }
  destruct (same (operation a) "drop") eqn:Hdrop.
  { destruct (negb (truthy (username a))); [done|].
    destruct (truthy (cascade a)); cbn [andb app]; intros [= <- _]; [|done].
    eexists _, _, _. split; [reflexivity|].
    repeat split; by destruct (truthy (ifExists a)). }
  cbn [andb].
  destruct (same (operation a) "alter").
  { destruct (negb (truthy (username a))); [done|]. apply roleOptions_run. }
  destruct (same (operation a) "grant").
  { destruct (_ || _); [done|]. destruct (permsList (permissions a)); [|done].
    by intros [= <- _]. }
  destruct (same (operation a) "revoke").
  { destruct (_ || _); [done|]. destruct (permsList (permissions a)); [|done].
    by intros [= <- _]. }
  destruct (same (operation a) "get_permissions"); [|done].
  destruct (negb (truthy (username a))); [done|]. by intros [= <- _].
Qed.


(** X22. [permissions] is only tested for truthiness before
    [permissions.join] is called.  A truthy value that is not an array
    (a string such as ["ALL"], say) makes the call throw; the handler
    answers [Error managing users: permissions.join is not a function]
    and sends no statement. *)
Theorem permissions_must_be_an_array (a : Args) (op : string) (rows : Rows) :
  op ∈ ["grant"; "revoke"] ->
  operation a = VStr op ->
  truthy (username a) = true ->
  truthy (permissions a) = true ->
  truthy (target a) = true ->
  truthy (targetType a) = true ->
  (forall items, permissions a ≠ VArr items) ->
  statementsOf (plan a) = []
  ∧ answer (plan a) Db.Ok rows
    = refuse "Error managing users: permissions.join is not a function".
Proof.
  intros Hop Hoperation Husername Hpermissions Htarget HtargetType Harray.
  assert (permsList (permissions a) = None) as Hjoin.
  { unfold permsList. destruct (permissions a) as [| | | | |items|]; try done.
    by destruct (Harray items). }
  rewrite !elem_of_cons, elem_of_nil in Hop.
  unfold plan. rewrite Hoperation, Husername, Hpermissions, Htarget, HtargetType, Hjoin.
  destruct Hop as [-> | [-> | []]]; split; reflexivity.
Qed.

Lemma alone_without_statements (c : string) (w : Db.World) :
  c ≠ "" ->
  Db.client w = None ->
  Db.connectionString w = "" ->
  let k := {| Db.ofPool := c; Db.serial := Db.issued w |} in
  let after := Db.alone {| Db.conn := c; Db.statements := [] |}
                 [Db.Done; Db.Done; Db.Done] w in
  after.1 = Db.Finished Db.Ok
  ∧ Driver.sent (Db.trace after.2) = (k, "SELECT 1") :: Driver.sent (Db.trace w)
  ∧ Driver.checkouts (Db.trace after.2) = S (Driver.checkouts (Db.trace w)).
Proof.
  intros Hconn Hclient Hcs k after. subst after.
  destruct w as [p cl cs le cache n tr].
  cbn [Db.client Db.connectionString Db.issued Db.trace] in *. subst cl cs.
  unfold Db.alone. cbn [foldl Db.step Db.conn Db.statements].
  unfold Db.connect. rewrite (eqb_empty_false c Hconn).
  cbn [Db.pool Db.client Db.connectionString Db.lastError Db.poolCache Db.issued Db.trace].
  assert (String.eqb "" c = false) as -> by (apply String.eqb_neq; congruence).
  rewrite andb_false_r.
  assert ((if bool_decide (is_Some p)
           then Db.disconnect
                  {| Db.pool := p; Db.client := None; Db.connectionString := "";
                     Db.lastError := le; Db.poolCache := cache; Db.issued := n;
                     Db.trace := tr |}
           else {| Db.pool := p; Db.client := None; Db.connectionString := "";
                   Db.lastError := le; Db.poolCache := cache; Db.issued := n;
                   Db.trace := tr |})
          = {| Db.pool := p; Db.client := None; Db.connectionString := "";
               Db.lastError := le; Db.poolCache := cache; Db.issued := n;
               Db.trace := tr |}) as ->
    by (by destruct (bool_decide (is_Some p))).
  cbn [Db.pool Db.client Db.connectionString Db.lastError Db.poolCache Db.issued Db.trace
       Db.step Db.statements].
  unfold Db.runQueries, Db.handlerFinally, Db.disconnect, Db.release.
  cbn [fst snd Db.pool Db.client Db.connectionString Db.lastError Db.poolCache Db.issued
       Db.trace].
  repeat split; by destruct (bool_decide (c ∉ cache)).
Qed.

(** X23. The handler connects before it looks at the operation.  A call
    that it then rejects (unknown operation, missing username, ...) or
    that throws before its first statement has nevertheless checked out
    a client and sent [SELECT 1], and nothing else; the answer is the
    one of the plan. *)
Theorem rejected_calls_still_connect (args : Value) (c : string) (w : Db.World)
    (rows : Rows) :
  c ≠ "" ->
  Db.client w = None ->
  Db.connectionString w = "" ->
  statementsOf (plan (destructure args)) = [] ->
  let k := {| Db.ofPool := c; Db.serial := Db.issued w |} in
  let after := Db.alone (invocation args c) [Db.Done; Db.Done; Db.Done] w in
  after.1 = Db.Finished Db.Ok
  ∧ Driver.sent (Db.trace after.2) = (k, "SELECT 1") :: Driver.sent (Db.trace w)
  ∧ Driver.checkouts (Db.trace after.2) = S (Driver.checkouts (Db.trace w))
  ∧ (forall out, plan (destructure args) = Reject out ->
       answer (plan (destructure args)) Db.Ok rows = out).
Proof.
  intros Hconn Hclient Hcs Hnone k after. subst after. unfold invocation. rewrite Hnone.
  destruct (alone_without_statements c w Hconn Hclient Hcs) as (Hok & Hsent & Hcheckouts).
  split; [exact Hok|]. split; [exact Hsent|]. split; [exact Hcheckouts|].
  by intros out ->.
Qed.

End MoreUsers.

(** ** Altering a table inside a transaction *)

Section MoreAlterTable.
Import JS Text Db Driver AlterTable.

Lemma alterSteps_app (tableName : Value) (pre post : list Value) :
  alterSteps tableName (pre ++ post)
  = (alterSteps tableName pre ++ alterSteps tableName post)%list.
Proof. unfold alterSteps. apply omap_app. Qed.

Lemma sending_prefix (k : Client) (tableName : Value) (pre : list Value)
    (rest : list TxStep) (ios : list Io) (events : list Event) :
  Forall (fun op => exists sql, alterStep tableName op = Some (Send sql)) pre ->
  callbackThenCommit k (alterSteps tableName pre ++ rest)%list
    (replicate (length pre) Done ++ ios)%list events
  = callbackThenCommit k rest ios
      ((Ran k <$> reverse (sends (alterSteps tableName pre))) ++ events)%list.
Proof.
  intros Hpre. revert events. induction Hpre as [|op pre [sql Hop] _ IH]; intros events.
  - reflexivity.
  - unfold alterSteps. cbn [omap list_omap]. rewrite Hop. fold (alterSteps tableName pre).
    cbn [app length replicate callbackThenCommit]. rewrite IH.
    change (sends (Send sql :: alterSteps tableName pre))
      with (sql :: sends (alterSteps tableName pre)).
    by rewrite reverse_cons, fmap_app, <- app_assoc.
Qed.

(** X24. [alter_table] runs its operations inside one transaction.
    When an operation is refused by the callback itself ([add] without
    a data type, [alter] without anything to change), the statements of
    the operations before it have been sent, [ROLLBACK] follows them,
    the operations after it are never sent, and the error is
    [Transaction failed: <message>]. *)
Theorem refused_operation_rolls_back (k : Client) (tableName : Value)
    (pre post : list Value) (bad : Value) (message : string) :
  Forall (fun op => exists sql, alterStep tableName op = Some (Send sql)) pre ->
  alterStep tableName bad = Some (Raise message) ->
  transaction k (alterSteps tableName (pre ++ bad :: post))
    (replicate (2 + length pre) Done)
  = (Ran k "ROLLBACK"
     :: (Ran k <$> reverse (sends (alterSteps tableName pre))) ++ [Ran k "BEGIN"],
     TxFailed ("Transaction failed: " +:+ message))%list.
Proof.
  intros Hpre Hbad. unfold transaction.
  change (2 + length pre) with (S (S (length pre))).
  rewrite replicate_S. rewrite alterSteps_app.
  assert (replicate (S (length pre)) Done = (replicate (length pre) Done ++ [Done])%list)
    as -> by (by rewrite <- replicate_S_end).
  rewrite sending_prefix by done.
  unfold alterSteps at 1. cbn [omap list_omap]. rewrite Hbad.
  reflexivity.
Qed.

(** The two refusals of the callback. *)
Lemma add_needs_a_data_type (tableName : Value) (fields : list (string * Value)) :
  assoc fields "type" = VStr "add" ->
  truthy (assoc fields "dataType") = false ->
  alterStep tableName (VObj fields) = Some (Raise "Data type is required for ADD operation").
Proof. intros Htype Hdata. unfold alterStep. cbn [property]. by rewrite Htype, Hdata. Qed.

End MoreAlterTable.

(** ** The event-stream parser of the browser client *)

Section MoreSse.
Import Text Sse.

Lemma feed_started (events : list Event) (currentEvent : Event) (line : string) :
  Forall (fun e => started e = true) events ->
  Forall (fun e => started e = true) (feed (events, currentEvent) line).1.
Proof.
  intros Hevents. unfold feed.
  destruct (String.prefix "event:" line); [done|].
  destruct (String.prefix "data:" line); [done|].
  destruct (String.eqb line ""); cbn [andb]; [|done].
  destruct (started currentEvent) eqn:Hstarted; [|done]. by constructor.
Qed.

Lemma foldl_feed_started (ls : list string) (events : list Event) (currentEvent : Event) :
  Forall (fun e => started e = true) events ->
  Forall (fun e => started e = true) (foldl feed (events, currentEvent) ls).1.
Proof.
  revert events currentEvent. induction ls as [|line ls IH]; intros events currentEvent Hev.
  - done.
  - cbn [foldl]. pose proof (feed_started events currentEvent line Hev) as Hfeed.
    destruct (feed (events, currentEvent) line) as [events' current']. by apply IH.
Qed.

(** X25. Every event that [parseSSE] returns has a non-empty [event] or
    a non-empty [data]: blank lines and lines it does not know never
    produce an event of their own. *)
Theorem parsed_events_are_not_empty (text : string) (e : Event) :
  e ∈ parseSSE text ->
  started e = true.
Proof.
  unfold parseSSE.
  pose proof (foldl_feed_started (lines text) [] empty (Forall_nil_2 _)) as Hall.
  destruct (foldl feed ([], empty) (lines text)) as [events currentEvent].
  cbn [fst] in Hall. rewrite elem_of_reverse.
  destruct (started currentEvent) eqn:Hstarted.
  - rewrite elem_of_cons. intros [-> | Hin]; [done|].
    by apply (proj1 (Forall_forall _ _) Hall).
  - by apply (proj1 (Forall_forall _ _) Hall).
Qed.

Lemma append_assoc (a b c : string) : (a +:+ b) +:+ c = a +:+ (b +:+ c).
Proof.
  induction a as [|x a IH]; [done|].
  change (String x ((a +:+ b) +:+ c) = String x (a +:+ (b +:+ c))). by rewrite IH.
Qed.

Lemma cut_line (s rest line : string) :
  oneLine s = true ->
  cut (s +:+ String "010" rest) line = (line +:+ s) :: cut rest "".
Proof.
  revert line. induction s as [|c s IH]; intros line Hs.
  - change (line :: cut rest "" = (line +:+ "") :: cut rest ""). f_equal.
    induction line as [|x line IHl]; [done|].
    change (String x line = String x (line +:+ "")). by f_equal.
  - cbn [oneLine] in Hs. apply andb_true_iff in Hs as [Hc Hs].
    apply negb_true_iff in Hc.
    change (cut (String c s +:+ String "010" rest) line)
      with (if Ascii.eqb c "010" then line :: cut (s +:+ String "010" rest) ""
            else cut (s +:+ String "010" rest) (line +:+ String c "")).
    rewrite Hc, IH by done. f_equal. by rewrite append_assoc.
Qed.

Lemma oneLine_append (a b : string) :
  oneLine a = true -> oneLine b = true -> oneLine (a +:+ b) = true.
Proof.
  intros Ha Hb. induction a as [|c a IH]; [done|].
  cbn [oneLine] in Ha. apply andb_true_iff in Ha as [Hc Ha].
  change (negb (Ascii.eqb c "010") && oneLine (a +:+ b) = true).
  by rewrite Hc, IH.
Qed.

Lemma feed_event_line (events : list Event) (currentEvent : Event) (v : string) :
  feed (events, currentEvent) ("event: " +:+ v)
  = (events, {| event := Some (trim v); data := data currentEvent |}).
Proof. reflexivity. Qed.

Lemma feed_data_line (events : list Event) (currentEvent : Event) (v : string) :
  feed (events, currentEvent) ("data: " +:+ v)
  = (events, {| event := event currentEvent; data := Some (trim v) |}).
Proof. reflexivity. Qed.

Lemma feed_blank_line (events : list Event) (currentEvent : Event) :
  feed (events, currentEvent) ""
  = if started currentEvent then (currentEvent :: events, empty)
    else (events, currentEvent).
Proof. reflexivity. Qed.

Lemma two_lines (a b : string) :
  oneLine a = true ->
  oneLine b = true ->
  lines (a +:+ nl +:+ b +:+ nl +:+ nl) = [a; b; ""; ""].
Proof.
  intros Ha Hb. unfold lines.
  change (a +:+ nl +:+ b +:+ nl +:+ nl) with (a +:+ String "010" (b +:+ String "010" nl)).
  rewrite !cut_line by done. reflexivity.
Qed.

(** X26. A frame as the server writes it, an [event:] line, a [data:]
    line and a blank line, is parsed into one event with exactly these
    two fields, provided neither value contains a line feed or begins or
    ends with white space and the data is not empty. *)
Theorem one_frame_one_event (e d : string) :
  oneLine e = true ->
  oneLine d = true ->
  trim e = e ->
  trim d = d ->
  d ≠ "" ->
  parseSSE (("event: " +:+ e) +:+ nl +:+ ("data: " +:+ d) +:+ nl +:+ nl)
  = [{| event := Some e; data := Some d |}].
Proof.
  intros He Hd Htrime Htrimd Hne.
  unfold parseSSE.
  rewrite two_lines by (by apply oneLine_append).
  cbn [foldl]. rewrite feed_event_line, feed_data_line, !feed_blank_line.
  cbn [event data empty]. rewrite Htrime, Htrimd.
  assert (started {| event := Some e; data := Some d |} = true) as ->.
  { unfold started. cbn [event data JS.ofOptional JS.truthy].
    rewrite (eqb_empty_false d Hne). apply orb_true_r. }
  reflexivity.
Qed.

(** X27. Within one event the [data:] lines are not joined: each one
    replaces the value of the one before, so the event carries the last
    of them. *)
Theorem last_data_line_wins (d1 d2 : string) :
  oneLine d1 = true ->
  oneLine d2 = true ->
  trim d2 = d2 ->
  d2 ≠ "" ->
  parseSSE (("data: " +:+ d1) +:+ nl +:+ ("data: " +:+ d2) +:+ nl +:+ nl)
  = [{| event := None; data := Some d2 |}].
Proof.
  intros Hd1 Hd2 Htrim Hne.
  unfold parseSSE.
  rewrite two_lines by (by apply oneLine_append).
  cbn [foldl]. rewrite !feed_data_line, !feed_blank_line.
  cbn [event data empty]. rewrite Htrim.
  assert (started {| event := None; data := Some d2 |} = true) as ->.
  { unfold started. cbn [event data JS.ofOptional JS.truthy].
    by rewrite (eqb_empty_false d2 Hne). }
  reflexivity.
Qed.

End MoreSse.

(** ** The further properties on concrete inputs *)

Section MoreWitnesses.
Import JS Mcp Server Boot Http Routes Examples MoreExamples.

Local Ltac evaluated :=
  first
    [ vm_compute; reflexivity
    | discriminate
    | apply (bool_decide_eq_false_1 _); vm_compute; reflexivity
    | apply (bool_decide_eq_true_1 _); vm_compute; reflexivity ].

Lemma last_registration_wins_witness :
  let request := call "sierra_analyze_database" (VObj []) in
  let tool := Tools.analyzeDatabaseTool shadow in
  let tools := ([Tools.analyzeDatabaseTool echo] ++ tool :: [Tools.manageUsersTool echo])%list in
  truthy (ofOptional (options_toolsConfig withDefault)) = false
  ∧ (name tool ∉ name <$> [Tools.manageUsersTool echo])
  ∧ params_name request = name tool
  ∧ callTool (H := sdk) withDefault (newSierraDBServer withDefault tools) request
    = Returns {| content := [TextPart "shadow"]; isError := None |}.
Proof.
  intros request tool tools.
  assert (name tool ∉ name <$> [Tools.manageUsersTool echo]) as Hlast by evaluated.
  split; [reflexivity|]. split; [exact Hlast|]. split; [reflexivity|].
  exact (last_registration_wins (H := sdk) withDefault [Tools.analyzeDatabaseTool echo]
           [Tools.manageUsersTool echo] tool request eq_refl Hlast eq_refl).
Defined.

Lemma allow_list_warnings_witness :
  let names := ["sierra_manage_users"; "nope"; "nope"] in
  options_toolsConfig warned = Some "warn.json"
  ∧ "warn.json" ≠ ""
  ∧ Spec.allowList (readAndParse warned "warn.json") = Some names
  ∧ NoDup (notFoundWarnings warned allTools)
  ∧ "nope" ∈ notFoundWarnings warned allTools.
Proof.
  intros names.
  assert ("warn.json" ≠ "") as Hne by discriminate.
  destruct (allow_list_warnings warned allTools "warn.json" names eq_refl Hne eq_refl)
    as (Hnodup & Hspec & _).
  split; [reflexivity|]. split; [exact Hne|]. split; [reflexivity|].
  split; [exact Hnodup|]. apply Hspec. split; evaluated.
Defined.

Lemma resolved_connection_string_is_truthy_witness :
  getConnectionString (H := sdk) withDefault VUndefined
    = Returns (VStr "postgresql://localhost/app")
  ∧ truthy (VStr "postgresql://localhost/app") = true.
Proof.
  split; [reflexivity|].
  exact (resolved_connection_string_is_truthy (H := sdk) withDefault VUndefined
           (VStr "postgresql://localhost/app") eq_refl).
Defined.

Lemma call_without_arguments_witness :
  let srv := newSierraDBServer withDefault allTools in
  let request := call "sierra_manage_users" VUndefined in
  enabledToolsMap srv !! params_name request = Some (Tools.manageUsersTool echo)
  ∧ execute (Tools.manageUsersTool echo) = Tools.handler echo
  ∧ params_arguments request = VUndefined
  ∧ callTool (H := sdk) withDefault srv request
    = Returns
        (failure
           "Error: Cannot destructure property 'connectionString' of 'args' as it is undefined.").
Proof.
  intros srv request.
  assert (enabledToolsMap srv !! params_name request = Some (Tools.manageUsersTool echo))
    as Htool by evaluated.
  split; [exact Htool|]. split; [reflexivity|]. split; [reflexivity|].
  exact (call_without_arguments (H := sdk) withDefault srv request
           (Tools.manageUsersTool echo) echo Htool eq_refl eq_refl).
Defined.

Lemma call_of_a_prototype_member_witness :
  let request := call "toString" (VObj []) in
  params_name request ∈ objectPrototypeMembers
  ∧ (params_name request ∉ name <$> enabledTools (newSierraDBServer withDefault allTools))
  ∧ callTool (H := sdk) withDefault (newSierraDBServer withDefault allTools) request
    = Returns (failure "Error: tool.execute is not a function").
Proof.
  intros request.
  assert (params_name request ∈ objectPrototypeMembers) as Hproto by evaluated.
  assert (params_name request ∉ name <$> enabledTools (newSierraDBServer withDefault allTools))
    as Hname by evaluated.
  split; [exact Hproto|]. split; [exact Hname|].
  exact (call_of_a_prototype_member (H := sdk) withDefault allTools request Hproto Hname).
Defined.

Lemma port_ignores_the_environment_witness :
  let flags := {| http := true; portFlag := None |} in
  portFlag flags ≠ Some ""
  ∧ port flags (Some "9000") = port flags None
  ∧ port flags (Some "9000") = Doubles.Finite 7409.
Proof.
  intros flags.
  assert (portFlag flags ≠ Some "") as Hflag by discriminate.
  destruct (port_ignores_the_environment flags (Some "9000") None Hflag) as [Hsame Hdefault].
  split; [exact Hflag|]. split; [exact Hsame|exact (Hdefault eq_refl)].
Defined.

Lemma prototype_member_as_session_id_witness :
  "constructor" ∈ objectPrototypeMembers
  ∧ transports oneSession !! "constructor" = None
  ∧ post_mcp (H := sdk) (Some "constructor") callBody false answering oneSession
    = (internalServerError, oneSession)
  ∧ delete_mcp (Some "constructor") answering oneSession = (terminationError, oneSession)
  ∧ get_mcp (Some "constructor") answering oneSession = (Unhandled, oneSession).
Proof.
  assert ("constructor" ∈ objectPrototypeMembers) as Hproto by evaluated.
  assert (transports oneSession !! "constructor" = None) as Hnone by evaluated.
  split; [exact Hproto|]. split; [exact Hnone|].
  exact (prototype_member_as_session_id (H := sdk) "constructor" callBody false answering
           oneSession Hproto Hnone).
Defined.

Lemma other_sessions_untouched_witness :
  liveSession ≠ ""
  ∧ transports twoSessions !! liveSession = Some 0
  ∧ sessionIdOf twoSessions !! 0 = Some liveSession
  ∧ initializes closing = None
  ∧ nextSession ≠ liveSession
  ∧ transports twoSessions !! nextSession = Some 1
  ∧ transports (snd (delete_mcp (Some liveSession) closing twoSessions)) !! liveSession = None
  ∧ transports (snd (post_mcp (H := sdk) (Some liveSession) callBody false closing twoSessions))
      !! nextSession = Some 1
  ∧ transports (snd (delete_mcp (Some liveSession) closing twoSessions)) !! nextSession
    = Some 1
  ∧ transports (snd (get_mcp (Some liveSession) closing twoSessions)) !! nextSession = Some 1.
Proof.
  assert (liveSession ≠ "") as Hsid by discriminate.
  assert (transports twoSessions !! liveSession = Some 0) as Htransport by evaluated.
  assert (sessionIdOf twoSessions !! 0 = Some liveSession) as Hid by evaluated.
  assert (nextSession ≠ liveSession) as Hother by discriminate.
  assert (transports twoSessions !! nextSession = Some 1) as Hnext by evaluated.
  destruct (other_sessions_untouched (H := sdk) liveSession nextSession 0 callBody false
              closing twoSessions Hsid Htransport Hid eq_refl Hother)
    as (Hpost & Hdelete & Hget).
  split; [exact Hsid|]. split; [exact Htransport|]. split; [exact Hid|].
  split; [reflexivity|]. split; [exact Hother|]. split; [exact Hnext|].
  split; [evaluated|].
  split; [exact (eq_trans Hpost Hnext)|].
  split; [exact (eq_trans Hdelete Hnext)|exact (eq_trans Hget Hnext)].
Defined.

Lemma session_lifecycle_witness :
  let opened := snd (post_mcp (H := sdk) None initializeBody false
                       (initializing nextSession) oneSession) in
  let closed := snd (delete_mcp (Some nextSession) closing opened) in
  nextSession ≠ ""
  ∧ inherited nextSession = false
  ∧ transports oneSession !! nextSession = None
  ∧ isInitializeRequest (Sdk := sdk) initializeBody = true
  ∧ transports opened = <[nextSession := 1]> (transports oneSession)
  ∧ transports closed = transports oneSession
  ∧ post_mcp (H := sdk) (Some nextSession) callBody false answering closed
    = (badRequest, closed).
Proof.
  intros opened closed.
  assert (nextSession ≠ "") as Hid by discriminate.
  assert (inherited nextSession = false) as Hproto by evaluated.
  assert (transports oneSession !! nextSession = None) as Hfresh by evaluated.
  assert (isInitializeRequest (Sdk := sdk) initializeBody = true) as Hinit by evaluated.
  destruct (session_lifecycle (H := sdk) nextSession initializeBody callBody false
              (initializing nextSession) closing answering oneSession
              Hid Hproto Hfresh Hinit eq_refl eq_refl eq_refl eq_refl)
    as (Hopened & _ & Hclosed & Hrejected).
  split; [exact Hid|]. split; [exact Hproto|]. split; [exact Hfresh|].
  split; [exact Hinit|]. split; [exact Hopened|]. split; [exact Hclosed|exact Hrejected].
Defined.

Lemma shutdown_closes_every_session_witness :
  (forall transport, closeThrows (closesQuietly transport) = false)
  ∧ (forall sid, is_Some (transports oneSession !! sid) -> sid ∈ [liveSession])
  ∧ transports (shutdown closesQuietly [liveSession] oneSession) = ∅.
Proof.
  assert (forall transport, closeThrows (closesQuietly transport) = false) as Hclose
    by reflexivity.
  assert (forall sid, is_Some (transports oneSession !! sid) -> sid ∈ [liveSession])
    as Hkeys.
  { intros sid [transport Hsid]. unfold oneSession in Hsid. cbn [transports] in Hsid.
    apply lookup_singleton_Some in Hsid as [<- _]. apply list_elem_of_here. }
  split; [exact Hclose|]. split; [exact Hkeys|].
  exact (shutdown_closes_every_session closesQuietly [liveSession] oneSession Hclose Hkeys).
Defined.

End MoreWitnesses.

Section MoreWitnessesDb.
Import JS Mcp Text Db Driver Examples MoreExamples.

Lemma finishing_disconnects_witness :
  let pc := tenantAQuerying.1 in
  let w := tenantAQuerying.2 in
  pc = AwaitQuery clientOfA []
  ∧ client w = Some clientOfA
  ∧ connectionString w = "postgresql://tenant-a/db"
  ∧ (forall out0, pc ≠ Finished out0)
  ∧ step tenantA Done pc w = (Finished Ok, disconnect w)
  ∧ client (disconnect w) = None
  ∧ connectionString (disconnect w) = "".
Proof.
  intros pc w.
  assert (forall out0, pc ≠ Finished out0) as Hrunning by discriminate.
  assert (step tenantA Done pc w = (Finished Ok, disconnect w)) as Hstep by reflexivity.
  split; [reflexivity|]. split; [reflexivity|]. split; [reflexivity|].
  split; [exact Hrunning|]. split; [exact Hstep|].
  exact (finishing_disconnects tenantA Done pc w (disconnect w) Ok Hrunning Hstep).
Defined.

Lemma no_client_leak_alone_witness :
  let after := alone tenantA [Done; Done; Done; Fails "deadlock detected"] initial in
  client initial = None
  ∧ after.1 = Finished (Failed "Query failed: deadlock detected")
  ∧ checkouts (trace after.2) + releases (trace initial)
    = releases (trace after.2) + checkouts (trace initial).
Proof.
  intros after.
  assert (after.1 = Finished (Failed "Query failed: deadlock detected")) as Hfinished
    by (vm_compute; reflexivity).
  split; [reflexivity|]. split; [exact Hfinished|].
  exact (no_client_leak_alone tenantA [Done; Done; Done; Fails "deadlock detected"] initial
           (Failed "Query failed: deadlock detected") eq_refl Hfinished).
Defined.

Lemma unreachable_database_witness :
  let after := alone tenantA [Done; Fails "ECONNREFUSED"; Done] initial in
  conn tenantA ≠ ""
  ∧ client initial = None
  ∧ connectionString initial = ""
  ∧ after.1 = Finished (Failed "Failed to connect to database: ECONNREFUSED")
  ∧ trace after.2
    = [PoolEnded "postgresql://tenant-a/db"; PoolCreated "postgresql://tenant-a/db"]
  ∧ sent (trace after.2) = []
  ∧ pool after.2 = None.
Proof.
  intros after.
  assert (conn tenantA ≠ "") as Hconn by discriminate.
  destruct (unreachable_database tenantA "ECONNREFUSED" initial Hconn eq_refl eq_refl)
    as (Hout & Htrace & Hsent & Hpool & _).
  split; [exact Hconn|]. split; [reflexivity|]. split; [reflexivity|].
  split; [exact Hout|]. split; [exact Htrace|]. split; [exact Hsent|exact Hpool].
Defined.

Lemma failing_statement_stops_the_handler_witness :
  let c := "postgresql://tenant-a/db" in
  let call := {| conn := c; statements := (["A"] ++ "B" :: ["C"])%list |} in
  let after := alone call (replicate (3 + length ["A"]) Done ++ [Fails "syntax error"])%list
                 initial in
  c ≠ ""
  ∧ client initial = None
  ∧ connectionString initial = ""
  ∧ after.1 = Finished (Failed "Query failed: syntax error")
  ∧ sent (trace after.2)
    = [(clientOfA, "B"); (clientOfA, "A"); (clientOfA, "SELECT 1")].
Proof.
  intros c call after.
  assert (c ≠ "") as Hconn by discriminate.
  destruct (failing_statement_stops_the_handler c ["A"] ["C"] "B" "syntax error" initial
              Hconn eq_refl eq_refl) as (Hout & Hsent & _).
  split; [exact Hconn|]. split; [reflexivity|]. split; [reflexivity|].
  split; [exact Hout|exact Hsent].
Defined.

Lemma second_invocation_is_not_connected_witness :
  let c := "postgresql://tenant-a/db" in
  let A := {| conn := c; statements := ["SELECT a"] |} in
  let B := {| conn := c; statements := "SELECT b" :: [] |} in
  let after := run [(0, Done); (1, Done)]
                 {| world := initial; calls := [(A, Start); (B, Start)] |} in
  c ≠ ""
  ∧ client initial = None
  ∧ connectionString initial = ""
  ∧ calls after = [(A, AwaitCheckout c); (B, Finished (Failed "Not connected to database"))]
  ∧ sent (trace (world after)) = [].
Proof.
  intros c A B after.
  assert (c ≠ "") as Hconn by discriminate.
  destruct (second_invocation_is_not_connected c ["SELECT a"] [] "SELECT b" Done Done
              initial Hconn eq_refl eq_refl) as (Hcalls & Hsent & _).
  split; [exact Hconn|]. split; [reflexivity|]. split; [reflexivity|].
  split; [exact Hcalls|exact Hsent].
Defined.

Lemma username_is_required_witness :
  let a := usersArgs [("operation", VStr "drop")] in
  "drop" ∈ ["create"; "drop"; "alter"; "get_permissions"]
  ∧ Users.operation a = VStr "drop"
  ∧ truthy (Users.username a) = false
  ∧ Users.plan a
    = Users.Reject (Users.refuse "Error: username is required for drop operation").
Proof.
  intros a.
  assert ("drop" ∈ ["create"; "drop"; "alter"; "get_permissions"]) as Hop
    by (apply (bool_decide_eq_true_1 _); vm_compute; reflexivity).
  split; [exact Hop|]. split; [reflexivity|]. split; [reflexivity|].
  exact (proj1 (username_is_required a "drop" Hop eq_refl eq_refl)).
Defined.

End MoreWitnessesDb.

Section MoreWitnessesTools.
Import JS Mcp Text Db Driver Examples MoreExamples Users AlterTable.

Lemma statements_per_call_witness :
  let bob := quoted (VStr "bob") in
  let queries :=
    [("REASSIGN OWNED BY " +:+ bob +:+ " TO postgres", []);
     ("DROP OWNED BY " +:+ bob, []);
     ("DROP ROLE " +:+ bob, [])] in
  let success := fun _ : Rows => say ("User/role " +:+ bob +:+ " dropped successfully.") in
  plan dropBob = Run queries success
  ∧ same (operation dropBob) "drop" && truthy (cascade dropBob) = true
  ∧ length queries = 3.
Proof.
  intros bob queries success.
  assert (plan dropBob = Run queries success) as Hplan by reflexivity.
  pose proof (statements_per_call dropBob queries success Hplan) as Hcount.
  split; [exact Hplan|]. split; [reflexivity|].
  change (same (operation dropBob) "drop" && truthy (cascade dropBob)) with true in Hcount.
  destruct Hcount as (reassign & dropOwned & dropRole & Hqueries & _).
  exact (f_equal length Hqueries).
Defined.


Lemma permissions_must_be_an_array_witness :
  "grant" ∈ ["grant"; "revoke"]
  ∧ operation grantAll = VStr "grant"
  ∧ truthy (username grantAll) = true
  ∧ truthy (permissions grantAll) = true
  ∧ truthy (target grantAll) = true
  ∧ truthy (targetType grantAll) = true
  ∧ (forall items, permissions grantAll ≠ VArr items)
  ∧ statementsOf (plan grantAll) = []
  ∧ answer (plan grantAll) Ok {| count := 0; json := "[]" |}
    = refuse "Error managing users: permissions.join is not a function".
Proof.
  assert ("grant" ∈ ["grant"; "revoke"]) as Hop by apply list_elem_of_here.
  assert (forall items, permissions grantAll ≠ VArr items) as Harray by discriminate.
  split; [exact Hop|]. do 5 (split; [reflexivity|]). split; [exact Harray|].
  exact (permissions_must_be_an_array grantAll "grant" {| count := 0; json := "[]" |}
           Hop eq_refl eq_refl eq_refl eq_refl eq_refl Harray).
Defined.

Lemma rejected_calls_still_connect_witness :
  let args := VObj [("operation", VStr "explode")] in
  let c := "postgresql://tenant-a/db" in
  let after := alone (invocation args c) [Done; Done; Done] initial in
  c ≠ ""
  ∧ client initial = None
  ∧ connectionString initial = ""
  ∧ statementsOf (plan (destructure args)) = []
  ∧ after.1 = Finished Ok
  ∧ sent (trace after.2) = [(clientOfA, "SELECT 1")]
  ∧ checkouts (trace after.2) = 1
  ∧ answer (plan (destructure args)) Ok {| count := 0; json := "[]" |}
    = refuse ("Error: Unknown operation " +:+ quoted (VStr "explode")).
Proof.
  intros args c after.
  assert (c ≠ "") as Hconn by discriminate.
  destruct (rejected_calls_still_connect args c initial {| count := 0; json := "[]" |}
              Hconn eq_refl eq_refl eq_refl) as (Hout & Hsent & Hcheckouts & Hanswer).
  split; [exact Hconn|]. do 3 (split; [reflexivity|]).
  split; [exact Hout|]. split; [exact Hsent|]. split; [exact Hcheckouts|].
  exact (Hanswer _ eq_refl).
Defined.

Lemma refused_operation_rolls_back_witness :
  let t := VStr "orders" in
  Forall (fun op => exists sql, alterStep t op = Some (Send sql)) [dropColumn]
  ∧ alterStep t addWithoutType = Some (Raise "Data type is required for ADD operation")
  ∧ transaction clientOfA (alterSteps t ([dropColumn] ++ addWithoutType :: [dropColumn])%list)
      (replicate (2 + length [dropColumn]) Done)
    = ([Ran clientOfA "ROLLBACK";
        Ran clientOfA ("ALTER TABLE " +:+ quoted t +:+ " DROP COLUMN " +:+ quoted (VStr "a"));
        Ran clientOfA "BEGIN"],
       TxFailed "Transaction failed: Data type is required for ADD operation").
Proof.
  intros t.
  assert (Forall (fun op => exists sql, alterStep t op = Some (Send sql)) [dropColumn])
    as Hpre.
  { apply Forall_cons_2; [|apply Forall_nil_2]. eexists. reflexivity. }
  split; [exact Hpre|]. split; [reflexivity|].
  exact (refused_operation_rolls_back clientOfA t [dropColumn] [dropColumn] addWithoutType
           "Data type is required for ADD operation" Hpre eq_refl).
Defined.

End MoreWitnessesTools.

Section MoreWitnessesSse.
Import Text Sse.

Lemma parsed_events_are_not_empty_witness :
  let e := {| event := None; data := Some "x" |} in
  e ∈ parseSSE ("data: x" +:+ nl +:+ nl)
  ∧ started e = true.
Proof.
  intros e.
  assert (e ∈ parseSSE ("data: x" +:+ nl +:+ nl)) as Hin by apply list_elem_of_here.
  split; [exact Hin|].
  exact (parsed_events_are_not_empty ("data: x" +:+ nl +:+ nl) e Hin).
Defined.

Lemma one_frame_one_event_witness :
  oneLine "message" = true
  ∧ oneLine "{}" = true
  ∧ trim "message" = "message"
  ∧ trim "{}" = "{}"
  ∧ "{}" ≠ ""
  ∧ parseSSE (("event: " +:+ "message") +:+ nl +:+ ("data: " +:+ "{}") +:+ nl +:+ nl)
    = [{| event := Some "message"; data := Some "{}" |}].
Proof.
  assert ("{}" ≠ "") as Hdata by discriminate.
  do 4 (split; [reflexivity|]). split; [exact Hdata|].
  exact (one_frame_one_event "message" "{}" eq_refl eq_refl eq_refl eq_refl Hdata).
Defined.

Lemma last_data_line_wins_witness :
  oneLine "first" = true
  ∧ oneLine "second" = true
  ∧ trim "second" = "second"
  ∧ "second" ≠ ""
  ∧ parseSSE (("data: " +:+ "first") +:+ nl +:+ ("data: " +:+ "second") +:+ nl +:+ nl)
    = [{| event := None; data := Some "second" |}].
Proof.
  assert ("second" ≠ "") as Hdata by discriminate.
  do 3 (split; [reflexivity|]). split; [exact Hdata|].
  exact (last_data_line_wins "first" "second" eq_refl eq_refl eq_refl Hdata).
Defined.

End MoreWitnessesSse.
